(** * Cor gaze analytics: the estimator, the event classifier, the heatmap
      engine and the real-time session, embedded from the C++ sources.

    Numbers.  The sources compute in [float] and [double].  This development
    reads both as exact rationals ([Q]): rounding, infinities and NaN are
    outside the model, every arithmetic expression keeps the shape it has in
    the source, and comparisons are the source's comparisons.  [int] is [Z]
    and [size_t] indices are [nat].  The C library functions that are not
    rational ([atan2], [sqrt], [exp]) and the two OpenCV calls whose result
    the sources do not fix ([applyColorMap], [resize]) are an interface
    ([Libm], [OpenCV]) every definition is generic in. *)

From Stdlib Require Import Ascii String.
From Stdlib Require Import ZArith QArith Qround Qabs List Bool Lia Lqa.
From Stdlib Require Import Sorted.
Import ListNotations.
Open Scope Q_scope.

(** ** C arithmetic on the rational reading *)

Definition Qltb (a b : Q) : bool := negb (Qle_bool b a).
Definition Qleb (a b : Q) : bool := Qle_bool a b.
Definition Qgeb (a b : Q) : bool := Qle_bool b a.
Definition Qgtb (a b : Q) : bool := negb (Qle_bool a b).

(** [std::min(a, b)] is [(b < a) ? b : a] and [std::max(a, b)] is
    [(a < b) ? b : a]. *)
Definition std_min (a b : Q) : Q := if Qltb b a then b else a.
Definition std_max (a b : Q) : Q := if Qltb a b then b else a.
Definition std_min_int (a b : Z) : Z := if (b <? a)%Z then b else a.
Definition std_max_int (a b : Z) : Z := if (a <? b)%Z then b else a.

Definition fabs (a : Q) : Q := Qabs a.

(** [(int)q]: truncation toward zero (the range of [int] is not modelled). *)
Definition int_of_float (q : Q) : Z := Z.quot (Qnum q) (Zpos (Qden q)).

(** An [int] converted to [size_t] for a mixed comparison (64-bit). *)
Definition size_t_of_int (z : Z) : Z := (z mod 2 ^ 64)%Z.

(** [M_PI], the double nearest to pi. *)
Definition M_PI : Q := 884279719003555 # 281474976710656.

(** The C library, as far as the sources call it. *)
Class Libm : Type := {
  atan2 : Q -> Q -> Q;
  sqrt : Q -> Q;
  exp : Q -> Q
}.

(** ** Data structures (include/cor.h) *)

Module EyeRegion.
Record t : Type := mk { x : Z; y : Z; width : Z; height : Z; confidence : Q }.
End EyeRegion.

Module PupilData.
Record t : Type := mk { x : Q; y : Q; radius : Q; confidence : Q }.
End PupilData.

Module EyeDetectionResult.
Record t : Type := mk {
  left_eye : EyeRegion.t;
  right_eye : EyeRegion.t;
  left_pupil : PupilData.t;
  right_pupil : PupilData.t;
  valid : bool;
  timestamp : Q
}.
End EyeDetectionResult.

Module GazePoint.
Record t : Type := mk { x : Q; y : Q; confidence : Q; timestamp : Q }.
End GazePoint.

Module HeatmapConfig.
Record t : Type := mk {
  color_scheme : String.string;
  intensity_multiplier : Q;
  blur_radius : Z;
  resolution_factor : Q;
  alpha_transparency : Q
}.
End HeatmapConfig.

Module AttentionRegion.
Record t : Type := mk {
  x : Q; y : Q; duration : Q; intensity : Q; visit_count : Z
}.
End AttentionRegion.

(** ** Gaze estimator (src/gaze_detection.cpp) *)

Module GazeConfig.
Record t : Type := mk {
  sensitivity_x : Q;
  sensitivity_y : Q;
  offset_x : Q;
  offset_y : Q;
  pupil_to_gaze_ratio_x : Q;
  pupil_to_gaze_ratio_y : Q;
  gaze_center_x : Q;
  gaze_center_y : Q;
  smoothing_factor : Q;
  min_confidence_threshold : Q;
  max_gaze_angle : Q
}.
End GazeConfig.

(** The static [gaze_config] with its initialiser. *)
Definition gaze_config : GazeConfig.t :=
  GazeConfig.mk 1 1 0 0 (8 # 10) (8 # 10) (1 # 2) (1 # 2) (3 # 10) (7 # 10) 45.

(** The two file-level statics the estimator reads and writes. *)
Record GazeStatics : Type := mkGazeStatics {
  prev_gaze : GazePoint.t;
  prev_gaze_valid : bool
}.

Definition gaze_statics_init : GazeStatics :=
  mkGazeStatics (GazePoint.mk 0 0 0 0) false.

Section GazeEstimator.
Context `{Libm}.
Variable cfg : GazeConfig.t.

Definition calculate_gaze_direction (st : GazeStatics)
    (eye_data : EyeDetectionResult.t) : GazePoint.t * GazeStatics :=
  let left_eye := EyeDetectionResult.left_eye eye_data in
  let right_eye := EyeDetectionResult.right_eye eye_data in
  let left_pupil := EyeDetectionResult.left_pupil eye_data in
  let right_pupil := EyeDetectionResult.right_pupil eye_data in
  let timestamp := EyeDetectionResult.timestamp eye_data in
  if negb (EyeDetectionResult.valid eye_data) then
    (GazePoint.mk 0 0 0 timestamp, st)
  else
    let avg_pupil_x := (PupilData.x left_pupil + PupilData.x right_pupil) / 2 in
    let avg_pupil_y := (PupilData.y left_pupil + PupilData.y right_pupil) / 2 in
    let avg_eye_x :=
      ((inject_Z (EyeRegion.x left_eye) + inject_Z (EyeRegion.width left_eye) / 2) +
       (inject_Z (EyeRegion.x right_eye) + inject_Z (EyeRegion.width right_eye) / 2)) / 2 in
    let avg_eye_y :=
      ((inject_Z (EyeRegion.y left_eye) + inject_Z (EyeRegion.height left_eye) / 2) +
       (inject_Z (EyeRegion.y right_eye) + inject_Z (EyeRegion.height right_eye) / 2)) / 2 in
    let pupil_displacement_x := avg_pupil_x - avg_eye_x in
    let pupil_displacement_y := avg_pupil_y - avg_eye_y in
    let gaze_displacement_x :=
      pupil_displacement_x * GazeConfig.pupil_to_gaze_ratio_x cfg * GazeConfig.sensitivity_x cfg in
    let gaze_displacement_y :=
      pupil_displacement_y * GazeConfig.pupil_to_gaze_ratio_y cfg * GazeConfig.sensitivity_y cfg in
    let x0 := GazeConfig.gaze_center_x cfg + gaze_displacement_x / 1000 + GazeConfig.offset_x cfg in
    let y0 := GazeConfig.gaze_center_y cfg + gaze_displacement_y / 1000 + GazeConfig.offset_y cfg in
    let x1 := std_max 0 (std_min 1 x0) in
    let y1 := std_max 0 (std_min 1 y0) in
    let avg_eye_confidence :=
      (EyeRegion.confidence left_eye + EyeRegion.confidence right_eye) / 2 in
    let avg_pupil_confidence :=
      (PupilData.confidence left_pupil + PupilData.confidence right_pupil) / 2 in
    let confidence0 := (avg_eye_confidence + avg_pupil_confidence) / 2 in
    let gaze_angle := atan2 gaze_displacement_y gaze_displacement_x * 180 / M_PI in
    let confidence :=
      if Qgtb (fabs gaze_angle) (GazeConfig.max_gaze_angle cfg)
      then confidence0 * (1 # 2) else confidence0 in
    let accepted := Qgeb confidence (GazeConfig.min_confidence_threshold cfg) in
    let alpha := GazeConfig.smoothing_factor cfg in
    let x2 :=
      if prev_gaze_valid st && accepted
      then alpha * GazePoint.x (prev_gaze st) + (1 - alpha) * x1 else x1 in
    let y2 :=
      if prev_gaze_valid st && accepted
      then alpha * GazePoint.y (prev_gaze st) + (1 - alpha) * y1 else y1 in
    let gaze_point := GazePoint.mk x2 y2 confidence timestamp in
    (gaze_point,
     if accepted then mkGazeStatics gaze_point true else st).

End GazeEstimator.

(** ** Event classifier (src/advanced_features.cpp) *)

Module SaccadeParams.
Record t : Type := mk {
  velocity_threshold : Q;
  acceleration_threshold : Q;
  min_duration_ms : Z;
  max_duration_ms : Z
}.
End SaccadeParams.

Module FixationParams.
Record t : Type := mk {
  position_threshold : Q;
  min_duration_ms : Z;
  stability_threshold : Q
}.
End FixationParams.

(** The statics [saccade_params] and [fixation_params] with their
    initialisers; no function of the sources writes them. *)
Definition saccade_params : SaccadeParams.t := SaccadeParams.mk 300 500 20 200.
Definition fixation_params : FixationParams.t := FixationParams.mk 25 100 15.

(** [gaze_points[i]] *)
Definition gp_at (gaze_points : list GazePoint.t) (i : nat) : GazePoint.t :=
  nth i gaze_points (GazePoint.mk 0 0 0 0).

(** The locals of one iteration of the fixation scan after its inner loop. *)
Record RunScan : Type := mkRunScan {
  end_idx : nat;
  sum_x : Q;
  sum_y : Q;
  visit_count : Z
}.

Section EventClassifier.
Context `{Libm}.
Variable sp : SaccadeParams.t.
Variable fp : FixationParams.t.

(** One iteration of the loop of [detect_saccades], at interior index [i]. *)
Definition saccade_step (gaze_points : list GazePoint.t)
    (saccade_indices : list Z) (i : nat) : list Z :=
  let prev := gp_at gaze_points (i - 1) in
  let curr := gp_at gaze_points i in
  let next := gp_at gaze_points (i + 1) in
  let dt1 := GazePoint.timestamp curr - GazePoint.timestamp prev in
  let dt2 := GazePoint.timestamp next - GazePoint.timestamp curr in
  if Qleb dt1 0 || Qleb dt2 0 then saccade_indices
  else
    let dx1 := GazePoint.x curr - GazePoint.x prev in
    let dy1 := GazePoint.y curr - GazePoint.y prev in
    let dx2 := GazePoint.x next - GazePoint.x curr in
    let dy2 := GazePoint.y next - GazePoint.y curr in
    let velocity1 := sqrt (dx1 * dx1 + dy1 * dy1) / dt1 in
    let velocity2 := sqrt (dx2 * dx2 + dy2 * dy2) / dt2 in
    let acceleration := fabs (velocity2 - velocity1) / ((dt1 + dt2) / 2) in
    if Qgtb velocity1 (SaccadeParams.velocity_threshold sp)
       || Qgtb velocity2 (SaccadeParams.velocity_threshold sp)
       || Qgtb acceleration (SaccadeParams.acceleration_threshold sp)
    then saccade_indices ++ [Z.of_nat i]
    else saccade_indices.

(** [for (size_t i = 1; i < gaze_points.size() - 1; i++)] *)
Definition detect_saccades (gaze_points : list GazePoint.t) : list Z :=
  if (length gaze_points <? 3)%nat then []
  else fold_left (saccade_step gaze_points)
                 (seq 1 (length gaze_points - 1 - 1)) [].

(** The inner loop of [detect_fixations]: [rest] is [gaze_points] from index
    [i] on, [fx], [fy] the run's first point; the loop breaks at the first
    point farther than the threshold. *)
Fixpoint scan_run (fx fy : Q) (rest : list GazePoint.t) (i : nat)
    (acc : RunScan) : RunScan :=
  match rest with
  | [] => acc
  | p :: rest' =>
      let distance :=
        sqrt ((GazePoint.x p - fx) ^ 2 + (GazePoint.y p - fy) ^ 2) in
      if Qleb distance (FixationParams.position_threshold fp / 1000)
      then scan_run fx fy rest' (S i)
             (mkRunScan i (sum_x acc + GazePoint.x p) (sum_y acc + GazePoint.y p)
                        (visit_count acc + 1))
      else acc
  end.

(** The fixation of the run [start_idx .. end_idx] (run of two points or
    more): centroid, duration, stability, intensity. *)
Definition run_fixation (gaze_points : list GazePoint.t) (start_idx : nat)
    (r : RunScan) : AttentionRegion.t :=
  let x := sum_x r / inject_Z (visit_count r) in
  let y := sum_y r / inject_Z (visit_count r) in
  let duration :=
    (GazePoint.timestamp (gp_at gaze_points (end_idx r))
     - GazePoint.timestamp (gp_at gaze_points start_idx)) * 1000 in
  let stability :=
    fold_left
      (fun (stability : Q) (i : nat) =>
         let dist :=
           sqrt ((GazePoint.x (gp_at gaze_points i) - x) ^ 2
                 + (GazePoint.y (gp_at gaze_points i) - y) ^ 2) in
         stability + dist)
      (seq start_idx (end_idx r - start_idx + 1)) 0 in
  let stability := stability / inject_Z (Z.of_nat (end_idx r - start_idx + 1)) in
  let intensity := duration / (1 + stability * 1000) in
  AttentionRegion.mk x y duration intensity (visit_count r).

(** What one iteration of the outer loop pushes on [fixations]. *)
Definition emit_run (gaze_points : list GazePoint.t) (start_idx : nat)
    (r : RunScan) : list AttentionRegion.t :=
  if (start_idx <? end_idx r)%nat then
    let fixation := run_fixation gaze_points start_idx r in
    if Qgeb (AttentionRegion.duration fixation)
            (inject_Z (FixationParams.min_duration_ms fp))
    then [fixation] else []
  else [].

(** The scan of the run that starts at [start_idx]. *)
Definition run_from (gaze_points : list GazePoint.t) (start_idx : nat) : RunScan :=
  let first := gp_at gaze_points start_idx in
  scan_run (GazePoint.x first) (GazePoint.y first)
           (skipn (start_idx + 1) gaze_points) (start_idx + 1)
           (mkRunScan start_idx (GazePoint.x first) (GazePoint.y first) 1).

(** The outer [while (start_idx < gaze_points.size())] loop.  Beside
    [fixations] it records the index range [(start_idx, end_idx)] of every
    run it scans (a ghost trace; the code keeps it only in its locals).
    [fuel] bounds the iterations: every iteration advances [start_idx], so
    [gaze_points.size()] iterations are enough. *)
Fixpoint fixation_loop (fuel : nat) (gaze_points : list GazePoint.t)
    (start_idx : nat) (fixations : list AttentionRegion.t)
    (runs : list (nat * nat)) : list AttentionRegion.t * list (nat * nat) :=
  match fuel with
  | O => (fixations, runs)
  | S fuel' =>
      if (start_idx <? length gaze_points)%nat then
        let r := run_from gaze_points start_idx in
        fixation_loop fuel' gaze_points (end_idx r + 1)
          (fixations ++ emit_run gaze_points start_idx r)
          (runs ++ [(start_idx, end_idx r)])
      else (fixations, runs)
  end.

Definition detect_fixations (gaze_points : list GazePoint.t)
    : list AttentionRegion.t :=
  match gaze_points with
  | [] => []
  | _ => fst (fixation_loop (length gaze_points) gaze_points 0 [] [])
  end.

(** The runs [detect_fixations] scans, in the order it scans them. *)
Definition fixation_runs (gaze_points : list GazePoint.t) : list (nat * nat) :=
  match gaze_points with
  | [] => []
  | _ => snd (fixation_loop (length gaze_points) gaze_points 0 [] [])
  end.

End EventClassifier.

(** ** Heatmap engine (src/heatmap.cpp) *)

(** [cv::Mat] as far as the sources use it: a depth and a grid of single
    channel values, row by row.  A default-constructed [Mat] is [Mat.empty]. *)
Inductive MatDepth : Type := CV_8U | CV_32F.

Module Mat.
Record t : Type := mk { rows : Z; cols : Z; depth : MatDepth; data : list (list Q) }.
Definition empty : t := mk 0 0 CV_8U [].
End Mat.

Inductive Colormap : Type :=
  | COLORMAP_WINTER | COLORMAP_HOT | COLORMAP_SUMMER | COLORMAP_PLASMA
  | COLORMAP_COOLWARM | COLORMAP_RAINBOW | COLORMAP_VIRIDIS | COLORMAP_PARULA
  | COLORMAP_TURBO | COLORMAP_JET.

(** The OpenCV calls whose result the sources do not determine.  [resize]
    raises on an empty source; [None] stands for a raised [cv::Exception]. *)
Class OpenCV : Type := {
  applyColorMap : Mat.t -> Colormap -> Mat.t;
  resize : Mat.t -> Z -> Z -> option Mat.t
}.

(** [Mat::zeros(rows, cols, CV_32F)]; negative sizes raise. *)
Definition Mat_zeros (rows cols : Z) : option Mat.t :=
  if ((rows <? 0) || (cols <? 0))%Z then None
  else Some (Mat.mk rows cols CV_32F
               (repeat (repeat 0 (Z.to_nat cols)) (Z.to_nat rows))).

Definition Mat_at (m : Mat.t) (row col : Z) : Q :=
  nth (Z.to_nat col) (nth (Z.to_nat row) (Mat.data m) []) 0.

Fixpoint list_update {A : Type} (l : list A) (i : nat) (f : A -> A) : list A :=
  match l, i with
  | [], _ => []
  | a :: l', O => f a :: l'
  | a :: l', S i' => a :: list_update l' i' f
  end.

(** [m.at<float>(row, col) += v] *)
Definition Mat_add_at (m : Mat.t) (row col : Z) (v : Q) : Mat.t :=
  Mat.mk (Mat.rows m) (Mat.cols m) (Mat.depth m)
    (list_update (Mat.data m) (Z.to_nat row)
       (fun r => list_update r (Z.to_nat col) (fun old => old + v))).

(** [saturate_cast<uchar>]: round to nearest, ties to even, then clamp. *)
Definition saturate_uchar (v : Q) : Q :=
  let f := Qfloor v in
  let d := v - inject_Z f in
  let r :=
    if Qltb d (1 # 2) then f
    else if Qltb (1 # 2) d then (f + 1)%Z
    else if Z.even f then f else (f + 1)%Z in
  inject_Z (std_max_int 0 (std_min_int 255 r)).

(** [m.convertTo(dst, CV_8U...)]: the depth changes, the channels stay. *)
Definition Mat_convertTo_8U (m : Mat.t) : Mat.t :=
  Mat.mk (Mat.rows m) (Mat.cols m) CV_8U (map (map saturate_uchar) (Mat.data m)).

(** [minMaxLoc]: the least and the greatest element. *)
Definition minMaxLoc (m : Mat.t) : Q * Q :=
  match concat (Mat.data m) with
  | [] => (0, 0)
  | v :: vs => (fold_left std_min vs v, fold_left std_max vs v)
  end.

(** The values [lo, lo + 1, ...] of a [for] loop over [n] integers. *)
Definition z_range (lo : Z) (n : nat) : list Z :=
  map (fun k => (lo + Z.of_nat k)%Z) (seq 0 n).

(** [for (int k = -radius; k <= radius; k++)] *)
Definition centered (radius : Z) : list Z :=
  z_range (- radius) (Z.to_nat (2 * radius + 1)).

Definition colormap_of_scheme (scheme : String.string) : Colormap :=
  if String.eqb scheme "sequential_blue"%string then COLORMAP_WINTER
  else if String.eqb scheme "sequential_red"%string then COLORMAP_HOT
  else if String.eqb scheme "sequential_green"%string then COLORMAP_SUMMER
  else if String.eqb scheme "sequential_purple"%string then COLORMAP_PLASMA
  else if String.eqb scheme "diverging_blue_red"%string then COLORMAP_COOLWARM
  else if String.eqb scheme "diverging_green_red"%string then COLORMAP_RAINBOW
  else if String.eqb scheme "diverging_blue_yellow"%string then COLORMAP_VIRIDIS
  else if String.eqb scheme "categorical_5"%string then COLORMAP_PARULA
  else if String.eqb scheme "categorical_7"%string then COLORMAP_TURBO
  else if String.eqb scheme "rainbow"%string then COLORMAP_JET
  else COLORMAP_WINTER.

(** The static [heatmap_config] with its initialiser. *)
Definition heatmap_config : HeatmapConfig.t :=
  HeatmapConfig.mk "sequential_blue"%string 1 15 1 (6 # 10).

Section HeatmapEngine.
Context `{Libm} `{OpenCV}.

(** [apply_color_scheme] overwrites its first argument with the coloured
    image. *)
Definition apply_color_scheme (heatmap : Mat.t) (scheme : String.string) : Mat.t :=
  applyColorMap heatmap (colormap_of_scheme scheme).

Definition create_gaussian_kernel (radius : Z) (sigma : Q) : Mat.t :=
  let size := (2 * radius + 1)%Z in
  let values :=
    map (fun y =>
           map (fun x => exp (- inject_Z (x * x + y * y) / (2 * sigma * sigma)))
               (centered radius))
        (centered radius) in
  let sum := fold_left (fun s row => fold_left Qplus row s) values 0 in
  Mat.mk size size CV_32F (map (map (fun value => value / sum)) values).

(** One iteration of the accumulation loop of [generate_heatmap]: the
    confidence gate, the conversion to grid coordinates, the bounds check,
    and the kernel deposit clipped at the grid edges. *)
Definition accumulate_point (config : HeatmapConfig.t) (kernel : Mat.t)
    (heatmap_width heatmap_height : Z) (heatmap : Mat.t)
    (gaze_point : GazePoint.t) : Mat.t :=
  if Qltb (GazePoint.confidence gaze_point) (1 # 2) then heatmap
  else
    let x := int_of_float (GazePoint.x gaze_point * inject_Z heatmap_width) in
    let y := int_of_float (GazePoint.y gaze_point * inject_Z heatmap_height) in
    if ((x <? 0) || (x >=? heatmap_width) || (y <? 0) || (y >=? heatmap_height))%Z
    then heatmap
    else
      let kernel_radius := HeatmapConfig.blur_radius config in
      fold_left
        (fun heatmap ky =>
           fold_left
             (fun heatmap kx =>
                let hx := (x + kx)%Z in
                let hy := (y + ky)%Z in
                if ((hx >=? 0) && (hx <? heatmap_width)
                    && (hy >=? 0) && (hy <? heatmap_height))%Z
                then
                  let kernel_value :=
                    Mat_at kernel (ky + kernel_radius) (kx + kernel_radius) in
                  let weighted_value :=
                    kernel_value * GazePoint.confidence gaze_point
                    * HeatmapConfig.intensity_multiplier config in
                  Mat_add_at heatmap hy hx weighted_value
                else heatmap)
             (centered kernel_radius) heatmap)
        (centered kernel_radius) heatmap.

(** The density field after the accumulation loop. *)
Definition density_field (config : HeatmapConfig.t) (kernel : Mat.t)
    (heatmap_width heatmap_height : Z) (heatmap : Mat.t)
    (gaze_points : list GazePoint.t) : Mat.t :=
  fold_left (accumulate_point config kernel heatmap_width heatmap_height)
            gaze_points heatmap.

(** [heatmap = (heatmap - min_val) / (max_val - min_val) * 255.0f] *)
Definition normalize_255 (heatmap : Mat.t) (min_val max_val : Q) : Mat.t :=
  Mat.mk (Mat.rows heatmap) (Mat.cols heatmap) (Mat.depth heatmap)
    (map (map (fun v => (v - min_val) / (max_val - min_val) * 255))
         (Mat.data heatmap)).

(** [generate_heatmap].  [None] is a raised [cv::Exception].  On a non-empty
    input the local [colored_heatmap] is returned (or resized) as it was
    declared: [apply_color_scheme] colours [heatmap_8bit] in place. *)
Definition generate_heatmap (gaze_points : list GazePoint.t) (width height : Z)
    (config : HeatmapConfig.t) : option Mat.t :=
  let heatmap_width :=
    int_of_float (inject_Z width * HeatmapConfig.resolution_factor config) in
  let heatmap_height :=
    int_of_float (inject_Z height * HeatmapConfig.resolution_factor config) in
  match Mat_zeros heatmap_height heatmap_width with
  | None => None
  | Some heatmap =>
      match gaze_points with
      | [] => Some (Mat_convertTo_8U heatmap)
      | _ =>
          let sigma := inject_Z (HeatmapConfig.blur_radius config) / 3 in
          let kernel :=
            create_gaussian_kernel (HeatmapConfig.blur_radius config) sigma in
          let heatmap :=
            density_field config kernel heatmap_width heatmap_height
                          heatmap gaze_points in
          let (min_val, max_val) := minMaxLoc heatmap in
          let heatmap :=
            if Qgtb max_val 0 then normalize_255 heatmap min_val max_val
            else heatmap in
          let heatmap_8bit := Mat_convertTo_8U heatmap in
          let colored_heatmap := Mat.empty in
          let heatmap_8bit :=
            apply_color_scheme heatmap_8bit (HeatmapConfig.color_scheme config) in
          if negb (Qeq_bool (HeatmapConfig.resolution_factor config) 1)
          then resize colored_heatmap width height
          else Some colored_heatmap
      end
  end.

End HeatmapEngine.

(** ** Real-time session (src/advanced_features.cpp) *)

(** The static [realtime_state].  [camera] records whether the
    [VideoCapture] is opened. *)
Module RealtimeState.
Record t : Type := mk {
  is_initialized : bool;
  camera : bool;
  recent_gaze_points : list GazePoint.t;
  max_history_size : Z
}.
End RealtimeState.

Definition realtime_state : RealtimeState.t := RealtimeState.mk false false [] 100.

(** The statics of the process: those of advanced_features.cpp and those of
    gaze_detection.cpp. *)
Record Process : Type := mkProcess {
  realtime : RealtimeState.t;
  gaze : GazeStatics
}.

(** The process as the program starts. *)
Definition process_start : Process := mkProcess realtime_state gaze_statics_init.

Section RealtimeSession.
Context `{Libm}.
Variable cfg : GazeConfig.t.

(** [init_realtime_processing]; [opened] is whether [camera.open] succeeds. *)
Definition init_realtime_processing (opened : bool) (p : Process) : Z * Process :=
  let s := realtime p in
  if RealtimeState.is_initialized s then (0%Z, p)
  else if negb opened then
    ((-1)%Z,
     mkProcess
       (RealtimeState.mk (RealtimeState.is_initialized s) false
          (RealtimeState.recent_gaze_points s) (RealtimeState.max_history_size s))
       (gaze p))
  else
    (0%Z,
     mkProcess (RealtimeState.mk true true [] (RealtimeState.max_history_size s))
               (gaze p)).

(** [process_realtime_frame]; [frame] is what [camera.read] and
    [detect_eyes_in_frame] deliver for this call: [None] when no frame could
    be read, the detector's result otherwise. *)
Definition process_realtime_frame (frame : option EyeDetectionResult.t)
    (p : Process) : GazePoint.t * Process :=
  let gaze_point := GazePoint.mk 0 0 0 0 in
  let s := realtime p in
  if negb (RealtimeState.is_initialized s) then (gaze_point, p)
  else
    match frame with
    | None => (gaze_point, p)
    | Some eye_result =>
        if EyeDetectionResult.valid eye_result then
          let (gaze_point, gaze') :=
            calculate_gaze_direction cfg (gaze p) eye_result in
          let pushed := RealtimeState.recent_gaze_points s ++ [gaze_point] in
          let history :=
            if (Z.of_nat (length pushed)
                >? size_t_of_int (RealtimeState.max_history_size s))%Z
            then tl pushed else pushed in
          (gaze_point,
           mkProcess
             (RealtimeState.mk (RealtimeState.is_initialized s)
                (RealtimeState.camera s) history
                (RealtimeState.max_history_size s))
             gaze')
        else (gaze_point, p)
    end.

Definition get_realtime_history (p : Process) : list GazePoint.t :=
  RealtimeState.recent_gaze_points (realtime p).

Definition cleanup_realtime_processing (p : Process) : Process :=
  let s := realtime p in
  if RealtimeState.is_initialized s then
    mkProcess (RealtimeState.mk false false [] (RealtimeState.max_history_size s))
              (gaze p)
  else p.

(** A polling loop: [process_realtime_frame] once per delivered frame, the
    returned points in order. *)
Fixpoint process_frames (frames : list (option EyeDetectionResult.t))
    (p : Process) : list GazePoint.t * Process :=
  match frames with
  | [] => ([], p)
  | frame :: frames' =>
      let (gaze_point, p') := process_realtime_frame frame p in
      let (points, p'') := process_frames frames' p' in
      (gaze_point :: points, p'')
  end.

(** [stop()] then [start()]. *)
Definition restart (p : Process) : Process :=
  snd (init_realtime_processing true (cleanup_realtime_processing p)).

(** A freshly constructed pipeline: the process as it starts, then [start()]. *)
Definition fresh_pipeline : Process :=
  snd (init_realtime_processing true process_start).

End RealtimeSession.

(** ** Reference instances for closed examples

    Every theorem below holds for any [Libm] and any [OpenCV].  A closed
    example needs one instance to run on.  [libm_ref] is exact where the
    examples evaluate it: [atan2 0 x = 0] for [0 <= x] (C fixes this value),
    [sqrt] on squares, [exp 0 = 1]; elsewhere it approximates. *)

Definition atan2_ref (y x : Q) : Q :=
  let ax := Qabs x in
  let ay := Qabs y in
  let a :=
    if Qeq_bool ay 0 then 0
    else if Qle_bool ay ax then (M_PI / 4) * (ay / ax)
    else M_PI / 2 - (M_PI / 4) * (ax / ay) in
  let a := if Qltb x 0 then M_PI - a else a in
  if Qltb y 0 then - a else a.

Definition sqrt_ref (q : Q) : Q :=
  Z.sqrt (Qnum q * Zpos (Qden q)) # Qden q.

Definition exp_taylor (q : Q) : Q :=
  fold_right (fun k acc => 1 + q / inject_Z (Z.of_nat k) * acc) 1 (seq 1 12).

Definition exp_ref (q : Q) : Q :=
  if Qltb q 0 then / exp_taylor (- q) else exp_taylor q.

Definition libm_ref : Libm := Build_Libm atan2_ref sqrt_ref exp_ref.

(** ** Vocabulary of the statements *)

(** A value of the closed unit interval. *)
Definition in_unit (q : Q) : Prop := 0 <= q /\ q <= 1.

(** The four confidences an [EyeDetectionResult] carries. *)
Definition detection_confidences_in_unit (e : EyeDetectionResult.t) : Prop :=
  in_unit (EyeRegion.confidence (EyeDetectionResult.left_eye e)) /\
  in_unit (EyeRegion.confidence (EyeDetectionResult.right_eye e)) /\
  in_unit (PupilData.confidence (EyeDetectionResult.left_pupil e)) /\
  in_unit (PupilData.confidence (EyeDetectionResult.right_pupil e)).

(** A smoothing anchor, once set, lies in the unit square. *)
Definition anchor_in_unit (st : GazeStatics) : Prop :=
  prev_gaze_valid st = true ->
  in_unit (GazePoint.x (prev_gaze st)) /\ in_unit (GazePoint.y (prev_gaze st)).

(** A detection with both eye boxes at the origin with no extent, both
    pupils at [(px, 0)], all four confidences [c]. *)
Definition detection (px c : Q) (valid : bool) (timestamp : Q)
    : EyeDetectionResult.t :=
  EyeDetectionResult.mk (EyeRegion.mk 0 0 0 0 c) (EyeRegion.mk 0 0 0 0 c)
    (PupilData.mk px 0 0 c) (PupilData.mk px 0 0 c) valid timestamp.

(** The last [n] elements of a list. *)
Definition lastn {A : Type} (n : nat) (l : list A) : list A :=
  skipn (length l - n) l.

(** The confidence of a detection before the angle check: the mean of the
    mean eye-box confidence and the mean pupil confidence. *)
Definition detection_confidence (e : EyeDetectionResult.t) : Q :=
  ((EyeRegion.confidence (EyeDetectionResult.left_eye e)
    + EyeRegion.confidence (EyeDetectionResult.right_eye e)) / 2
   + (PupilData.confidence (EyeDetectionResult.left_pupil e)
      + PupilData.confidence (EyeDetectionResult.right_pupil e)) / 2) / 2.

(** A session that runs, with a capacity an [int] can hold and a buffer
    within it. *)
Definition session_ok (p : Process) : Prop :=
  RealtimeState.is_initialized (realtime p) = true /\
  (0 <= RealtimeState.max_history_size (realtime p) < 2 ^ 64)%Z /\
  (Z.of_nat (length (RealtimeState.recent_gaze_points (realtime p)))
   <= RealtimeState.max_history_size (realtime p))%Z.

(** What every reachable process satisfies: the capacity is the 100 of the
    initialiser, and an anchor that is not set is the initial one. *)
Definition statics_invariant (p : Process) : Prop :=
  RealtimeState.max_history_size (realtime p) = 100%Z /\
  (prev_gaze_valid (gaze p) = false -> gaze p = gaze_statics_init).

(** The index range of a run [(start_idx, end_idx)]. *)
Definition run_indices (run : nat * nat) : list nat :=
  seq (fst run) (snd run - fst run + 1).

(** The duration of a run: last timestamp minus first, in milliseconds. *)
Definition run_duration (gaze_points : list GazePoint.t) (run : nat * nat) : Q :=
  (GazePoint.timestamp (gp_at gaze_points (snd run))
   - GazePoint.timestamp (gp_at gaze_points (fst run))) * 1000.

Section Vocabulary.
Context `{Libm}.
Variable cfg : GazeConfig.t.
Variable sp : SaccadeParams.t.
Variable fp : FixationParams.t.

(** The points the estimator returns for the valid detections among
    [frames], from the statics [st] on, in order: what a session ingests. *)
Fixpoint estimates (st : GazeStatics) (frames : list (option EyeDetectionResult.t))
    : list GazePoint.t :=
  match frames with
  | [] => []
  | None :: frames' => estimates st frames'
  | Some e :: frames' =>
      if EyeDetectionResult.valid e then
        fst (calculate_gaze_direction cfg st e)
        :: estimates (snd (calculate_gaze_direction cfg st e)) frames'
      else estimates st frames'
  end.

(** The states a process can be in: the statics as initialised, then any
    sequence of [start()], [ingest], [stop()], and of estimator calls made by
    the batch paths, which share the anchor. *)
Inductive reachable : Process -> Prop :=
  | reach_start : reachable process_start
  | reach_init opened p :
      reachable p -> reachable (snd (init_realtime_processing opened p))
  | reach_frame frame p :
      reachable p -> reachable (snd (process_realtime_frame cfg frame p))
  | reach_cleanup p :
      reachable p -> reachable (cleanup_realtime_processing p)
  | reach_estimate e p :
      reachable p ->
      reachable (mkProcess (realtime p)
                           (snd (calculate_gaze_direction cfg (gaze p) e))).

(** The velocity of the segment from [a] to [b]: Euclidean distance over
    elapsed time. *)
Definition segment_velocity (a b : GazePoint.t) : Q :=
  sqrt ((GazePoint.x b - GazePoint.x a) * (GazePoint.x b - GazePoint.x a)
        + (GazePoint.y b - GazePoint.y a) * (GazePoint.y b - GazePoint.y a))
  / (GazePoint.timestamp b - GazePoint.timestamp a).

(** The saccade criterion as the specification words it, for the triple
    around index [i]: both elapsed times positive, and the incoming velocity
    or the outgoing velocity above the velocity threshold, or the
    acceleration (absolute velocity delta over the mean elapsed time) above
    the acceleration threshold. *)
Definition saccade_criterion (gaze_points : list GazePoint.t) (i : nat) : Prop :=
  let prev := gp_at gaze_points (i - 1) in
  let curr := gp_at gaze_points i in
  let next := gp_at gaze_points (i + 1) in
  let dt1 := GazePoint.timestamp curr - GazePoint.timestamp prev in
  let dt2 := GazePoint.timestamp next - GazePoint.timestamp curr in
  0 < dt1 /\ 0 < dt2 /\
  (SaccadeParams.velocity_threshold sp < segment_velocity prev curr \/
   SaccadeParams.velocity_threshold sp < segment_velocity curr next \/
   SaccadeParams.acceleration_threshold sp
   < Qabs (segment_velocity curr next - segment_velocity prev curr)
     / ((dt1 + dt2) / 2)).

(** The same criterion as a test. *)
Definition saccade_test (gaze_points : list GazePoint.t) (i : nat) : bool :=
  let prev := gp_at gaze_points (i - 1) in
  let curr := gp_at gaze_points i in
  let next := gp_at gaze_points (i + 1) in
  let dt1 := GazePoint.timestamp curr - GazePoint.timestamp prev in
  let dt2 := GazePoint.timestamp next - GazePoint.timestamp curr in
  Qltb 0 dt1 && Qltb 0 dt2 &&
  (Qltb (SaccadeParams.velocity_threshold sp) (segment_velocity prev curr)
   || Qltb (SaccadeParams.velocity_threshold sp) (segment_velocity curr next)
   || Qltb (SaccadeParams.acceleration_threshold sp)
        (Qabs (segment_velocity curr next - segment_velocity prev curr)
         / ((dt1 + dt2) / 2))).

(** The runs the outer loop scans from [start_idx] on, without the
    accumulators. *)
Fixpoint runs_from (fuel : nat) (gaze_points : list GazePoint.t)
    (start_idx : nat) : list (nat * nat) :=
  match fuel with
  | O => []
  | S fuel' =>
      if (start_idx <? length gaze_points)%nat then
        (start_idx, end_idx (run_from fp gaze_points start_idx))
        :: runs_from fuel' gaze_points
             (end_idx (run_from fp gaze_points start_idx) + 1)
      else []
  end.

(** What the iteration that scans the run starting at [fst run] pushes. *)
Definition emitted (gaze_points : list GazePoint.t) (run : nat * nat)
    : list AttentionRegion.t :=
  emit_run fp gaze_points (fst run) (run_from fp gaze_points (fst run)).

End Vocabulary.

(** ** Data of the closed examples *)

(** A first session for the closed examples: from a fresh pipeline, one
    valid full-confidence detection with the pupils 625 right of the eye
    centres, which the estimator clamps to [x = 1] and accepts as anchor. *)
Definition session_one : Process :=
  snd (process_realtime_frame (H := libm_ref) gaze_config
         (Some (detection 625 1 true 0)) fresh_pipeline).

(** A session of capacity 3, just started. *)
Definition session_of_three : Process :=
  mkProcess (RealtimeState.mk true true [] 3) gaze_statics_init.

(** Five valid detections, told apart by pupil position and timestamp. *)
Definition five_frames : list (option EyeDetectionResult.t) :=
  [Some (detection 0 1 true 0); Some (detection 125 1 true 1);
   Some (detection 250 1 true 2); Some (detection 375 1 true 3);
   Some (detection 500 1 true 4)].

(** Two samples at the same place, 100 ms apart, and 99 ms apart. *)
Definition samples_100ms : list GazePoint.t :=
  [GazePoint.mk (1 # 2) (1 # 2) 1 0; GazePoint.mk (1 # 2) (1 # 2) 1 (100 # 1000)].
Definition samples_99ms : list GazePoint.t :=
  [GazePoint.mk (1 # 2) (1 # 2) 1 0; GazePoint.mk (1 # 2) (1 # 2) 1 (99 # 1000)].

Ltac session_ok_by_computation :=
  unfold session_ok; repeat split; try reflexivity; vm_compute; discriminate.

(** Closed facts about concrete data. *)
Ltac by_computation := repeat constructor; vm_compute; discriminate.

(** * Further functions of the sources

    The functions around the estimator, the classifier, the density field
    and the session: those they call and those that call them. *)

(** ** Attention summary and batch paths (src/advanced_features.cpp,
       src/video_processing.cpp) *)

Module AttentionAnalysis.
Record t : Type := mk {
  regions : list AttentionRegion.t;
  total_duration : Q;
  average_fixation_duration : Q;
  saccade_count : Z
}.
End AttentionAnalysis.

Section AttentionSummary.
Context `{Libm}.
Variable sp : SaccadeParams.t.
Variable fp : FixationParams.t.

Definition analyze_attention_patterns (gaze_points : list GazePoint.t)
    : AttentionAnalysis.t :=
  match gaze_points with
  | [] => AttentionAnalysis.mk [] 0 0 0
  | _ =>
      let regions := detect_fixations fp gaze_points in
      let total_fixation_duration :=
        fold_left (fun total region => total + AttentionRegion.duration region)
                  regions 0 in
      let average_fixation_duration :=
        match regions with
        | [] => 0
        | _ => total_fixation_duration / inject_Z (Z.of_nat (length regions))
        end in
      let saccade_indices := detect_saccades sp gaze_points in
      let saccade_count := Z.of_nat (length saccade_indices) in
      let total_duration :=
        if (1 <? length gaze_points)%nat then
          (GazePoint.timestamp (gp_at gaze_points (length gaze_points - 1))
           - GazePoint.timestamp (gp_at gaze_points 0)) * 1000
        else 0 in
      AttentionAnalysis.mk regions total_duration average_fixation_duration
                           saccade_count
  end.
End AttentionSummary.

Section BatchPaths.
Context `{Libm}.
Variable cfg : GazeConfig.t.
Variable sp : SaccadeParams.t.
Variable fp : FixationParams.t.

(** The frame loop of [export_analysis_to_json_wrapper]: [frames] are the
    detector's results for the frames read, in order. *)
Fixpoint collect_for_export (frames : list EyeDetectionResult.t)
    (st : GazeStatics) (gaze_points : list GazePoint.t)
    : list GazePoint.t * GazeStatics :=
  match frames with
  | [] => (gaze_points, st)
  | eye_result :: frames' =>
      if EyeDetectionResult.valid eye_result then
        let (gaze_point, st') := calculate_gaze_direction cfg st eye_result in
        if Qgtb (GazePoint.confidence gaze_point) (1 # 2)
        then collect_for_export frames' st' (gaze_points ++ [gaze_point])
        else collect_for_export frames' st' gaze_points
      else collect_for_export frames' st gaze_points
  end.

(** [export_analysis_to_json]: [-1] when the file cannot be created, else
    [0] once the document is written. *)
Definition export_analysis_to_json (created : bool)
    (analysis : AttentionAnalysis.t) : Z :=
  if created then 0%Z else (-1)%Z.

(** [export_analysis_to_json_wrapper]; [supported] is the answer of
    [is_supported_video_format], [opened] whether the capture opens. *)
Definition export_analysis_to_json_wrapper (supported opened created : bool)
    (frames : list EyeDetectionResult.t) (st : GazeStatics) : Z * GazeStatics :=
  if negb supported then ((-1)%Z, st)
  else if negb opened then ((-1)%Z, st)
  else
    let (gaze_points, st') := collect_for_export frames st [] in
    match gaze_points with
    | [] => ((-1)%Z, st')
    | _ =>
        let analysis := analyze_attention_patterns sp fp gaze_points in
        (export_analysis_to_json created analysis, st')
    end.

(** The frame loop of [process_video_file], without the drawing and the
    video writer: every [frame_skip_factor]-th frame is estimated, valid or
    not, and kept when its confidence exceeds 0.3.  The state is
    [(gaze_points, processed_frames, frame_number)]. *)
Fixpoint video_frame_loop (frame_skip_factor : Z)
    (frames : list EyeDetectionResult.t) (st : GazeStatics)
    (gaze_points : list GazePoint.t) (processed_frames frame_number : Z)
    : list GazePoint.t * Z * GazeStatics :=
  match frames with
  | [] => (gaze_points, processed_frames, st)
  | eye_result :: frames' =>
      let frame_number := (frame_number + 1)%Z in
      if negb (Z.rem (frame_number - 1) frame_skip_factor =? 0)%Z
      then video_frame_loop frame_skip_factor frames' st gaze_points
             processed_frames frame_number
      else
        let (gaze_point, st') := calculate_gaze_direction cfg st eye_result in
        let gaze_points :=
          if Qgtb (GazePoint.confidence gaze_point) (3 # 10)
          then gaze_points ++ [gaze_point] else gaze_points in
        video_frame_loop frame_skip_factor frames' st' gaze_points
          (processed_frames + 1) frame_number
  end.
End BatchPaths.

(** ** The binocular estimate (src/gaze_detection.cpp) *)

(** [calculate_binocular_gaze] (static, gaze_detection.cpp). *)
Definition calculate_binocular_gaze (cfg : GazeConfig.t)
    (eye_data : EyeDetectionResult.t) : GazePoint.t :=
  let left_eye := EyeDetectionResult.left_eye eye_data in
  let right_eye := EyeDetectionResult.right_eye eye_data in
  let left_pupil := EyeDetectionResult.left_pupil eye_data in
  let right_pupil := EyeDetectionResult.right_pupil eye_data in
  let timestamp := EyeDetectionResult.timestamp eye_data in
  if negb (EyeDetectionResult.valid eye_data) then GazePoint.mk 0 0 0 timestamp
  else
    let left_eye_center_x :=
      inject_Z (EyeRegion.x left_eye) + inject_Z (EyeRegion.width left_eye) / 2 in
    let left_eye_center_y :=
      inject_Z (EyeRegion.y left_eye) + inject_Z (EyeRegion.height left_eye) / 2 in
    let right_eye_center_x :=
      inject_Z (EyeRegion.x right_eye) + inject_Z (EyeRegion.width right_eye) / 2 in
    let right_eye_center_y :=
      inject_Z (EyeRegion.y right_eye) + inject_Z (EyeRegion.height right_eye) / 2 in
    let left_gaze_x :=
      (PupilData.x left_pupil - left_eye_center_x) * GazeConfig.sensitivity_x cfg in
    let left_gaze_y :=
      (PupilData.y left_pupil - left_eye_center_y) * GazeConfig.sensitivity_y cfg in
    let right_gaze_x :=
      (PupilData.x right_pupil - right_eye_center_x) * GazeConfig.sensitivity_x cfg in
    let right_gaze_y :=
      (PupilData.y right_pupil - right_eye_center_y) * GazeConfig.sensitivity_y cfg in
    let avg_gaze_x := (left_gaze_x + right_gaze_x) / 2 in
    let avg_gaze_y := (left_gaze_y + right_gaze_y) / 2 in
    let x := GazeConfig.gaze_center_x cfg + avg_gaze_x / 1000 + GazeConfig.offset_x cfg in
    let y := GazeConfig.gaze_center_y cfg + avg_gaze_y / 1000 + GazeConfig.offset_y cfg in
    let x := std_max 0 (std_min 1 x) in
    let y := std_max 0 (std_min 1 y) in
    let left_confidence := PupilData.confidence left_pupil in
    let right_confidence := PupilData.confidence right_pupil in
    let confidence := (left_confidence + right_confidence) / 2 in
    let gaze_consistency :=
      1 - fabs (left_gaze_x - right_gaze_x) / 100
        - fabs (left_gaze_y - right_gaze_y) / 100 in
    let gaze_consistency := std_max 0 (std_min 1 gaze_consistency) in
    GazePoint.mk x y (confidence * gaze_consistency) timestamp.

(** ** Attention map, advanced heatmap, image output (src/heatmap.cpp,
       src/advanced_features.cpp) *)

(** [m.empty()] *)
Definition Mat_is_empty (m : Mat.t) : bool :=
  ((Mat.rows m =? 0) || (Mat.cols m =? 0))%Z.

Section MoreHeatmaps.
Context `{Libm} `{OpenCV}.
(** [imwrite], the file system's answer. *)
Variable imwrite : string -> Mat.t -> bool.
(** [normalize(m, m, 0, 255, NORM_MINMAX)] and [line(m, start, end,
    Scalar(1.0f), 3)] of OpenCV. *)
Variable normalize_minmax : Mat.t -> Mat.t.
Variable line : Mat.t -> Q * Q -> Q * Q -> Mat.t.

Definition save_heatmap_image (heatmap : Mat.t) (filename : string) : Z :=
  if Mat_is_empty heatmap then (-1)%Z
  else if imwrite filename heatmap then 0%Z else (-1)%Z.

(** One iteration of the loop of [generate_attention_map]. *)
Definition attention_point (width height : Z) (attention_map : Mat.t)
    (gaze_point : GazePoint.t) : Mat.t :=
  if Qltb (GazePoint.confidence gaze_point) (6 # 10) then attention_map
  else
    let x := int_of_float (GazePoint.x gaze_point * inject_Z width) in
    let y := int_of_float (GazePoint.y gaze_point * inject_Z height) in
    if ((x >=? 0) && (x <? width) && (y >=? 0) && (y <? height))%Z then
      let radius := 30%Z in
      fold_left
        (fun attention_map dy =>
           fold_left
             (fun attention_map dx =>
                let nx := (x + dx)%Z in
                let ny := (y + dy)%Z in
                if ((nx >=? 0) && (nx <? width) && (ny >=? 0) && (ny <? height))%Z
                then
                  let distance := sqrt (inject_Z (dx * dx + dy * dy)) in
                  if Qleb distance (inject_Z radius) then
                    let weight :=
                      (1 - distance / inject_Z radius)
                      * GazePoint.confidence gaze_point in
                    Mat_add_at attention_map ny nx weight
                  else attention_map
                else attention_map)
             (centered radius) attention_map)
        (centered radius) attention_map
    else attention_map.

(** The attention field before normalisation. *)
Definition attention_field (width height : Z) (attention_map : Mat.t)
    (gaze_points : list GazePoint.t) : Mat.t :=
  fold_left (attention_point width height) gaze_points attention_map.

Definition generate_attention_map (gaze_points : list GazePoint.t)
    (width height : Z) : option Mat.t :=
  match Mat_zeros height width with
  | None => None
  | Some attention_map =>
      match gaze_points with
      | [] => Some attention_map
      | _ =>
          let attention_map :=
            attention_field width height attention_map gaze_points in
          let attention_map := normalize_minmax attention_map in
          let attention_8bit := Mat_convertTo_8U attention_map in
          Some (applyColorMap attention_8bit COLORMAP_HOT)
      end
  end.

(** One iteration of the fixation loop of [generate_advanced_heatmap]. *)
Definition paint_fixation (width height : Z) (heatmap : Mat.t)
    (fixation : AttentionRegion.t) : Mat.t :=
  let x := int_of_float (AttentionRegion.x fixation * inject_Z width) in
  let y := int_of_float (AttentionRegion.y fixation * inject_Z height) in
  if ((x >=? 0) && (x <? width) && (y >=? 0) && (y <? height))%Z then
    let radius := int_of_float (AttentionRegion.duration fixation / 10) in
    let radius := std_max_int 5 (std_min_int 50 radius) in
    fold_left
      (fun heatmap dy =>
         fold_left
           (fun heatmap dx =>
              let nx := (x + dx)%Z in
              let ny := (y + dy)%Z in
              if ((nx >=? 0) && (nx <? width) && (ny >=? 0) && (ny <? height))%Z
              then
                let distance := sqrt (inject_Z (dx * dx + dy * dy)) in
                if Qleb distance (inject_Z radius) then
                  let weight :=
                    (1 - distance / inject_Z radius)
                    * AttentionRegion.intensity fixation / 1000 in
                  Mat_add_at heatmap ny nx weight
                else heatmap
              else heatmap)
           (centered radius) heatmap)
      (centered radius) heatmap
  else heatmap.

(** One iteration of the saccade loop of [generate_advanced_heatmap]. *)
Definition draw_saccade (gaze_points : list GazePoint.t) (width height : Z)
    (heatmap : Mat.t) (idx : Z) : Mat.t :=
  if ((idx >? 0) && (idx <? Z.of_nat (length gaze_points) - 1))%Z then
    let before := gp_at gaze_points (Z.to_nat (idx - 1)) in
    let after := gp_at gaze_points (Z.to_nat (idx + 1)) in
    line heatmap
      (GazePoint.x before * inject_Z width, GazePoint.y before * inject_Z height)
      (GazePoint.x after * inject_Z width, GazePoint.y after * inject_Z height)
  else heatmap.

(** [generate_advanced_heatmap]; [config] is what [get_heatmap_config]
    returns, [sp] and [fp] the statics of the event classifier. *)
Definition generate_advanced_heatmap (sp : SaccadeParams.t) (fp : FixationParams.t)
    (config : HeatmapConfig.t) (gaze_points : list GazePoint.t)
    (width height : Z) (mode : string) : option Mat.t :=
  match Mat_zeros height width with
  | None => None
  | Some heatmap =>
      let finish (heatmap : Mat.t) :=
        let heatmap := normalize_minmax heatmap in
        let heatmap_8bit := Mat_convertTo_8U heatmap in
        Some (applyColorMap heatmap_8bit COLORMAP_JET) in
      if String.eqb mode "fixation" then
        finish (fold_left (paint_fixation width height)
                          (detect_fixations fp gaze_points) heatmap)
      else if String.eqb mode "saccade" then
        finish (fold_left (draw_saccade gaze_points width height)
                          (detect_saccades sp gaze_points) heatmap)
      else generate_heatmap gaze_points width height config
  end.

End MoreHeatmaps.

(** ** Utilities (src/cor_module.cpp)

    A C string is its characters before the terminating NUL. *)

(** [strrchr(s, c)]: the offset of the last [c] in [s], [None] for [NULL]. *)
Fixpoint strrchr (s : string) (c : ascii) : option nat :=
  match s with
  | EmptyString => None
  | String a s' =>
      match strrchr s' c with
      | Some i => Some (S i)
      | None => if Ascii.eqb a c then Some 0%nat else None
      end
  end.

(** The extensions [is_supported_video_format] lists. *)
Definition supported : list string :=
  ["mp4"; "avi"; "mov"; "mkv"; "wmv"; "flv"; "webm";
   "MP4"; "AVI"; "MOV"; "MKV"; "WMV"; "FLV"; "WEBM"]%string.

Section Utilities.
(** Whether [fopen(filename, "r")] succeeds. *)
Variable readable : string -> bool.

Definition is_supported_video_format (filename : option string) : bool :=
  match filename with
  | None => false
  | Some filename =>
      if negb (readable filename) then false
      else
        match strrchr filename "."%char with
        | None => false
        | Some dot =>
            let ext :=
              substring (dot + 1) (String.length filename - (dot + 1)) filename in
            existsb (String.eqb ext) supported
        end
  end.

(** [get_output_filename]; the allocation is taken to succeed. *)
Definition get_output_filename (input_path : option string)
    (suffix extension : string) : option string :=
  match input_path with
  | None => None
  | Some input_path =>
      let last_dot := strrchr input_path "."%char in
      let last_slash := strrchr input_path "/"%char in
      let last_slash :=
        match last_slash with
        | None => strrchr input_path "\"%char
        | Some _ => last_slash
        end in
      let base_len :=
        match last_dot with
        | Some dot =>
            match last_slash with
            | None => dot
            | Some slash =>
                if (slash <? dot)%nat then dot else String.length input_path
            end
        | None => String.length input_path
        end in
      Some (substring 0 base_len input_path ++ suffix ++ extension)%string
  end.

End Utilities.



(** ** Confidence assessment (src/cor_module.cpp) *)

Module ConfidenceAssessment.
Record t : Type := mk {
  high_confidence_points : Z;
  medium_confidence_points : Z;
  low_confidence_points : Z;
  average_confidence : Q;
  detection_rate : Q;
  high_confidence_ratio : Q;
  accuracy_confidence : Q
}.
End ConfidenceAssessment.

(** The counting loop of [display_confidence_assessment]: the running
    [(total_confidence, high, medium, low)]. *)
Definition count_confidence (acc : Q * Z * Z * Z) (point : GazePoint.t)
    : Q * Z * Z * Z :=
  let '(total_confidence, high, medium, low) := acc in
  let total_confidence := total_confidence + GazePoint.confidence point in
  if Qgeb (GazePoint.confidence point) (8 # 10)
  then (total_confidence, (high + 1)%Z, medium, low)
  else if Qgeb (GazePoint.confidence point) (6 # 10)
  then (total_confidence, high, (medium + 1)%Z, low)
  else (total_confidence, high, medium, (low + 1)%Z).

(** The figures [display_confidence_assessment] prints; [None] when it
    reports that there is no valid gaze data. *)
Definition display_confidence_assessment (gaze_points : list GazePoint.t)
    (total_frames : Z) : option ConfidenceAssessment.t :=
  match gaze_points with
  | [] => None
  | _ =>
      if (total_frames <=? 0)%Z then None
      else
        let '(total_confidence, high, medium, low) :=
          fold_left count_confidence gaze_points (0, 0%Z, 0%Z, 0%Z) in
        let size := inject_Z (Z.of_nat (length gaze_points)) in
        let average_confidence := total_confidence / size in
        let detection_rate := size / inject_Z total_frames in
        let high_confidence_ratio := inject_Z high / size in
        let accuracy_confidence :=
          (average_confidence * (5 # 10) + detection_rate * (3 # 10)
           + high_confidence_ratio * (2 # 10)) * 100 in
        Some (ConfidenceAssessment.mk high medium low average_confidence
                detection_rate high_confidence_ratio accuracy_confidence)
  end.

(** ** Eye detector (src/eye_detection.cpp) *)

Module Rect.
Record t : Type := mk { x : Z; y : Z; width : Z; height : Z }.
End Rect.

Module EyeConfig.
Record t : Type := mk {
  scale_factor : Q;
  min_neighbors : Z;
  min_size : Z * Z;
  pupil_threshold : Q;
  pupil_min_radius : Z;
  pupil_max_radius : Z;
  left_eye_offset : Q * Q;
  right_eye_offset : Q * Q
}.
End EyeConfig.

(** The static [eye_config] with its initialiser. *)
Definition eye_config : EyeConfig.t :=
  EyeConfig.mk (11 # 10) 5 (30%Z, 30%Z) 50 5 30 (0, 0) (0, 0).

(** What OpenCV answers during one call of [detect_eyes_in_frame]: whether
    the cascade is loaded, the tick time, the frame size, the rectangles of
    [detectMultiScale] as [std::sort] leaves them, and for each eye region
    the circles of [detect_pupils_hough] and the point of
    [detect_pupil_contour]. *)
Module Detection.
Record t : Type := mk {
  cascade_ready : bool;
  seconds : Q;
  cols : Z;
  rows : Z;
  eyes : list Rect.t;
  left_circles : list (Q * Q * Q);
  left_contour : Q * Q;
  right_circles : list (Q * Q * Q);
  right_contour : Q * Q
}.
End Detection.

Section Detector.
(** [a &= b] on [cv::Rect]. *)
Variable rect_and : Rect.t -> Rect.t -> Rect.t.
Variable cfg : EyeConfig.t.

(** The pupil of one eye: the first Hough circle, else the contour centre,
    else the centre of the eye box. *)
Definition locate_pupil (eye_rect : Rect.t) (circles : list (Q * Q * Q))
    (pupil_center : Q * Q) : PupilData.t :=
  match circles with
  | (cx, cy, r) :: _ =>
      PupilData.mk (inject_Z (Rect.x eye_rect) + cx)
                   (inject_Z (Rect.y eye_rect) + cy) r (7 # 10)
  | [] =>
      if Qgeb (fst pupil_center) 0 then
        PupilData.mk (inject_Z (Rect.x eye_rect) + fst pupil_center)
                     (inject_Z (Rect.y eye_rect) + snd pupil_center) 8 (6 # 10)
      else
        PupilData.mk
          (inject_Z (Rect.x eye_rect + Z.quot (Rect.width eye_rect) 2))
          (inject_Z (Rect.y eye_rect + Z.quot (Rect.height eye_rect) 2))
          8 (3 # 10)
  end.

(** [detect_eyes_in_frame]; [result] is the local as declared, whose fields
    are not initialised. *)
Definition detect_eyes_in_frame (result : EyeDetectionResult.t)
    (d : Detection.t) : EyeDetectionResult.t :=
  let invalid :=
    EyeDetectionResult.mk
      (EyeDetectionResult.left_eye result) (EyeDetectionResult.right_eye result)
      (EyeDetectionResult.left_pupil result) (EyeDetectionResult.right_pupil result)
      false (Detection.seconds d) in
  if negb (Detection.cascade_ready d) then invalid
  else
    match Detection.eyes d with
    | left_eye_rect :: right_eye_rect :: _ =>
        let left_eye_rect :=
          Rect.mk
            (Rect.x left_eye_rect
             + int_of_float (fst (EyeConfig.left_eye_offset cfg)))
            (Rect.y left_eye_rect
             + int_of_float (snd (EyeConfig.left_eye_offset cfg)))
            (Rect.width left_eye_rect) (Rect.height left_eye_rect) in
        let right_eye_rect :=
          Rect.mk
            (Rect.x right_eye_rect
             + int_of_float (fst (EyeConfig.right_eye_offset cfg)))
            (Rect.y right_eye_rect
             + int_of_float (snd (EyeConfig.right_eye_offset cfg)))
            (Rect.width right_eye_rect) (Rect.height right_eye_rect) in
        let bounds := Rect.mk 0 0 (Detection.cols d) (Detection.rows d) in
        let left_eye_rect := rect_and left_eye_rect bounds in
        let right_eye_rect := rect_and right_eye_rect bounds in
        EyeDetectionResult.mk
          (EyeRegion.mk (Rect.x left_eye_rect) (Rect.y left_eye_rect)
             (Rect.width left_eye_rect) (Rect.height left_eye_rect) (8 # 10))
          (EyeRegion.mk (Rect.x right_eye_rect) (Rect.y right_eye_rect)
             (Rect.width right_eye_rect) (Rect.height right_eye_rect) (8 # 10))
          (locate_pupil left_eye_rect (Detection.left_circles d)
                        (Detection.left_contour d))
          (locate_pupil right_eye_rect (Detection.right_circles d)
                        (Detection.right_contour d))
          true (Detection.seconds d)
    | _ => invalid
    end.

End Detector.

(** ** The batch run (src/heatmap.cpp, src/video_processing.cpp) *)

Section VideoFile.
Context `{Libm} `{OpenCV}.
Variable imwrite : string -> Mat.t -> bool.
(** [addWeighted] of OpenCV; [None] when it raises. *)
Variable addWeighted : Mat.t -> Q -> Mat.t -> Q -> option Mat.t.
Variable cfg : GazeConfig.t.

Definition create_heatmap_overlay (background heatmap : Mat.t) (alpha : Q)
    : option Mat.t :=
  let resized :=
    if negb ((Mat.cols background =? Mat.cols heatmap)
             && (Mat.rows background =? Mat.rows heatmap))%Z
    then resize heatmap (Mat.cols background) (Mat.rows background)
    else Some heatmap in
  match resized with
  | None => None
  | Some heatmap => addWeighted background (1 - alpha) heatmap alpha
  end.

(** [process_video_file]: [opened] and [writer_opened] are the answers of
    the capture and the video writer, [frames] the detector's results for
    the frames read, [overlay_frame] the frame read for the overlay, if one
    is.  The result is the returned [int], [None] for a raised
    [cv::Exception]. *)
Definition process_video_file (opened writer_opened : bool)
    (frame_skip_factor : Z) (frames : list EyeDetectionResult.t)
    (frame_width frame_height : Z) (heatmap_config : HeatmapConfig.t)
    (overlay_frame : option Mat.t) (video_path : string) (visualize : bool)
    (st : GazeStatics) : option Z * GazeStatics :=
  if negb opened then (Some (-1)%Z, st)
  else if visualize && negb writer_opened then (Some (-1)%Z, st)
  else
    let '(gaze_points, processed_frames, st') :=
      video_frame_loop cfg frame_skip_factor frames st [] 0 0 in
    match gaze_points with
    | [] => (Some (-1)%Z, st')
    | _ =>
        match generate_heatmap gaze_points frame_width frame_height
                               heatmap_config with
        | None => (None, st')
        | Some pure_heatmap =>
            match get_output_filename (Some video_path) "_heatmap-pure" ".jpg" with
            | None => (None, st')
            | Some pure_heatmap_path =>
                if negb (save_heatmap_image imwrite pure_heatmap
                                            pure_heatmap_path =? 0)%Z
                then (Some (-1)%Z, st')
                else
                  match overlay_frame with
                  | None => (Some 0%Z, st')
                  | Some overlay_frame =>
                      match create_heatmap_overlay overlay_frame pure_heatmap
                              (HeatmapConfig.alpha_transparency heatmap_config)
                      with
                      | None => (None, st')
                      | Some overlay_heatmap =>
                          match get_output_filename (Some video_path)
                                  "_heatmap-overlay" ".jpg" with
                          | None => (None, st')
                          | Some overlay_heatmap_path =>
                              if negb (save_heatmap_image imwrite overlay_heatmap
                                         overlay_heatmap_path =? 0)%Z
                              then (Some (-1)%Z, st')
                              else (Some 0%Z, st')
                          end
                      end
                  end
            end
        end
    end.

End VideoFile.

(** ** Further vocabulary *)

(** The points of a run. *)
Definition run_points (gaze_points : list GazePoint.t) (run : nat * nat)
    : list GazePoint.t :=
  firstn (snd run - fst run + 1) (skipn (fst run) gaze_points).

(** The sum of a list of rationals. *)
Definition Qsum (l : list Q) : Q := fold_right Qplus 0 l.

(** The shape of a [Mat]: its sizes, depth and the length of every row. *)
Definition Mat_shape (m : Mat.t) : Z * Z * MatDepth * list nat :=
  (Mat.rows m, Mat.cols m, Mat.depth m, map (@length Q) (Mat.data m)).

Definition Mat_nonneg (m : Mat.t) : Prop :=
  Forall (Forall (fun v => 0 <= v)) (Mat.data m).

(** The confidence gate of [generate_heatmap]. *)
Definition passes_heatmap_gate (gaze_point : GazePoint.t) : bool :=
  negb (Qltb (GazePoint.confidence gaze_point) (1 # 2)).

(** The confidence gate of [generate_attention_map]. *)
Definition passes_attention_gate (gaze_point : GazePoint.t) : bool :=
  negb (Qltb (GazePoint.confidence gaze_point) (6 # 10)).

(** A gaze point of the unit square. *)
Definition point_in_unit (g : GazePoint.t) : Prop :=
  in_unit (GazePoint.x g) /\ in_unit (GazePoint.y g).

(** What holds of the statics in every reachable process. *)
Definition pipeline_invariant (p : Process) : Prop :=
  (length (RealtimeState.recent_gaze_points (realtime p)) <= 100)%nat /\
  (RealtimeState.is_initialized (realtime p) = false ->
   RealtimeState.recent_gaze_points (realtime p) = []) /\
  Forall point_in_unit (RealtimeState.recent_gaze_points (realtime p)) /\
  anchor_in_unit (gaze p) /\
  RealtimeState.max_history_size (realtime p) = 100%Z.

(** [c] does not occur in [s]. *)
Definition free_of (c : ascii) (s : string) : Prop := strrchr s c = None.

(** One of the three confidences the detector gives a pupil. *)
Definition pupil_confidence_level (q : Q) : Prop :=
  q = 7 # 10 \/ q = 6 # 10 \/ q = 3 # 10.

Section FurtherVocabulary.
Context `{Libm}.
Variable cfg : GazeConfig.t.
Variable fp : FixationParams.t.

(** [b] is within the position threshold of [a], as the inner loop tests it. *)
Definition within_threshold (a b : GazePoint.t) : bool :=
  Qleb (sqrt ((GazePoint.x b - GazePoint.x a) ^ 2
              + (GazePoint.y b - GazePoint.y a) ^ 2))
       (FixationParams.position_threshold fp / 1000).

(** The estimate of a detection when no anchor is set. *)
Definition unsmoothed (e : EyeDetectionResult.t) : GazePoint.t :=
  fst (calculate_gaze_direction cfg gaze_statics_init e).

(** The anchor after the valid detections of [frames]. *)
Fixpoint anchor_after (st : GazeStatics) (frames : list EyeDetectionResult.t)
    : GazeStatics :=
  match frames with
  | [] => st
  | e :: frames' =>
      if EyeDetectionResult.valid e
      then anchor_after (snd (calculate_gaze_direction cfg st e)) frames'
      else anchor_after st frames'
  end.

End FurtherVocabulary.

(** ** Further reference instances and example data *)

(** [opencv_ref] stands in for OpenCV in closed examples: [resize] raises on
    the empty image, as OpenCV's does, and otherwise answers a blank image of
    the requested size; [applyColorMap] answers its source.  [rect_and_ref]
    is the intersection of two rectangles, the empty rectangle when they do
    not meet. *)
Definition opencv_ref : OpenCV :=
  Build_OpenCV
    (fun src _ => src)
    (fun src width height =>
       if Mat_is_empty src then None
       else Some (Mat.mk height width (Mat.depth src)
                    (repeat (repeat 0 (Z.to_nat width)) (Z.to_nat height)))).

Definition rect_and_ref (a b : Rect.t) : Rect.t :=
  let x1 := std_max_int (Rect.x a) (Rect.x b) in
  let y1 := std_max_int (Rect.y a) (Rect.y b) in
  let width :=
    (std_min_int (Rect.x a + Rect.width a) (Rect.x b + Rect.width b) - x1)%Z in
  let height :=
    (std_min_int (Rect.y a + Rect.height a) (Rect.y b + Rect.height b) - y1)%Z in
  if ((width <=? 0) || (height <=? 0))%Z then Rect.mk 0 0 0 0
  else Rect.mk x1 y1 width height.

(** Two samples at one place 200 ms apart, then one 0.4 to the right. *)
Definition samples_with_jump : list GazePoint.t :=
  [GazePoint.mk (1 # 2) (1 # 2) 1 0;
   GazePoint.mk (1 # 2) (1 # 2) 1 (2 # 10);
   GazePoint.mk (9 # 10) (1 # 2) 1 (4 # 10)].

(** A blank 2 x 2 grid, and a heatmap configuration without blur. *)
Definition blank_grid : Mat.t := Mat.mk 2 2 CV_32F [[0; 0]; [0; 0]].
Definition sharp_config : HeatmapConfig.t :=
  HeatmapConfig.mk "sequential_blue"%string 1 0 1 (6 # 10).

(** What the detector may see in a 640 x 480 frame: two eye boxes, a Hough
    circle in the left one, neither circle nor contour in the right one. *)
Definition one_pupil_found : Detection.t :=
  Detection.mk true 0 640 480
    [Rect.mk 100 100 40 20; Rect.mk 200 100 40 20]
    [(20, 10, 5)] (0, 0) [] (-1, -1).

(** * Properties *)

(** ** Comparisons *)

Lemma Qleb_true (a b : Q) : Qleb a b = true <-> a <= b.
Proof. unfold Qleb. apply Qle_bool_iff. Qed.

Lemma Qleb_false (a b : Q) : Qleb a b = false <-> b < a.
Proof.
  unfold Qleb. split; intro E.
  - apply Qnot_le_lt. intro C. apply Qle_bool_iff in C. congruence.
  - destruct (Qle_bool a b) eqn:B; trivial.
    apply Qle_bool_iff in B. exfalso. apply (Qlt_not_le _ _ E B).
Qed.

Lemma Qgeb_true (a b : Q) : Qgeb a b = true <-> b <= a.
Proof. apply Qleb_true. Qed.

Lemma Qgeb_false (a b : Q) : Qgeb a b = false <-> a < b.
Proof. apply Qleb_false. Qed.

Lemma Qltb_true (a b : Q) : Qltb a b = true <-> a < b.
Proof.
  unfold Qltb. rewrite negb_true_iff. apply (Qleb_false b a).
Qed.

Lemma Qltb_false (a b : Q) : Qltb a b = false <-> b <= a.
Proof.
  unfold Qltb. rewrite negb_false_iff. apply (Qleb_true b a).
Qed.

Lemma Qgtb_true (a b : Q) : Qgtb a b = true <-> b < a.
Proof. apply Qltb_true. Qed.

Lemma Qgtb_false (a b : Q) : Qgtb a b = false <-> a <= b.
Proof. apply Qltb_false. Qed.

(** The clamp of the estimator, [std::max(0.0f, std::min(1.0f, q))]. *)
Lemma clamp_in_unit (q : Q) : in_unit (std_max 0 (std_min 1 q)).
Proof.
  unfold in_unit, std_max, std_min.
  destruct (Qltb q 1) eqn:A.
  - apply Qltb_true in A.
    destruct (Qltb 0 q) eqn:B.
    + apply Qltb_true in B. split; lra.
    + split; lra.
  - destruct (Qltb 0 1) eqn:B.
    + split; lra.
    + apply Qltb_false in B. lra.
Qed.

(** A convex combination of two values of the unit interval. *)
Lemma smoothing_in_unit (alpha p q : Q) :
  in_unit alpha -> in_unit p -> in_unit q ->
  in_unit (alpha * p + (1 - alpha) * q).
Proof.
  unfold in_unit. intros [A0 A1] [P0 P1] [Q0 Q1]. split; nra.
Qed.

Lemma mean_in_unit (a b : Q) : in_unit a -> in_unit b -> in_unit ((a + b) / 2).
Proof.
  unfold in_unit. intros [A0 A1] [B0 B1].
  assert (E : (a + b) / 2 == (a + b) * (1 # 2)) by (unfold Qdiv; reflexivity).
  rewrite E. split; lra.
Qed.

Lemma half_in_unit (a : Q) : in_unit a -> in_unit (a * (1 # 2)).
Proof. unfold in_unit. intros [A0 A1]. split; lra. Qed.

(** ** The gaze estimator *)

Section GazeProperties.
Context `{Libm}.
Variable cfg : GazeConfig.t.

Lemma calculate_gaze_direction_invalid st e :
  EyeDetectionResult.valid e = false ->
  calculate_gaze_direction cfg st e
  = (GazePoint.mk 0 0 0 (EyeDetectionResult.timestamp e), st).
Proof.
  intro V. unfold calculate_gaze_direction. rewrite V. reflexivity.
Qed.

(** On a valid detection the result is built from two clamped coordinates
    and a confidence that is the detection's or half of it. *)
Lemma calculate_gaze_direction_valid st e :
  EyeDetectionResult.valid e = true ->
  exists x1 y1 c,
    in_unit x1 /\ in_unit y1 /\
    (c = detection_confidence e \/ c = detection_confidence e * (1 # 2)) /\
    calculate_gaze_direction cfg st e =
      let accepted := Qgeb c (GazeConfig.min_confidence_threshold cfg) in
      let alpha := GazeConfig.smoothing_factor cfg in
      let smooth := prev_gaze_valid st && accepted in
      let g :=
        GazePoint.mk
          (if smooth then alpha * GazePoint.x (prev_gaze st) + (1 - alpha) * x1 else x1)
          (if smooth then alpha * GazePoint.y (prev_gaze st) + (1 - alpha) * y1 else y1)
          c (EyeDetectionResult.timestamp e) in
      (g, if accepted then mkGazeStatics g true else st).
Proof.
  intro V. unfold calculate_gaze_direction. rewrite V. cbn [negb].
  cbv zeta. fold (detection_confidence e).
  match goal with
  | |- context [std_max 0 (std_min 1 ?a)] =>
      match goal with
      | |- context [std_max 0 (std_min 1 ?b)] =>
          lazymatch b with
          | context [GazeConfig.gaze_center_y] =>
              lazymatch a with
              | context [GazeConfig.gaze_center_x] =>
                  exists (std_max 0 (std_min 1 a)), (std_max 0 (std_min 1 b))
              end
          end
      end
  end.
  match goal with
  | |- context [if Qgtb ?g ?m then _ else _] => destruct (Qgtb g m)
  end.
  - exists (detection_confidence e * (1 # 2)).
    repeat split; try apply clamp_in_unit. right; reflexivity.
  - exists (detection_confidence e).
    repeat split; try apply clamp_in_unit. left; reflexivity.
Qed.

(** C5.  A detection whose computed confidence is below the minimum
    confidence threshold leaves the smoothing anchor as it was: the statics
    [prev_gaze], [prev_gaze_valid] after the call are those before it, so a
    previous accepted point [P] is still the anchor. *)
Theorem low_confidence_keeps_anchor (st : GazeStatics) (e : EyeDetectionResult.t) :
  GazePoint.confidence (fst (calculate_gaze_direction cfg st e))
    < GazeConfig.min_confidence_threshold cfg ->
  snd (calculate_gaze_direction cfg st e) = st.
Proof.
  destruct (EyeDetectionResult.valid e) eqn:V.
  - destruct (calculate_gaze_direction_valid st e V)
      as (x1 & y1 & c & _ & _ & _ & E).
    rewrite E. cbn. intro Low.
    apply Qgeb_false in Low. rewrite Low. reflexivity.
  - rewrite (calculate_gaze_direction_invalid st e V). reflexivity.
Qed.

(** An accepted estimate becomes the anchor (the other half of the update). *)
Lemma accepted_becomes_anchor (st : GazeStatics) (e : EyeDetectionResult.t) :
  EyeDetectionResult.valid e = true ->
  GazeConfig.min_confidence_threshold cfg
    <= GazePoint.confidence (fst (calculate_gaze_direction cfg st e)) ->
  snd (calculate_gaze_direction cfg st e)
  = mkGazeStatics (fst (calculate_gaze_direction cfg st e)) true.
Proof.
  intros V.
  destruct (calculate_gaze_direction_valid st e V)
    as (x1 & y1 & c & _ & _ & _ & E).
  rewrite E. cbn. intro Acc.
  apply Qgeb_true in Acc. rewrite Acc. reflexivity.
Qed.

Lemma detection_confidence_in_unit (e : EyeDetectionResult.t) :
  detection_confidences_in_unit e -> in_unit (detection_confidence e).
Proof.
  intros (A & B & C & D). unfold detection_confidence.
  apply mean_in_unit; apply mean_in_unit; assumption.
Qed.

(** C2, as amended.  With a smoothing factor in [0,1], an anchor that lies
    in the unit square whenever it is set, and a detection whose four
    confidences lie in [0,1], the returned point has [x], [y] and
    [confidence] in [0,1], and the anchor the call leaves is again in the
    unit square (so every anchor the estimator stores itself qualifies).
    The coordinates are clamped by the code; the confidence is not: it is in
    range because the detection's confidences are. *)
Theorem estimate_in_unit (st : GazeStatics) (e : EyeDetectionResult.t) :
  in_unit (GazeConfig.smoothing_factor cfg) ->
  anchor_in_unit st ->
  detection_confidences_in_unit e ->
  in_unit (GazePoint.x (fst (calculate_gaze_direction cfg st e))) /\
  in_unit (GazePoint.y (fst (calculate_gaze_direction cfg st e))) /\
  in_unit (GazePoint.confidence (fst (calculate_gaze_direction cfg st e))) /\
  anchor_in_unit (snd (calculate_gaze_direction cfg st e)).
Proof.
  intros Alpha Anchor Conf.
  assert (Zero : in_unit 0) by (unfold in_unit; split; lra).
  destruct (EyeDetectionResult.valid e) eqn:V.
  - destruct (calculate_gaze_direction_valid st e V)
      as (x1 & y1 & c & X1 & Y1 & C & E).
    rewrite E. clear E. cbv zeta.
    assert (Cu : in_unit c).
    { pose proof (detection_confidence_in_unit e Conf) as D.
      destruct C as [-> | ->]; [assumption | apply half_in_unit; assumption]. }
    assert (Xu : in_unit
                   (if prev_gaze_valid st
                       && Qgeb c (GazeConfig.min_confidence_threshold cfg)
                    then GazeConfig.smoothing_factor cfg * GazePoint.x (prev_gaze st)
                         + (1 - GazeConfig.smoothing_factor cfg) * x1
                    else x1)).
    { destruct (prev_gaze_valid st) eqn:PV; cbn [andb]; [|assumption].
      destruct (Qgeb c _); [|assumption].
      apply smoothing_in_unit; try assumption. apply (Anchor PV). }
    assert (Yu : in_unit
                   (if prev_gaze_valid st
                       && Qgeb c (GazeConfig.min_confidence_threshold cfg)
                    then GazeConfig.smoothing_factor cfg * GazePoint.y (prev_gaze st)
                         + (1 - GazeConfig.smoothing_factor cfg) * y1
                    else y1)).
    { destruct (prev_gaze_valid st) eqn:PV; cbn [andb]; [|assumption].
      destruct (Qgeb c _); [|assumption].
      apply smoothing_in_unit; try assumption. apply (Anchor PV). }
    cbn [fst snd GazePoint.x GazePoint.y GazePoint.confidence].
    split; [exact Xu|]. split; [exact Yu|]. split; [exact Cu|].
    destruct (Qgeb c (GazeConfig.min_confidence_threshold cfg)) eqn:Acc;
      [|exact Anchor].
    intros _. cbn [prev_gaze GazePoint.x GazePoint.y].
    split; assumption.
  - rewrite (calculate_gaze_direction_invalid st e V). cbn [fst snd].
    cbn [GazePoint.x GazePoint.y GazePoint.confidence].
    repeat (split; [exact Zero|]). exact Anchor.
Qed.

End GazeProperties.

(** C5 at a concrete input: the anchor is [(0.7, 0.5)], the detection has
    confidence 0.3, below the default threshold 0.7. *)
Lemma low_confidence_keeps_anchor_witness :
  GazePoint.confidence
    (fst (calculate_gaze_direction (H := libm_ref) gaze_config
            (mkGazeStatics (GazePoint.mk (7 # 10) (1 # 2) 1 0) true)
            (detection 0 (3 # 10) true 1)))
    < GazeConfig.min_confidence_threshold gaze_config /\
  snd (calculate_gaze_direction (H := libm_ref) gaze_config
         (mkGazeStatics (GazePoint.mk (7 # 10) (1 # 2) 1 0) true)
         (detection 0 (3 # 10) true 1))
  = mkGazeStatics (GazePoint.mk (7 # 10) (1 # 2) 1 0) true.
Proof.
  split.
  - vm_compute. reflexivity.
  - apply (low_confidence_keeps_anchor (H := libm_ref)). vm_compute. reflexivity.
Defined.

(** C2 as stated fails: the confidence is not clamped.  A valid detection
    whose four confidences are 2, pupils at the eye centres, from the initial
    statics and the default configuration, is returned with confidence 2. *)
Lemma confidence_is_not_clamped :
  GazePoint.confidence
    (fst (calculate_gaze_direction (H := libm_ref) gaze_config gaze_statics_init
            (detection 0 2 true 0))) == 2
  /\ 1 < GazePoint.confidence
           (fst (calculate_gaze_direction (H := libm_ref) gaze_config
                   gaze_statics_init (detection 0 2 true 0))).
Proof. split; vm_compute; reflexivity. Qed.

(** C2 as amended, at the default configuration and the initial statics. *)
Lemma estimate_in_unit_witness :
  in_unit (GazePoint.x
             (fst (calculate_gaze_direction (H := libm_ref) gaze_config
                     gaze_statics_init (detection 250 1 true 0)))) /\
  in_unit (GazePoint.y
             (fst (calculate_gaze_direction (H := libm_ref) gaze_config
                     gaze_statics_init (detection 250 1 true 0)))) /\
  in_unit (GazePoint.confidence
             (fst (calculate_gaze_direction (H := libm_ref) gaze_config
                     gaze_statics_init (detection 250 1 true 0)))) /\
  anchor_in_unit
    (snd (calculate_gaze_direction (H := libm_ref) gaze_config
            gaze_statics_init (detection 250 1 true 0))).
Proof.
  apply (estimate_in_unit (H := libm_ref) gaze_config gaze_statics_init
           (detection 250 1 true 0)).
  - unfold in_unit. cbn. split; lra.
  - intro V. cbn in V. discriminate V.
  - unfold detection_confidences_in_unit, in_unit. cbn.
    repeat split; lra.
Defined.

(** ** The real-time session *)

Lemma skipn_1_tl {A : Type} (l : list A) : skipn 1 l = tl l.
Proof. destruct l; reflexivity. Qed.

Lemma lastn_all {A : Type} (n : nat) (l : list A) :
  (length l <= n)%nat -> lastn n l = l.
Proof.
  intro L. unfold lastn. replace (length l - n)%nat with 0%nat by lia.
  reflexivity.
Qed.

Lemma lastn_length {A : Type} (n : nat) (l : list A) :
  length (lastn n l) = Nat.min n (length l).
Proof. unfold lastn. rewrite length_skipn. lia. Qed.

Lemma lastn_app_lastn {A : Type} (n : nat) (l l' : list A) :
  lastn n (lastn n l ++ l') = lastn n (l ++ l').
Proof.
  destruct (Nat.le_gt_cases (length l) n) as [L | G].
  - rewrite (lastn_all n l L). reflexivity.
  - unfold lastn at 1 3. rewrite length_app, lastn_length, length_app.
    unfold lastn. rewrite !skipn_app, skipn_skipn, length_skipn.
    f_equal; f_equal; lia.
Qed.

(** The eviction of [process_realtime_frame] on a buffer that was within
    capacity before the push keeps the last [capacity] entries. *)
Lemma evict_is_lastn (capacity : Z) (history : list GazePoint.t) (g : GazePoint.t) :
  (0 <= capacity < 2 ^ 64)%Z ->
  (Z.of_nat (length history) <= capacity)%Z ->
  (if (Z.of_nat (length (history ++ [g])) >? size_t_of_int capacity)%Z
   then tl (history ++ [g]) else history ++ [g])
  = lastn (Z.to_nat capacity) (history ++ [g]).
Proof.
  intros C L. unfold size_t_of_int. rewrite Z.mod_small by exact C.
  assert (N : length (history ++ [g]) = S (length history))
    by (rewrite length_app; cbn; lia).
  destruct (Z.of_nat (length (history ++ [g])) >? capacity)%Z eqn:G.
  - apply Z.gtb_lt in G. unfold lastn.
    replace (length (history ++ [g]) - Z.to_nat capacity)%nat with 1%nat by lia.
    symmetry. apply skipn_1_tl.
  - symmetry. apply lastn_all.
    destruct (Z.gtb_spec (Z.of_nat (length (history ++ [g]))) capacity);
      [discriminate | lia].
Qed.

Section RealtimeProperties.
Context `{Libm}.
Variable cfg : GazeConfig.t.

Lemma process_realtime_frame_skips (frame : option EyeDetectionResult.t)
    (p : Process) :
  RealtimeState.is_initialized (realtime p) = false \/
  frame = None \/
  (exists e, frame = Some e /\ EyeDetectionResult.valid e = false) ->
  process_realtime_frame cfg frame p = (GazePoint.mk 0 0 0 0, p).
Proof.
  unfold process_realtime_frame.
  intros [I | [-> | (e & -> & V)]].
  - rewrite I. reflexivity.
  - destruct (RealtimeState.is_initialized (realtime p)); reflexivity.
  - rewrite V. destruct (RealtimeState.is_initialized (realtime p)); reflexivity.
Qed.

Lemma process_realtime_frame_ingests (e : EyeDetectionResult.t) (p : Process) :
  session_ok p -> EyeDetectionResult.valid e = true ->
  process_realtime_frame cfg (Some e) p
  = (fst (calculate_gaze_direction cfg (gaze p) e),
     mkProcess
       (RealtimeState.mk true (RealtimeState.camera (realtime p))
          (lastn (Z.to_nat (RealtimeState.max_history_size (realtime p)))
             (RealtimeState.recent_gaze_points (realtime p)
              ++ [fst (calculate_gaze_direction cfg (gaze p) e)]))
          (RealtimeState.max_history_size (realtime p)))
       (snd (calculate_gaze_direction cfg (gaze p) e))).
Proof.
  intros (I & C & L) V. unfold process_realtime_frame.
  rewrite I, V. cbn [negb].
  destruct (calculate_gaze_direction cfg (gaze p) e) as [g st'].
  cbn [fst snd]. rewrite (evict_is_lastn _ _ g C L). reflexivity.
Qed.

Lemma process_realtime_frame_session_ok (frame : option EyeDetectionResult.t)
    (p : Process) :
  session_ok p -> session_ok (snd (process_realtime_frame cfg frame p)).
Proof.
  intro S.
  destruct frame as [e|].
  - destruct (EyeDetectionResult.valid e) eqn:V.
    + rewrite (process_realtime_frame_ingests e p S V).
      destruct S as (I & C & L). unfold session_ok. cbn.
      repeat split; try lia.
      rewrite lastn_length. lia.
    + rewrite process_realtime_frame_skips; [exact S|].
      right; right. exists e. split; [reflexivity | exact V].
  - rewrite process_realtime_frame_skips; [exact S|]. right; left; reflexivity.
Qed.

(** The buffer after a polling loop, and the capacity, which no call writes. *)
Lemma process_frames_history (frames : list (option EyeDetectionResult.t)) :
  forall p : Process,
    session_ok p ->
    session_ok (snd (process_frames cfg frames p)) /\
    RealtimeState.max_history_size (realtime (snd (process_frames cfg frames p)))
    = RealtimeState.max_history_size (realtime p) /\
    get_realtime_history (snd (process_frames cfg frames p))
    = lastn (Z.to_nat (RealtimeState.max_history_size (realtime p)))
        (get_realtime_history p ++ estimates cfg (gaze p) frames).
Proof.
  induction frames as [|frame frames IH]; intros p S.
  - cbn. split; [exact S|]. split; [reflexivity|].
    rewrite app_nil_r. symmetry. apply lastn_all.
    destruct S as (_ & C & L). unfold get_realtime_history. lia.
  - cbn [process_frames].
    pose proof (process_realtime_frame_session_ok frame p S) as S1.
    destruct (process_realtime_frame cfg frame p) as [g p1] eqn:E.
    cbn [snd] in S1.
    destruct (IH p1 S1) as (S2 & C2 & H2).
    destruct (process_frames cfg frames p1) as [points p2].
    cbn [snd] in *.
    split; [exact S2|].
    assert (Skip : p1 = p -> estimates cfg (gaze p) (frame :: frames)
                             = estimates cfg (gaze p) frames ->
                   RealtimeState.max_history_size (realtime p2)
                   = RealtimeState.max_history_size (realtime p) /\
                   get_realtime_history p2
                   = lastn (Z.to_nat (RealtimeState.max_history_size (realtime p)))
                       (get_realtime_history p
                        ++ estimates cfg (gaze p) (frame :: frames))).
    { intros -> ->. split; assumption. }
    destruct frame as [e|].
    + destruct (EyeDetectionResult.valid e) eqn:V.
      * rewrite (process_realtime_frame_ingests e p S V) in E.
        inversion E; subst g p1; clear E.
        cbn [realtime gaze RealtimeState.max_history_size] in *.
        split; [exact C2|].
        rewrite H2. unfold get_realtime_history.
        cbn [realtime RealtimeState.recent_gaze_points estimates].
        rewrite V, lastn_app_lastn, <- app_assoc. reflexivity.
      * rewrite process_realtime_frame_skips in E
          by (right; right; exists e; split; [reflexivity | exact V]).
        inversion E; subst. apply Skip; [reflexivity|].
        cbn [estimates]. rewrite V. reflexivity.
    + rewrite process_realtime_frame_skips in E by (right; left; reflexivity).
      inversion E; subst. apply Skip; reflexivity.
Qed.

(** C9.  In a running session whose buffer is within capacity (a session
    just started has an empty one), after any sequence of frames the rolling
    buffer holds at most [max_history_size] entries, and
    [get_realtime_history] returns exactly the last [max_history_size] of the
    points ingested so far, oldest first, in their original order: eviction
    is strictly oldest-first. *)
Theorem history_is_last_capacity (p : Process)
    (frames : list (option EyeDetectionResult.t)) :
  session_ok p ->
  (Z.of_nat (length (get_realtime_history (snd (process_frames cfg frames p))))
   <= RealtimeState.max_history_size (realtime p))%Z /\
  get_realtime_history (snd (process_frames cfg frames p))
  = lastn (Z.to_nat (RealtimeState.max_history_size (realtime p)))
      (get_realtime_history p ++ estimates cfg (gaze p) frames).
Proof.
  intro S.
  destruct (process_frames_history frames p S) as ((_ & _ & L) & C & E).
  split; [|exact E].
  unfold get_realtime_history. rewrite <- C. exact L.
Qed.

(** C4, as amended.  In a running session, a valid detection is passed to
    the estimator, the estimator's point is returned and appended to the
    rolling buffer, the anchor is the one the estimator leaves, and the
    oldest entry is evicted once the buffer exceeds [max_history_size]; an
    invalid detection is not passed to the estimator and not appended: the
    call returns the zero point and leaves buffer and anchor as they were. *)
Theorem ingest_appends_valid_detections (p : Process) (e : EyeDetectionResult.t) :
  session_ok p ->
  (EyeDetectionResult.valid e = true ->
   fst (process_realtime_frame cfg (Some e) p)
   = fst (calculate_gaze_direction cfg (gaze p) e) /\
   gaze (snd (process_realtime_frame cfg (Some e) p))
   = snd (calculate_gaze_direction cfg (gaze p) e) /\
   get_realtime_history (snd (process_realtime_frame cfg (Some e) p))
   = (if (length (get_realtime_history p)
          <? Z.to_nat (RealtimeState.max_history_size (realtime p)))%nat
      then get_realtime_history p
           ++ [fst (calculate_gaze_direction cfg (gaze p) e)]
      else tl (get_realtime_history p
               ++ [fst (calculate_gaze_direction cfg (gaze p) e)]))) /\
  (EyeDetectionResult.valid e = false ->
   process_realtime_frame cfg (Some e) p = (GazePoint.mk 0 0 0 0, p)).
Proof.
  intro S. split; intro V.
  - rewrite (process_realtime_frame_ingests e p S V).
    cbn [fst snd gaze]. split; [reflexivity|]. split; [reflexivity|].
    unfold get_realtime_history. cbn [realtime RealtimeState.recent_gaze_points].
    destruct S as (_ & C & L).
    set (h := RealtimeState.recent_gaze_points (realtime p)) in *.
    set (g := fst (calculate_gaze_direction cfg (gaze p) e)).
    assert (N : length (h ++ [g]) = S (length h))
      by (rewrite length_app; cbn; lia).
    destruct (Nat.ltb_spec (length h)
                (Z.to_nat (RealtimeState.max_history_size (realtime p)))).
    + apply lastn_all. lia.
    + unfold lastn.
      replace (length (h ++ [g])
               - Z.to_nat (RealtimeState.max_history_size (realtime p)))%nat
        with 1%nat by lia.
      apply skipn_1_tl.
  - apply process_realtime_frame_skips. right; right.
    exists e. split; [reflexivity | exact V].
Qed.

End RealtimeProperties.

(** ** Stop and start again *)

Section RestartProperties.
Context `{Libm}.
Variable cfg : GazeConfig.t.

Lemma unset_anchor_preserved (st : GazeStatics) (e : EyeDetectionResult.t) :
  (prev_gaze_valid st = false -> st = gaze_statics_init) ->
  prev_gaze_valid (snd (calculate_gaze_direction cfg st e)) = false ->
  snd (calculate_gaze_direction cfg st e) = gaze_statics_init.
Proof.
  intros I.
  destruct (EyeDetectionResult.valid e) eqn:V.
  - destruct (calculate_gaze_direction_valid cfg st e V)
      as (x1 & y1 & c & _ & _ & _ & E).
    rewrite E. cbv zeta. cbn [snd].
    destruct (Qgeb c (GazeConfig.min_confidence_threshold cfg)).
    + cbn. discriminate.
    + exact I.
  - rewrite (calculate_gaze_direction_invalid cfg st e V). exact I.
Qed.

Lemma process_realtime_frame_statics (frame : option EyeDetectionResult.t)
    (p : Process) :
  statics_invariant p ->
  statics_invariant (snd (process_realtime_frame cfg frame p)).
Proof.
  intros [M A]. unfold process_realtime_frame.
  destruct (RealtimeState.is_initialized (realtime p)); cbn [negb];
    [|split; assumption].
  destruct frame as [e|]; [|split; assumption].
  destruct (EyeDetectionResult.valid e); [|split; assumption].
  pose proof (unset_anchor_preserved (gaze p) e A) as U.
  destruct (calculate_gaze_direction cfg (gaze p) e) as [g st'].
  cbn [snd] in *. split; [exact M | exact U].
Qed.

Lemma reachable_statics (p : Process) : reachable cfg p -> statics_invariant p.
Proof.
  induction 1 as [| opened p R [M A] | frame p R IH | p R [M A] | e p R [M A]].
  - split; reflexivity.
  - unfold init_realtime_processing.
    destruct (RealtimeState.is_initialized (realtime p)); [split; assumption|].
    destruct opened; cbn; split; assumption.
  - apply process_realtime_frame_statics. exact IH.
  - unfold cleanup_realtime_processing.
    destruct (RealtimeState.is_initialized (realtime p)); cbn; split; assumption.
  - split; [exact M|]. cbn [gaze]. apply unset_anchor_preserved. exact A.
Qed.

(** C1, as amended.  [stop()] then [start()] resets the session statics
    (flags, the emptied rolling buffer, the capacity) to those of a freshly
    constructed pipeline and leaves the smoothing anchor as the process last
    had it.  So the restarted pipeline returns the same points and holds the
    same buffer as a fresh one on every subsequent input when no estimate
    was accepted before (the anchor is not set), and as a fresh one given
    the surviving anchor otherwise. *)
Theorem restart_resets_all_but_anchor (p : Process)
    (frames : list (option EyeDetectionResult.t)) :
  reachable cfg p ->
  realtime (restart p) = realtime fresh_pipeline /\
  gaze (restart p) = gaze p /\
  process_frames cfg frames (restart p)
  = process_frames cfg frames (mkProcess (realtime fresh_pipeline) (gaze p)) /\
  (prev_gaze_valid (gaze p) = false ->
   process_frames cfg frames (restart p)
   = process_frames cfg frames fresh_pipeline).
Proof.
  intro R. destruct (reachable_statics p R) as [M A].
  assert (E : restart p = mkProcess (realtime fresh_pipeline) (gaze p)).
  { unfold restart, cleanup_realtime_processing, init_realtime_processing.
    destruct (RealtimeState.is_initialized (realtime p)) eqn:I; cbn.
    - rewrite M. reflexivity.
    - rewrite I. cbn. rewrite M. reflexivity. }
  rewrite E. cbn [realtime gaze].
  repeat split; try reflexivity.
  intro V. rewrite (A V). reflexivity.
Qed.

End RestartProperties.

(** C1 as stated fails: the anchor survives [stop()] and [start()].  After
    [session_one], whose accepted point has [x = 1], the same valid
    detection (pupils at the eye centres, full confidence) is returned with
    [x = 0.3 * 1 + 0.7 * 0.5 = 0.65] by the restarted pipeline and with
    [x = 0.5] by a fresh one. *)
Lemma restart_keeps_smoothing_anchor :
  GazePoint.x
    (fst (process_realtime_frame (H := libm_ref) gaze_config
            (Some (detection 0 1 true 1)) (restart session_one))) == 13 # 20
  /\ GazePoint.x
       (fst (process_realtime_frame (H := libm_ref) gaze_config
               (Some (detection 0 1 true 1)) fresh_pipeline)) == 1 # 2
  /\ prev_gaze_valid (gaze (restart session_one)) = true
  /\ prev_gaze_valid (gaze fresh_pipeline) = false.
Proof. repeat split; vm_compute; reflexivity. Qed.

(** C1 as amended, at [session_one] followed by one more detection. *)
Lemma restart_resets_all_but_anchor_witness :
  realtime (restart session_one) = realtime fresh_pipeline /\
  gaze (restart session_one) = gaze session_one /\
  process_frames (H := libm_ref) gaze_config [Some (detection 0 1 true 1)]
    (restart session_one)
  = process_frames (H := libm_ref) gaze_config [Some (detection 0 1 true 1)]
      (mkProcess (realtime fresh_pipeline) (gaze session_one)) /\
  (prev_gaze_valid (gaze session_one) = false ->
   process_frames (H := libm_ref) gaze_config [Some (detection 0 1 true 1)]
     (restart session_one)
   = process_frames (H := libm_ref) gaze_config [Some (detection 0 1 true 1)]
       fresh_pipeline).
Proof.
  apply (restart_resets_all_but_anchor (H := libm_ref) gaze_config session_one
           [Some (detection 0 1 true 1)]).
  unfold session_one, fresh_pipeline.
  apply reach_frame, reach_init, reach_start.
Defined.

(** C9 at capacity 3 and five ingests. *)
Lemma history_is_last_capacity_witness :
  (Z.of_nat (length (get_realtime_history
                       (snd (process_frames (H := libm_ref) gaze_config
                               five_frames session_of_three)))) <= 3)%Z /\
  get_realtime_history
    (snd (process_frames (H := libm_ref) gaze_config five_frames session_of_three))
  = lastn 3 ([] ++ estimates (H := libm_ref) gaze_config gaze_statics_init
                             five_frames).
Proof.
  apply (history_is_last_capacity (H := libm_ref) gaze_config session_of_three
           five_frames).
  session_ok_by_computation.
Defined.

(** The same run, by evaluation: of the five points the calls return, the
    buffer holds the third, fourth and fifth, in that order. *)
Example capacity_three_five_ingests :
  get_realtime_history
    (snd (process_frames (H := libm_ref) gaze_config five_frames session_of_three))
  = skipn 2 (fst (process_frames (H := libm_ref) gaze_config five_frames
                    session_of_three))
  /\ length (fst (process_frames (H := libm_ref) gaze_config five_frames
                    session_of_three)) = 5%nat.
Proof. split; vm_compute; reflexivity. Qed.

(** C9 for the pipeline as the code starts it: capacity 100. *)
Corollary fresh_pipeline_history (L : Libm) (cfg : GazeConfig.t)
    (frames : list (option EyeDetectionResult.t)) :
  (length (get_realtime_history
             (snd (process_frames cfg frames fresh_pipeline))) <= 100)%nat /\
  get_realtime_history (snd (process_frames cfg frames fresh_pipeline))
  = lastn 100 (estimates cfg gaze_statics_init frames).
Proof.
  assert (S : session_ok fresh_pipeline).
  { session_ok_by_computation. }
  destruct (history_is_last_capacity cfg fresh_pipeline frames S) as [B E].
  split; [|exact E].
  change (RealtimeState.max_history_size (realtime fresh_pipeline)) with 100%Z in B.
  lia.
Qed.

(** C4 as stated fails: an invalid detection is neither passed to the
    estimator nor appended.  In a fresh pipeline the call returns the zero
    point with timestamp 0 (the estimator would stamp it 5) and the buffer
    stays empty. *)
Lemma invalid_detection_is_not_appended :
  process_realtime_frame (H := libm_ref) gaze_config
    (Some (detection 250 1 false 5)) fresh_pipeline
  = (GazePoint.mk 0 0 0 0, fresh_pipeline)
  /\ get_realtime_history
       (snd (process_realtime_frame (H := libm_ref) gaze_config
               (Some (detection 250 1 false 5)) fresh_pipeline)) = []
  /\ fst (calculate_gaze_direction (H := libm_ref) gaze_config
            (gaze fresh_pipeline) (detection 250 1 false 5))
     = GazePoint.mk 0 0 0 5.
Proof. repeat split. Qed.

(** C4 as amended, at a fresh pipeline and one valid detection. *)
Lemma ingest_appends_valid_detections_witness :
  (EyeDetectionResult.valid (detection 250 1 true 0) = true ->
   fst (process_realtime_frame (H := libm_ref) gaze_config
          (Some (detection 250 1 true 0)) fresh_pipeline)
   = fst (calculate_gaze_direction (H := libm_ref) gaze_config
            (gaze fresh_pipeline) (detection 250 1 true 0)) /\
   gaze (snd (process_realtime_frame (H := libm_ref) gaze_config
                (Some (detection 250 1 true 0)) fresh_pipeline))
   = snd (calculate_gaze_direction (H := libm_ref) gaze_config
            (gaze fresh_pipeline) (detection 250 1 true 0)) /\
   get_realtime_history
     (snd (process_realtime_frame (H := libm_ref) gaze_config
             (Some (detection 250 1 true 0)) fresh_pipeline))
   = (if (length (get_realtime_history fresh_pipeline)
          <? Z.to_nat (RealtimeState.max_history_size (realtime fresh_pipeline)))%nat
      then get_realtime_history fresh_pipeline
           ++ [fst (calculate_gaze_direction (H := libm_ref) gaze_config
                      (gaze fresh_pipeline) (detection 250 1 true 0))]
      else tl (get_realtime_history fresh_pipeline
               ++ [fst (calculate_gaze_direction (H := libm_ref) gaze_config
                          (gaze fresh_pipeline) (detection 250 1 true 0))]))) /\
  (EyeDetectionResult.valid (detection 250 1 true 0) = false ->
   process_realtime_frame (H := libm_ref) gaze_config
     (Some (detection 250 1 true 0)) fresh_pipeline
   = (GazePoint.mk 0 0 0 0, fresh_pipeline)).
Proof.
  apply (ingest_appends_valid_detections (H := libm_ref) gaze_config
           fresh_pipeline (detection 250 1 true 0)).
  session_ok_by_computation.
Defined.

(** ** The event classifier *)

Section EventProperties.
Context `{Libm}.
Variable sp : SaccadeParams.t.

Lemma saccade_test_criterion (gaze_points : list GazePoint.t) (i : nat) :
  saccade_test sp gaze_points i = true <-> saccade_criterion sp gaze_points i.
Proof.
  unfold saccade_test, saccade_criterion. cbv zeta.
  rewrite !andb_true_iff, !orb_true_iff, !Qltb_true. tauto.
Qed.

Lemma saccade_step_test (gaze_points : list GazePoint.t)
    (saccade_indices : list Z) (i : nat) :
  saccade_step sp gaze_points saccade_indices i
  = saccade_indices
    ++ (if saccade_test sp gaze_points i then [Z.of_nat i] else []).
Proof.
  unfold saccade_step, saccade_test, segment_velocity, Qgtb, Qltb, Qleb, fabs.
  cbv zeta.
  destruct (Qle_bool (GazePoint.timestamp (gp_at gaze_points i)
                      - GazePoint.timestamp (gp_at gaze_points (i - 1))) 0);
    cbn [negb orb andb]; [rewrite app_nil_r; reflexivity|].
  destruct (Qle_bool (GazePoint.timestamp (gp_at gaze_points (i + 1))
                      - GazePoint.timestamp (gp_at gaze_points i)) 0);
    cbn [negb orb andb]; [rewrite app_nil_r; reflexivity|].
  match goal with
  | |- (if ?b then _ else _) = _ ++ (if ?b then _ else _) => destruct b
  end; [reflexivity | rewrite app_nil_r; reflexivity].
Qed.

Lemma saccade_loop_filter (gaze_points : list GazePoint.t) (indices : list nat) :
  forall saccade_indices : list Z,
    fold_left (saccade_step sp gaze_points) indices saccade_indices
    = saccade_indices
      ++ map Z.of_nat (filter (saccade_test sp gaze_points) indices).
Proof.
  induction indices as [|i indices IH]; intro acc; cbn [fold_left filter].
  - rewrite app_nil_r. reflexivity.
  - rewrite IH, saccade_step_test.
    destruct (saccade_test sp gaze_points i); cbn [map].
    + rewrite <- app_assoc. reflexivity.
    + rewrite app_nil_r. reflexivity.
Qed.

(** C7.  [detect_saccades] returns an empty result on fewer than three
    points, and otherwise flags exactly the interior indices whose triple
    meets the saccade criterion (a disjunction of the two velocity tests and
    the acceleration test, under positive elapsed times); a triple with a
    non-positive elapsed time is never flagged. *)
Theorem detect_saccades_flags (gaze_points : list GazePoint.t) :
  ((length gaze_points < 3)%nat -> detect_saccades sp gaze_points = []) /\
  (forall z : Z,
      In z (detect_saccades sp gaze_points) <->
      exists i : nat,
        z = Z.of_nat i /\ (1 <= i)%nat /\ (i + 1 < length gaze_points)%nat /\
        saccade_criterion sp gaze_points i).
Proof.
  unfold detect_saccades. split.
  - intro Short. apply Nat.ltb_lt in Short. rewrite Short. reflexivity.
  - intro z. destruct (Nat.ltb_spec (length gaze_points) 3) as [Short | Long].
    + split; [intros [] | intros (i & _ & I1 & I2 & _); lia].
    + rewrite saccade_loop_filter. cbn [app]. rewrite in_map_iff.
      split.
      * intros (i & Ez & F). apply filter_In in F. destruct F as [Range T].
        apply in_seq in Range. apply saccade_test_criterion in T.
        exists i. split; [symmetry; exact Ez|].
        split; [lia|]. split; [lia | exact T].
      * intros (i & -> & I1 & I2 & C). exists i. split; [reflexivity|].
        apply filter_In. split; [apply in_seq; lia|].
        apply saccade_test_criterion. exact C.
Qed.

(** The flagged indices come out in increasing order, each once. *)
Lemma detect_saccades_filter (gaze_points : list GazePoint.t) :
  (3 <= length gaze_points)%nat ->
  detect_saccades sp gaze_points
  = map Z.of_nat (filter (saccade_test sp gaze_points)
                         (seq 1 (length gaze_points - 2))).
Proof.
  intro Long. unfold detect_saccades.
  destruct (Nat.ltb_spec (length gaze_points) 3); [lia|].
  rewrite saccade_loop_filter. cbn [app].
  replace (length gaze_points - 1 - 1)%nat with (length gaze_points - 2)%nat by lia.
  reflexivity.
Qed.

End EventProperties.

Section FixationProperties.
Context `{Libm}.
Variable fp : FixationParams.t.

Lemma fixation_loop_runs (fuel : nat) (gaze_points : list GazePoint.t) :
  forall (start_idx : nat) (fixations : list AttentionRegion.t)
         (runs : list (nat * nat)),
    fixation_loop fp fuel gaze_points start_idx fixations runs
    = (fixations
       ++ flat_map (emitted fp gaze_points) (runs_from fp fuel gaze_points start_idx),
       runs ++ runs_from fp fuel gaze_points start_idx).
Proof.
  induction fuel as [|fuel IH]; intros start_idx fixations runs;
    cbn [fixation_loop runs_from].
  - cbn. rewrite !app_nil_r. reflexivity.
  - destruct (start_idx <? length gaze_points)%nat.
    + cbv zeta. rewrite IH. cbn [flat_map].
      rewrite <- !app_assoc. reflexivity.
    + cbn. rewrite !app_nil_r. reflexivity.
Qed.

Lemma fixation_runs_runs_from (gaze_points : list GazePoint.t) :
  fixation_runs fp gaze_points = runs_from fp (length gaze_points) gaze_points 0.
Proof.
  unfold fixation_runs. destruct gaze_points as [|g gs]; [reflexivity|].
  rewrite fixation_loop_runs. reflexivity.
Qed.

(** The fixations returned are what the scanned runs emit, in order. *)
Lemma detect_fixations_emitted (gaze_points : list GazePoint.t) :
  detect_fixations fp gaze_points
  = flat_map (emitted fp gaze_points) (fixation_runs fp gaze_points).
Proof.
  rewrite fixation_runs_runs_from. unfold detect_fixations.
  destruct gaze_points as [|g gs]; [reflexivity|].
  rewrite fixation_loop_runs. reflexivity.
Qed.

(** The inner loop ends between the index it started from and the last
    index of the points it was given. *)
Lemma scan_run_end (fx fy : Q) (rest : list GazePoint.t) :
  forall (i : nat) (acc : RunScan),
    (end_idx acc + 1 = i)%nat ->
    (end_idx acc <= end_idx (scan_run fp fx fy rest i acc)
     <= end_idx acc + length rest)%nat.
Proof.
  induction rest as [|p rest IH]; intros i acc E; cbn [scan_run length].
  - lia.
  - cbv zeta.
    destruct (Qleb _ _); [|lia].
    match goal with
    | |- context [scan_run fp fx fy rest (S i) ?a] =>
        specialize (IH (S i) a)
    end.
    cbn [end_idx] in IH. specialize (IH ltac:(lia)). lia.
Qed.

Lemma run_from_end (gaze_points : list GazePoint.t) (start_idx : nat) :
  (start_idx < length gaze_points)%nat ->
  (start_idx <= end_idx (run_from fp gaze_points start_idx)
   < length gaze_points)%nat.
Proof.
  intro L. unfold run_from. cbv zeta.
  match goal with
  | |- context [scan_run fp ?fx ?fy ?rest ?i ?a] =>
      pose proof (scan_run_end fx fy rest i a) as E
  end.
  cbn [end_idx] in E. specialize (E eq_refl).
  rewrite length_skipn in E. lia.
Qed.

(** With enough fuel the runs scanned from [start_idx] tile the indices
    from [start_idx] to the end. *)
Lemma runs_from_tile (gaze_points : list GazePoint.t) (fuel : nat) :
  forall start_idx : nat,
    (start_idx <= length gaze_points)%nat ->
    (length gaze_points - start_idx <= fuel)%nat ->
    concat (map run_indices (runs_from fp fuel gaze_points start_idx))
    = seq start_idx (length gaze_points - start_idx).
Proof.
  induction fuel as [|fuel IH]; intros start_idx B F; cbn [runs_from].
  - replace (length gaze_points - start_idx)%nat with 0%nat by lia. reflexivity.
  - destruct (Nat.ltb_spec start_idx (length gaze_points)) as [L | G].
    + pose proof (run_from_end gaze_points start_idx L) as E.
      set (e := end_idx (run_from fp gaze_points start_idx)) in *.
      cbn [map concat]. rewrite IH by lia.
      unfold run_indices. cbn [fst snd].
      replace (length gaze_points - start_idx)%nat
        with ((e - start_idx + 1) + (length gaze_points - (e + 1)))%nat by lia.
      rewrite (seq_app (e - start_idx + 1) (length gaze_points - (e + 1)) start_idx).
      f_equal. f_equal. lia.
    + replace (length gaze_points - start_idx)%nat with 0%nat by lia.
      reflexivity.
Qed.

Lemma runs_from_wellformed (gaze_points : list GazePoint.t) (fuel : nat) :
  forall start_idx : nat,
    Forall (fun run =>
              (fst run <= snd run < length gaze_points)%nat /\
              snd run = end_idx (run_from fp gaze_points (fst run)))
           (runs_from fp fuel gaze_points start_idx).
Proof.
  induction fuel as [|fuel IH]; intro start_idx; cbn [runs_from].
  - constructor.
  - destruct (Nat.ltb_spec start_idx (length gaze_points)) as [L | G].
    + constructor; [|apply IH]. cbn [fst snd].
      split; [apply run_from_end; exact L | reflexivity].
    + constructor.
Qed.

(** The loop does not run out of fuel: beyond [gaze_points.size()]
    iterations more fuel changes neither the runs nor the fixations. *)
Lemma runs_from_more_fuel (gaze_points : list GazePoint.t) (fuel extra : nat) :
  forall start_idx : nat,
    (length gaze_points - start_idx <= fuel)%nat ->
    runs_from fp (fuel + extra) gaze_points start_idx
    = runs_from fp fuel gaze_points start_idx.
Proof.
  induction fuel as [|fuel IH]; intros start_idx F.
  - destruct extra as [|extra]; [reflexivity|]. cbn [Nat.add runs_from].
    destruct (Nat.ltb_spec start_idx (length gaze_points)); [lia | reflexivity].
  - cbn [Nat.add runs_from].
    destruct (Nat.ltb_spec start_idx (length gaze_points)) as [L | G];
      [|reflexivity].
    pose proof (run_from_end gaze_points start_idx L) as E.
    rewrite IH by lia. reflexivity.
Qed.

Lemma fixation_loop_more_fuel (gaze_points : list GazePoint.t) (extra : nat) :
  fixation_loop fp (length gaze_points + extra) gaze_points 0 [] []
  = fixation_loop fp (length gaze_points) gaze_points 0 [] [].
Proof.
  rewrite !fixation_loop_runs, runs_from_more_fuel by lia. reflexivity.
Qed.

(** C6.  The runs [detect_fixations] scans are index ranges
    [start_idx .. end_idx], each non-empty and inside the input, and their
    concatenation from left to right is the index sequence
    [0, 1, ..., size - 1] of the input: the runs do not overlap, leave no
    gap, come in order, and every index lies in exactly one of them.  The
    fixations returned are what these runs emit. *)
Theorem fixation_runs_partition (gaze_points : list GazePoint.t) :
  concat (map run_indices (fixation_runs fp gaze_points))
  = seq 0 (length gaze_points) /\
  Forall (fun run => (fst run <= snd run < length gaze_points)%nat)
         (fixation_runs fp gaze_points) /\
  detect_fixations fp gaze_points
  = flat_map (emitted fp gaze_points) (fixation_runs fp gaze_points).
Proof.
  split; [|split].
  - rewrite fixation_runs_runs_from, runs_from_tile by lia.
    rewrite Nat.sub_0_r. reflexivity.
  - rewrite fixation_runs_runs_from.
    eapply Forall_impl; [|apply runs_from_wellformed].
    intros run [B _]. exact B.
  - apply detect_fixations_emitted.
Qed.

(** C8.  For a positive minimum fixation duration, a run scanned by
    [detect_fixations] whose duration equals the minimum exactly is emitted
    as an [AttentionRegion] (it is among the fixations returned, with that
    duration), and a run whose duration is one millisecond below the minimum
    is not emitted. *)
Theorem minimum_duration_is_inclusive (gaze_points : list GazePoint.t)
    (run : nat * nat) :
  (0 < FixationParams.min_duration_ms fp)%Z ->
  In run (fixation_runs fp gaze_points) ->
  (run_duration gaze_points run
   == inject_Z (FixationParams.min_duration_ms fp) ->
   exists fixation : AttentionRegion.t,
     emitted fp gaze_points run = [fixation] /\
     In fixation (detect_fixations fp gaze_points) /\
     AttentionRegion.duration fixation
     == inject_Z (FixationParams.min_duration_ms fp)) /\
  (run_duration gaze_points run
   == inject_Z (FixationParams.min_duration_ms fp) - 1 ->
   emitted fp gaze_points run = []).
Proof.
  intros Pos R.
  assert (W : snd run = end_idx (run_from fp gaze_points (fst run))).
  { rewrite fixation_runs_runs_from in R.
    pose proof (runs_from_wellformed gaze_points (length gaze_points) 0) as F.
    rewrite Forall_forall in F. apply (F run R). }
  assert (P : 0 < inject_Z (FixationParams.min_duration_ms fp)).
  { change 0 with (inject_Z 0). rewrite <- Zlt_Qlt. exact Pos. }
  unfold run_duration, emitted, emit_run. rewrite W.
  set (r := run_from fp gaze_points (fst run)) in *.
  destruct (Nat.ltb_spec (fst run) (end_idx r)) as [L | G].
  - cbv zeta.
    change (AttentionRegion.duration (run_fixation gaze_points (fst run) r))
      with ((GazePoint.timestamp (gp_at gaze_points (end_idx r))
             - GazePoint.timestamp (gp_at gaze_points (fst run))) * 1000).
    split; intro D.
    + assert (G : Qgeb ((GazePoint.timestamp (gp_at gaze_points (end_idx r))
                         - GazePoint.timestamp (gp_at gaze_points (fst run)))
                        * 1000)
                       (inject_Z (FixationParams.min_duration_ms fp)) = true).
      { apply Qgeb_true. rewrite D. apply Qle_refl. }
      rewrite G. eexists. split; [reflexivity|]. split; [|exact D].
      rewrite detect_fixations_emitted. apply in_flat_map.
      exists run. split; [exact R|].
      unfold emitted, emit_run. fold r.
      destruct (Nat.ltb_spec (fst run) (end_idx r)); [|lia].
      cbv zeta.
      change (AttentionRegion.duration (run_fixation gaze_points (fst run) r))
        with ((GazePoint.timestamp (gp_at gaze_points (end_idx r))
               - GazePoint.timestamp (gp_at gaze_points (fst run))) * 1000).
      rewrite G. left. reflexivity.
    + assert (G : Qgeb ((GazePoint.timestamp (gp_at gaze_points (end_idx r))
                         - GazePoint.timestamp (gp_at gaze_points (fst run)))
                        * 1000)
                       (inject_Z (FixationParams.min_duration_ms fp)) = false).
      { apply Qgeb_false. rewrite D. lra. }
      rewrite G. reflexivity.
  - split; intro D; [|reflexivity].
    exfalso.
    pose proof (runs_from_wellformed gaze_points (length gaze_points) 0) as F.
    rewrite fixation_runs_runs_from in R.
    rewrite Forall_forall in F. destruct (F run R) as [[B _] _].
    assert (E : end_idx r = fst run) by lia.
    rewrite E in D. lra.
Qed.

End FixationProperties.

(** C8 at the default parameters (minimum 100 ms) and the run of
    [samples_100ms]. *)
Lemma minimum_duration_is_inclusive_witness :
  (run_duration samples_100ms (0%nat, 1%nat) == inject_Z 100 ->
   exists fixation : AttentionRegion.t,
     emitted (H := libm_ref) fixation_params samples_100ms (0%nat, 1%nat)
     = [fixation] /\
     In fixation (detect_fixations (H := libm_ref) fixation_params samples_100ms) /\
     AttentionRegion.duration fixation == inject_Z 100) /\
  (run_duration samples_100ms (0%nat, 1%nat) == inject_Z 100 - 1 ->
   emitted (H := libm_ref) fixation_params samples_100ms (0%nat, 1%nat) = []).
Proof.
  apply (minimum_duration_is_inclusive (H := libm_ref) fixation_params
           samples_100ms (0%nat, 1%nat)).
  - reflexivity.
  - vm_compute. left. reflexivity.
Defined.

(** The boundary by evaluation: the 100 ms run is returned as one fixation
    of two samples, the 99 ms run is not returned. *)
Example minimum_duration_boundary :
  map AttentionRegion.visit_count
      (detect_fixations (H := libm_ref) fixation_params samples_100ms) = [2%Z]
  /\ detect_fixations (H := libm_ref) fixation_params samples_99ms = []
  /\ fixation_runs (H := libm_ref) fixation_params samples_99ms = [(0%nat, 1%nat)].
Proof. repeat split; vm_compute; reflexivity. Qed.

(** The first example of the specification: two samples at (0.5, 0.5),
    0.2 s apart, then one at (0.9, 0.9).  One fixation is returned, centred
    at (0.5, 0.5), of two samples and 200 ms; the runs are [0..1] and [2..2]. *)
Example two_samples_then_a_jump :
  let gaze_points :=
    [GazePoint.mk (1 # 2) (1 # 2) 1 0; GazePoint.mk (1 # 2) (1 # 2) 1 (2 # 10);
     GazePoint.mk (9 # 10) (9 # 10) 1 (4 # 10)] in
  fixation_runs (H := libm_ref) fixation_params gaze_points
  = [(0%nat, 1%nat); (2%nat, 2%nat)] /\
  exists fixation : AttentionRegion.t,
    detect_fixations (H := libm_ref) fixation_params gaze_points = [fixation] /\
    AttentionRegion.x fixation == 1 # 2 /\
    AttentionRegion.y fixation == 1 # 2 /\
    AttentionRegion.duration fixation == 200 /\
    AttentionRegion.visit_count fixation = 2%Z.
Proof.
  cbv zeta. split; [vm_compute; reflexivity|].
  eexists. split; [vm_compute; reflexivity|].
  repeat split; vm_compute; reflexivity.
Qed.

(** ** The heatmap engine *)

Lemma int_of_float_inject_Z (q : Q) (z : Z) : q == inject_Z z -> int_of_float q = z.
Proof.
  unfold Qeq, int_of_float. cbn. intro E.
  rewrite Z.mul_1_r in E. rewrite E. apply Z.quot_mul. discriminate.
Qed.

Lemma saturate_uchar_0 : saturate_uchar 0 = 0.
Proof. reflexivity. Qed.

Lemma Mat_convertTo_8U_zeros (rows cols : nat) :
  map (map saturate_uchar) (repeat (repeat 0 cols) rows)
  = repeat (repeat 0 cols) rows.
Proof.
  rewrite map_repeat. f_equal. rewrite map_repeat. reflexivity.
Qed.

Section HeatmapProperties.
Context `{Libm} `{OpenCV}.

(** On an empty input [generate_heatmap] returns the zero grid it
    allocated, of the size of the density grid. *)
Lemma generate_heatmap_empty (width height : Z) (config : HeatmapConfig.t) :
  let heatmap_width :=
    int_of_float (inject_Z width * HeatmapConfig.resolution_factor config) in
  let heatmap_height :=
    int_of_float (inject_Z height * HeatmapConfig.resolution_factor config) in
  (0 <= heatmap_width)%Z -> (0 <= heatmap_height)%Z ->
  generate_heatmap [] width height config
  = Some (Mat.mk heatmap_height heatmap_width CV_8U
            (repeat (repeat 0 (Z.to_nat heatmap_width)) (Z.to_nat heatmap_height))).
Proof.
  intros hw hh W Hh. unfold generate_heatmap, Mat_zeros. fold hw hh.
  destruct (Z.ltb_spec hh 0); [lia|].
  destruct (Z.ltb_spec hw 0); [lia|].
  cbn [orb]. unfold Mat_convertTo_8U. cbn [Mat.rows Mat.cols Mat.data].
  rewrite Mat_convertTo_8U_zeros. reflexivity.
Qed.

(** With resolution factor 1 the empty-input image has the requested size. *)
Lemma generate_heatmap_empty_factor_1 (width height : Z) (config : HeatmapConfig.t) :
  HeatmapConfig.resolution_factor config == 1 ->
  (0 <= width)%Z -> (0 <= height)%Z ->
  generate_heatmap [] width height config
  = Some (Mat.mk height width CV_8U
            (repeat (repeat 0 (Z.to_nat width)) (Z.to_nat height))).
Proof.
  intros F W Hh.
  assert (Ew : int_of_float (inject_Z width * HeatmapConfig.resolution_factor config)
               = width).
  { apply int_of_float_inject_Z. rewrite F. ring. }
  assert (Eh : int_of_float (inject_Z height * HeatmapConfig.resolution_factor config)
               = height).
  { apply int_of_float_inject_Z. rewrite F. ring. }
  pose proof (generate_heatmap_empty width height config) as G.
  cbv zeta in G. rewrite Ew, Eh in G. apply G; assumption.
Qed.

(** C3 at the failing input.  For a 640 by 480 request with resolution
    factor 0.5 and no gaze points, the image returned is the all-zero 320 by
    240 density grid: the early return comes before the resize to the
    requested size. *)
Theorem empty_input_returns_grid_size :
  generate_heatmap [] 640 480
    (HeatmapConfig.mk "sequential_blue" 1 15 (1 # 2) (6 # 10))
  = Some (Mat.mk 240 320 CV_8U (repeat (repeat 0 320%nat) 240%nat)).
Proof.
  rewrite generate_heatmap_empty by (vm_compute; discriminate).
  reflexivity.
Qed.

Lemma accumulate_point_out_of_bounds (config : HeatmapConfig.t) (kernel : Mat.t)
    (heatmap_width heatmap_height : Z) (heatmap : Mat.t) (gaze_point : GazePoint.t) :
  (int_of_float (GazePoint.x gaze_point * inject_Z heatmap_width)
   >= heatmap_width)%Z \/
  (int_of_float (GazePoint.y gaze_point * inject_Z heatmap_height)
   >= heatmap_height)%Z ->
  accumulate_point config kernel heatmap_width heatmap_height heatmap gaze_point
  = heatmap.
Proof.
  intro Out. unfold accumulate_point.
  destruct (Qltb (GazePoint.confidence gaze_point) (1 # 2)); [reflexivity|].
  cbv zeta.
  match goal with
  | |- (if ?b then _ else _) = _ => assert (B : b = true); [|rewrite B; reflexivity]
  end.
  rewrite !orb_true_iff, !Z.geb_le. destruct Out; [left; left; right | right]; lia.
Qed.

(** C10.  A gaze point whose [x] is exactly 1 maps to the grid column
    [heatmap_width], one whose [y] is exactly 1 to the grid row
    [heatmap_height]; either fails the bounds check, so the iteration for
    this point leaves the density field as it was, whatever its confidence:
    the field accumulated over a list of points is the field accumulated
    over the list without this point. *)
Theorem boundary_point_contributes_nothing (config : HeatmapConfig.t)
    (kernel : Mat.t) (heatmap_width heatmap_height : Z) (heatmap : Mat.t)
    (gaze_point : GazePoint.t) (before after : list GazePoint.t) :
  GazePoint.x gaze_point == 1 \/ GazePoint.y gaze_point == 1 ->
  (GazePoint.x gaze_point == 1 ->
   int_of_float (GazePoint.x gaze_point * inject_Z heatmap_width) = heatmap_width) /\
  (GazePoint.y gaze_point == 1 ->
   int_of_float (GazePoint.y gaze_point * inject_Z heatmap_height) = heatmap_height) /\
  accumulate_point config kernel heatmap_width heatmap_height heatmap gaze_point
  = heatmap /\
  density_field config kernel heatmap_width heatmap_height heatmap
                (before ++ gaze_point :: after)
  = density_field config kernel heatmap_width heatmap_height heatmap
                  (before ++ after).
Proof.
  intro Edge.
  assert (X : GazePoint.x gaze_point == 1 ->
              int_of_float (GazePoint.x gaze_point * inject_Z heatmap_width)
              = heatmap_width).
  { intro E. apply int_of_float_inject_Z. rewrite E. ring. }
  assert (Y : GazePoint.y gaze_point == 1 ->
              int_of_float (GazePoint.y gaze_point * inject_Z heatmap_height)
              = heatmap_height).
  { intro E. apply int_of_float_inject_Z. rewrite E. ring. }
  assert (Skip : forall m : Mat.t,
             accumulate_point config kernel heatmap_width heatmap_height m gaze_point
             = m).
  { intro m. apply accumulate_point_out_of_bounds.
    destruct Edge as [E | E]; [left; rewrite (X E) | right; rewrite (Y E)]; lia. }
  split; [exact X|]. split; [exact Y|]. split; [apply Skip|].
  unfold density_field. rewrite !fold_left_app. cbn [fold_left].
  rewrite Skip. reflexivity.
Qed.

End HeatmapProperties.

(** C10 at a point the estimator produces: from the initial statics and the
    default configuration, the valid full-confidence detection of
    [session_one] is estimated at [x = 1] with confidence 1, and its deposit
    on a 640 by 480 grid is skipped. *)
Lemma boundary_point_contributes_nothing_witness :
  let gaze_point :=
    fst (calculate_gaze_direction (H := libm_ref) gaze_config gaze_statics_init
           (detection 625 1 true 0)) in
  let kernel := create_gaussian_kernel (H := libm_ref) 15 5 in
  let heatmap := Mat.mk 480 640 CV_32F (repeat (repeat 0 640%nat) 480%nat) in
  (GazePoint.x gaze_point == 1 /\ GazePoint.confidence gaze_point == 1) /\
  (GazePoint.x gaze_point == 1 ->
   int_of_float (GazePoint.x gaze_point * inject_Z 640) = 640%Z) /\
  (GazePoint.y gaze_point == 1 ->
   int_of_float (GazePoint.y gaze_point * inject_Z 480) = 480%Z) /\
  accumulate_point heatmap_config kernel 640 480 heatmap gaze_point = heatmap /\
  density_field heatmap_config kernel 640 480 heatmap ([] ++ gaze_point :: [])
  = density_field heatmap_config kernel 640 480 heatmap ([] ++ []).
Proof.
  cbv zeta. split.
  - split; vm_compute; reflexivity.
  - apply (boundary_point_contributes_nothing heatmap_config).
    left. vm_compute. reflexivity.
Defined.

(** * Further properties *)

(** ** Fixation runs *)

Section RunProperties.
Context `{Libm}.
Variable fp : FixationParams.t.

(** What the inner loop has established when it stops: it consumed the
    first [k] points of [rest], all within the threshold, and the next one,
    if any, is not; it added their coordinates and counted them. *)
Lemma scan_run_spec (fx fy : Q) (first : GazePoint.t) (rest : list GazePoint.t) :
  GazePoint.x first = fx -> GazePoint.y first = fy ->
  forall (i : nat) (acc : RunScan),
    (end_idx acc + 1 = i)%nat ->
    exists k : nat,
      (k <= length rest)%nat /\
      end_idx (scan_run fp fx fy rest i acc) = (end_idx acc + k)%nat /\
      visit_count (scan_run fp fx fy rest i acc)
      = (visit_count acc + Z.of_nat k)%Z /\
      sum_x (scan_run fp fx fy rest i acc)
      = fold_left (fun s p => s + GazePoint.x p) (firstn k rest) (sum_x acc) /\
      sum_y (scan_run fp fx fy rest i acc)
      = fold_left (fun s p => s + GazePoint.y p) (firstn k rest) (sum_y acc) /\
      Forall (fun p => within_threshold fp first p = true) (firstn k rest) /\
      (forall p, nth_error rest k = Some p -> within_threshold fp first p = false).
Proof.
  intros Fx Fy. subst fx fy.
  induction rest as [|p rest IH]; intros i acc E; cbn [scan_run].
  - exists 0%nat. cbn [length firstn fold_left nth_error].
    split; [lia|]. split; [lia|]. split; [cbn; lia|].
    split; [reflexivity|]. split; [reflexivity|]. split; [constructor|].
    intros p C. discriminate C.
  - cbv zeta. fold (within_threshold fp first p).
    destruct (within_threshold fp first p) eqn:W.
    + match goal with
      | |- context [scan_run fp _ _ rest (S i) ?a] =>
          destruct (IH (S i) a) as (k & K & En & Vc & Sx & Sy & In & Out)
      end.
      { cbn [end_idx]. lia. }
      cbn [end_idx visit_count sum_x sum_y] in *.
      exists (S k). cbn [length firstn fold_left nth_error].
      split; [lia|]. split; [lia|]. split; [lia|].
      split; [exact Sx|]. split; [exact Sy|].
      split; [constructor; assumption | exact Out].
    + exists 0%nat. cbn [firstn fold_left nth_error length].
      split; [lia|]. split; [lia|]. split; [cbn; lia|].
      split; [reflexivity|]. split; [reflexivity|]. split; [constructor|].
      intros q Eq. inversion Eq; subst. exact W.
Qed.


Lemma run_from_spec (gaze_points : list GazePoint.t) (start_idx : nat) :
  let first := gp_at gaze_points start_idx in
  let rest := skipn (start_idx + 1) gaze_points in
  let r := run_from fp gaze_points start_idx in
  exists k : nat,
    (k <= length rest)%nat /\
    end_idx r = (start_idx + k)%nat /\
    visit_count r = (1 + Z.of_nat k)%Z /\
    sum_x r = fold_left (fun s p => s + GazePoint.x p) (firstn k rest)
                        (GazePoint.x first) /\
    sum_y r = fold_left (fun s p => s + GazePoint.y p) (firstn k rest)
                        (GazePoint.y first) /\
    Forall (fun p => within_threshold fp first p = true) (firstn k rest) /\
    (forall p, nth_error rest k = Some p -> within_threshold fp first p = false).
Proof.
  cbv zeta. unfold run_from. cbv zeta.
  apply (scan_run_spec _ _ (gp_at gaze_points start_idx)); reflexivity.
Qed.

Lemma skipn_nth_error {A : Type} (l : list A) (n k : nat) :
  nth_error (skipn n l) k = nth_error l (n + k).
Proof.
  revert l; induction n as [|n IH]; intro l; [reflexivity|].
  destruct l as [|a l]; [destruct k; reflexivity|]. cbn. apply IH.
Qed.

Lemma gp_at_nth_error (gaze_points : list GazePoint.t) (i : nat) :
  (i < length gaze_points)%nat ->
  nth_error gaze_points i = Some (gp_at gaze_points i).
Proof. intro L. unfold gp_at. apply nth_error_nth'. exact L. Qed.

(** X1.  The fixation scan is greedy: every point of a run after its first
    lies within the position threshold of the run's first point (the test of
    the inner loop), and the point that follows the run, when there is one,
    does not. *)
Theorem runs_are_maximal (gaze_points : list GazePoint.t) (run : nat * nat) :
  In run (fixation_runs fp gaze_points) ->
  (forall i : nat,
      (fst run < i <= snd run)%nat ->
      within_threshold fp (gp_at gaze_points (fst run)) (gp_at gaze_points i) = true) /\
  ((snd run + 1 < length gaze_points)%nat ->
   within_threshold fp (gp_at gaze_points (fst run))
                    (gp_at gaze_points (snd run + 1)) = false).
Proof.
  intro R. rewrite fixation_runs_runs_from in R.
  pose proof (runs_from_wellformed fp gaze_points (length gaze_points) 0) as F.
  rewrite Forall_forall in F. destruct (F run R) as [[B1 B2] W].
  destruct (run_from_spec gaze_points (fst run))
    as (k & K & En & _ & _ & _ & In & Out).
  rewrite <- W in En.
  split.
  - intros i I. rewrite Forall_forall in In. apply In.
    apply nth_error_In with (n := (i - (fst run + 1))%nat).
    rewrite nth_error_firstn.
    destruct (Nat.ltb_spec (i - (fst run + 1)) k); [|lia].
    rewrite skipn_nth_error.
    replace (fst run + 1 + (i - (fst run + 1)))%nat with i by lia.
    apply gp_at_nth_error. lia.
  - intro L. apply Out. rewrite skipn_nth_error.
    replace (fst run + 1 + k)%nat with (snd run + 1)%nat by lia.
    apply gp_at_nth_error. exact L.
Qed.


Lemma emitted_cases (gaze_points : list GazePoint.t) (run : nat * nat) :
  In run (fixation_runs fp gaze_points) ->
  emitted fp gaze_points run = [] \/
  ((fst run < snd run)%nat /\
   emitted fp gaze_points run
   = [run_fixation gaze_points (fst run) (run_from fp gaze_points (fst run))] /\
   inject_Z (FixationParams.min_duration_ms fp)
   <= AttentionRegion.duration
        (run_fixation gaze_points (fst run) (run_from fp gaze_points (fst run)))).
Proof.
  intro R. rewrite fixation_runs_runs_from in R.
  pose proof (runs_from_wellformed fp gaze_points (length gaze_points) 0) as F.
  rewrite Forall_forall in F. destruct (F run R) as [_ W].
  unfold emitted, emit_run. rewrite <- W.
  destruct (Nat.ltb_spec (fst run) (snd run)) as [L | G]; [|left; reflexivity].
  cbv zeta.
  destruct (Qgeb _ _) eqn:D; [|left; reflexivity].
  right. split; [exact L|]. split; [reflexivity|].
  apply Qgeb_true in D. exact D.
Qed.

Lemma detect_fixations_minimum (gaze_points : list GazePoint.t) :
  Forall (fun fixation =>
            inject_Z (FixationParams.min_duration_ms fp)
            <= AttentionRegion.duration fixation /\
            (2 <= AttentionRegion.visit_count fixation)%Z)
         (detect_fixations fp gaze_points).
Proof.
  rewrite detect_fixations_emitted, Forall_forall.
  intros fixation I. apply in_flat_map in I. destruct I as (run & R & E).
  destruct (emitted_cases gaze_points run R) as [N | (L & S & D)].
  - rewrite N in E. destruct E.
  - rewrite S in E. destruct E as [<- | []]. split; [exact D|].
    cbn [run_fixation AttentionRegion.visit_count].
    rewrite fixation_runs_runs_from in R.
    pose proof (runs_from_wellformed fp gaze_points (length gaze_points) 0) as F.
    rewrite Forall_forall in F. destruct (F run R) as [_ W].
    destruct (run_from_spec gaze_points (fst run)) as (k & _ & En & Vc & _).
    rewrite Vc. lia.
Qed.

Lemma flat_map_concat_length {A B C : Type} (f : A -> list B) (g : A -> list C)
    (l : list A) :
  Forall (fun a => (2 * length (f a) <= length (g a))%nat) l ->
  (2 * length (flat_map f l) <= length (concat (map g l)))%nat.
Proof.
  induction 1 as [|a l P _ IH]; [cbn; lia|].
  cbn [flat_map map concat]. rewrite !length_app. lia.
Qed.

Lemma detect_fixations_half (gaze_points : list GazePoint.t) :
  (2 * length (detect_fixations fp gaze_points) <= length gaze_points)%nat.
Proof.
  rewrite detect_fixations_emitted.
  assert (T : length (concat (map run_indices (fixation_runs fp gaze_points)))
              = length gaze_points).
  { rewrite fixation_runs_runs_from, (runs_from_tile fp) by lia.
    rewrite length_seq. lia. }
  rewrite <- T. apply flat_map_concat_length. rewrite Forall_forall.
  intros run R. destruct (emitted_cases gaze_points run R) as [N | (L & S & _)].
  - rewrite N. cbn. lia.
  - rewrite S. unfold run_indices. rewrite length_seq. cbn. lia.
Qed.


Lemma fold_left_Qsum {A : Type} (f : A -> Q) (l : list A) :
  forall a : Q, fold_left (fun s p => s + f p) l a == a + Qsum (map f l).
Proof.
  induction l as [|p l IH]; intro a; cbn [fold_left map Qsum fold_right].
  - ring.
  - rewrite IH. fold (Qsum (map f l)). ring.
Qed.

Lemma skipn_gp_at (gaze_points : list GazePoint.t) (i : nat) :
  (i < length gaze_points)%nat ->
  skipn i gaze_points = gp_at gaze_points i :: skipn (i + 1) gaze_points.
Proof.
  revert gaze_points. induction i as [|i IH]; intros [|p l] L; cbn in L; try lia.
  - reflexivity.
  - cbn [skipn Nat.add]. rewrite (IH l) by lia. reflexivity.
Qed.

Lemma run_points_cons (gaze_points : list GazePoint.t) (run : nat * nat) :
  (fst run <= snd run < length gaze_points)%nat ->
  run_points gaze_points run
  = gp_at gaze_points (fst run)
    :: firstn (snd run - fst run) (skipn (fst run + 1) gaze_points).
Proof.
  intro B. unfold run_points. rewrite skipn_gp_at by lia.
  rewrite Nat.add_1_r. reflexivity.
Qed.

Lemma emitted_centroid (gaze_points : list GazePoint.t)
    (run : nat * nat) (fixation : AttentionRegion.t) :
  In run (fixation_runs fp gaze_points) ->
  emitted fp gaze_points run = [fixation] ->
  AttentionRegion.visit_count fixation
  = Z.of_nat (length (run_points gaze_points run)) /\
  AttentionRegion.x fixation
  == Qsum (map GazePoint.x (run_points gaze_points run))
     / inject_Z (Z.of_nat (length (run_points gaze_points run))) /\
  AttentionRegion.y fixation
  == Qsum (map GazePoint.y (run_points gaze_points run))
     / inject_Z (Z.of_nat (length (run_points gaze_points run))).
Proof.
  intros R E.
  destruct (emitted_cases gaze_points run R) as [N | (L & Em & _)];
    [rewrite N in E; discriminate E|].
  rewrite Em in E. inversion E; subst fixation; clear E.
  rewrite fixation_runs_runs_from in R.
  pose proof (runs_from_wellformed fp gaze_points (length gaze_points) 0) as F.
  rewrite Forall_forall in F. destruct (F run R) as [B W].
  destruct (run_from_spec gaze_points (fst run))
    as (k & K & En & Vc & Sx & Sy & _).
  rewrite <- W in En. assert (Ek : k = (snd run - fst run)%nat) by lia.
  rewrite length_skipn in K.
  assert (Len : length (run_points gaze_points run) = S k).
  { rewrite (run_points_cons gaze_points run B). cbn [length].
    rewrite length_firstn, length_skipn. lia. }
  cbn [run_fixation AttentionRegion.visit_count AttentionRegion.x AttentionRegion.y].
  rewrite Len, Vc, Sx, Sy, !fold_left_Qsum.
  rewrite (run_points_cons gaze_points run B). cbn [map Qsum fold_right].
  rewrite <- Ek.
  replace (1 + Z.of_nat k)%Z with (Z.of_nat (S k)) by lia.
  split; [reflexivity|]. split; reflexivity.
Qed.

Lemma In_firstn_skipn {A : Type} (l : list A) (n k : nat) (a : A) :
  In a (firstn k (skipn n l)) -> In a l.
Proof.
  intro I.
  assert (J : In a (skipn n l)).
  { rewrite <- (firstn_skipn k (skipn n l)). apply in_or_app. left. exact I. }
  rewrite <- (firstn_skipn n l). apply in_or_app. right. exact J.
Qed.

Lemma Qsum_in_unit (l : list Q) :
  Forall in_unit l -> 0 <= Qsum l /\ Qsum l <= inject_Z (Z.of_nat (length l)).
Proof.
  induction 1 as [|q l [Q0 Q1] _ [S0 S1]]; cbn [Qsum fold_right length].
  - split; apply Qle_refl.
  - fold (Qsum l). rewrite Nat2Z.inj_succ, <- Z.add_1_r, inject_Z_plus.
    change (inject_Z 1) with 1. split; lra.
Qed.

Lemma mean_in_unit_list (l : list Q) :
  l <> [] -> Forall in_unit l ->
  in_unit (Qsum l / inject_Z (Z.of_nat (length l))).
Proof.
  intros NE U. destruct (Qsum_in_unit l U) as [S0 S1].
  assert (P : 0 < inject_Z (Z.of_nat (length l))).
  { change 0 with (inject_Z 0). rewrite <- Zlt_Qlt.
    destruct l; [contradiction|cbn [length]; lia]. }
  split.
  - apply Qle_shift_div_l; [exact P|]. lra.
  - apply Qle_shift_div_r; [exact P|]. lra.
Qed.

(** X2.  When every sample lies in the unit square, so does the centroid of
    every fixation [detect_fixations] returns. *)
Theorem fixation_centroids_in_unit (gaze_points : list GazePoint.t) :
  Forall (fun p => in_unit (GazePoint.x p) /\ in_unit (GazePoint.y p)) gaze_points ->
  Forall (fun fixation =>
            in_unit (AttentionRegion.x fixation) /\
            in_unit (AttentionRegion.y fixation))
         (detect_fixations fp gaze_points).
Proof.
  intro U. rewrite detect_fixations_emitted, Forall_forall.
  intros fixation I. apply in_flat_map in I. destruct I as (run & R & E).
  assert (E1 : emitted fp gaze_points run = [fixation]).
  { destruct (emitted_cases gaze_points run R) as [N | (_ & S & _)].
    - rewrite N in E. destruct E.
    - rewrite S in E |- *. destruct E as [<- | []]. reflexivity. }
  destruct (emitted_centroid gaze_points run fixation R E1)
    as (_ & X & Y).
  assert (Sub : Forall (fun p => in_unit (GazePoint.x p) /\ in_unit (GazePoint.y p))
                       (run_points gaze_points run)).
  { rewrite Forall_forall in U |- *. intros p P. apply U.
    unfold run_points in P. apply In_firstn_skipn in P. exact P. }
  assert (NE : run_points gaze_points run <> []).
  { rewrite fixation_runs_runs_from in R.
    pose proof (runs_from_wellformed fp gaze_points (length gaze_points) 0) as F.
    rewrite Forall_forall in F. destruct (F run R) as [B _].
    rewrite (run_points_cons gaze_points run B). discriminate. }
  assert (NEx : map GazePoint.x (run_points gaze_points run) <> [])
    by (destruct (run_points gaze_points run); [contradiction | discriminate]).
  assert (NEy : map GazePoint.y (run_points gaze_points run) <> [])
    by (destruct (run_points gaze_points run); [contradiction | discriminate]).
  rewrite <- (length_map GazePoint.x) in X.
  rewrite <- (length_map GazePoint.y) in Y.
  unfold in_unit in *.
  pose proof (mean_in_unit_list _ NEx) as Mx.
  pose proof (mean_in_unit_list _ NEy) as My.
  unfold in_unit in Mx, My.
  rewrite X, Y. split; [apply Mx | apply My];
    rewrite Forall_map; eapply Forall_impl; try exact Sub; cbn; tauto.
Qed.

(** X3.  Every fixation [detect_fixations] returns lasted the configured
    minimum duration at least and groups two samples or more. *)
Theorem fixations_meet_minimum (gaze_points : list GazePoint.t) :
  Forall (fun fixation =>
            inject_Z (FixationParams.min_duration_ms fp)
            <= AttentionRegion.duration fixation /\
            (2 <= AttentionRegion.visit_count fixation)%Z)
         (detect_fixations fp gaze_points).
Proof. exact (detect_fixations_minimum gaze_points). Qed.

(** X4.  A fixation takes two samples at least and runs do not overlap:
    [detect_fixations] returns at most half as many fixations as it was given
    samples. *)
Theorem fixations_at_most_half (gaze_points : list GazePoint.t) :
  (2 * length (detect_fixations fp gaze_points) <= length gaze_points)%nat.
Proof. exact (detect_fixations_half gaze_points). Qed.

(** X5.  The centroid of a fixation is the arithmetic mean of the points of
    its run, and its visit count is their number. *)
Theorem fixation_centroid_is_mean (gaze_points : list GazePoint.t)
    (run : nat * nat) (fixation : AttentionRegion.t) :
  In run (fixation_runs fp gaze_points) ->
  emitted fp gaze_points run = [fixation] ->
  AttentionRegion.visit_count fixation
  = Z.of_nat (length (run_points gaze_points run)) /\
  AttentionRegion.x fixation
  == Qsum (map GazePoint.x (run_points gaze_points run))
     / inject_Z (Z.of_nat (length (run_points gaze_points run))) /\
  AttentionRegion.y fixation
  == Qsum (map GazePoint.y (run_points gaze_points run))
     / inject_Z (Z.of_nat (length (run_points gaze_points run))).
Proof. exact (emitted_centroid gaze_points run fixation). Qed.

End RunProperties.

(** ** Saccades and the attention summary *)

Section SummaryProperties.
Context `{Libm}.
Variable sp : SaccadeParams.t.
Variable fp : FixationParams.t.

Lemma filter_seq_sorted (f : nat -> bool) (start len : nat) :
  StronglySorted lt (filter f (seq start len)).
Proof.
  revert start. induction len as [|len IH]; intro start; cbn [seq filter].
  - constructor.
  - destruct (f start); [|apply IH].
    constructor; [apply IH|]. rewrite Forall_forall. intros i I.
    apply filter_In in I. destruct I as [I _]. apply in_seq in I. lia.
Qed.

Lemma map_of_nat_sorted (l : list nat) :
  StronglySorted lt l -> StronglySorted Z.lt (map Z.of_nat l).
Proof.
  induction 1 as [|a l S IH F]; cbn [map]; constructor; [exact IH|].
  rewrite Forall_map. eapply Forall_impl; [|exact F]. cbn. intros; lia.
Qed.

Lemma detect_saccades_sorted (gaze_points : list GazePoint.t) :
  StronglySorted Z.lt (detect_saccades sp gaze_points) /\
  (length (detect_saccades sp gaze_points) <= length gaze_points - 2)%nat.
Proof.
  destruct (Nat.le_gt_cases 3 (length gaze_points)) as [L | S].
  - rewrite (detect_saccades_filter sp gaze_points L). split.
    + apply map_of_nat_sorted, filter_seq_sorted.
    + rewrite length_map.
      etransitivity; [apply filter_length_le|]. rewrite length_seq. lia.
  - unfold detect_saccades. apply Nat.ltb_lt in S. rewrite S.
    split; [constructor | cbn; lia].
Qed.

Lemma detect_fixations_single (p : GazePoint.t) : detect_fixations fp [p] = [].
Proof. reflexivity. Qed.

(** On fewer than two samples [analyze_attention_patterns] returns the
    all-zero analysis. *)
Lemma analyze_fewer_than_two (gaze_points : list GazePoint.t) :
  (length gaze_points < 2)%nat ->
  analyze_attention_patterns sp fp gaze_points = AttentionAnalysis.mk [] 0 0 0.
Proof.
  destruct gaze_points as [|p [|q l]]; cbn [length]; intro L; try lia;
    reflexivity.
Qed.

Lemma fold_durations_ge (m : Q) (regions : list AttentionRegion.t) :
  Forall (fun region => m <= AttentionRegion.duration region) regions ->
  forall a : Q,
    a + m * inject_Z (Z.of_nat (length regions))
    <= fold_left (fun total region => total + AttentionRegion.duration region)
                 regions a.
Proof.
  induction 1 as [|r regions R _ IH]; intro a; cbn [fold_left length].
  - change (inject_Z (Z.of_nat 0)) with 0. lra.
  - specialize (IH (a + AttentionRegion.duration r)).
    rewrite Nat2Z.inj_succ, <- Z.add_1_r, inject_Z_plus.
    change (inject_Z 1) with 1.
    eapply Qle_trans; [|exact IH]. lra.
Qed.

(** X6.  The indices [detect_saccades] returns are in strictly increasing
    order (so each occurs once), and there are at most [size - 2] of them. *)
Theorem detect_saccades_increasing (gaze_points : list GazePoint.t) :
  StronglySorted Z.lt (detect_saccades sp gaze_points) /\
  (length (detect_saccades sp gaze_points) <= length gaze_points - 2)%nat.
Proof. exact (detect_saccades_sorted gaze_points). Qed.

(** X7.  The summary of [analyze_attention_patterns]: its regions are the
    fixations detected, at most half as many as samples; the saccade count
    lies between 0 and [size - 2]; the average fixation duration is 0 when
    there is no region and the minimum duration at least otherwise. *)
Theorem analysis_summary_bounds (gaze_points : list GazePoint.t) :
  let analysis := analyze_attention_patterns sp fp gaze_points in
  AttentionAnalysis.regions analysis = detect_fixations fp gaze_points /\
  (2 * length (AttentionAnalysis.regions analysis) <= length gaze_points)%nat /\
  (0 <= AttentionAnalysis.saccade_count analysis
   <= Z.of_nat (length gaze_points - 2))%Z /\
  (AttentionAnalysis.regions analysis = [] ->
   AttentionAnalysis.average_fixation_duration analysis = 0) /\
  (AttentionAnalysis.regions analysis <> [] ->
   inject_Z (FixationParams.min_duration_ms fp)
   <= AttentionAnalysis.average_fixation_duration analysis).
Proof.
  cbv zeta. destruct gaze_points as [|g gs] eqn:G.
  - cbn. split; [reflexivity|]. split; [lia|]. split; [lia|].
    split; [reflexivity | intro C; contradiction].
  - unfold analyze_attention_patterns. cbv zeta.
    cbn [AttentionAnalysis.regions AttentionAnalysis.saccade_count
         AttentionAnalysis.average_fixation_duration].
    rewrite <- G.
    split; [reflexivity|].
    split; [apply detect_fixations_half|].
    destruct (detect_saccades_sorted gaze_points) as [_ L].
    split; [lia|].
    pose proof (detect_fixations_minimum fp gaze_points) as M.
    destruct (detect_fixations fp gaze_points) as [|r rs] eqn:D.
    + split; [reflexivity | intro C; contradiction].
    + split; [discriminate|]. intros _.
      assert (F : Forall (fun region =>
                            inject_Z (FixationParams.min_duration_ms fp)
                            <= AttentionRegion.duration region) (r :: rs)).
      { eapply Forall_impl; [|exact M]. cbn. tauto. }
      pose proof (fold_durations_ge _ _ F 0) as S.
      assert (P : 0 < inject_Z (Z.of_nat (length (r :: rs)))).
      { change 0 with (inject_Z 0). rewrite <- Zlt_Qlt. cbn [length]. lia. }
      apply Qle_shift_div_l; [exact P|]. lra.
Qed.

End SummaryProperties.

(** ** The estimator and the anchor *)

Section PipelineProperties.
Context `{Libm}.
Variable cfg : GazeConfig.t.

Lemma coordinates_in_unit (st : GazeStatics) (e : EyeDetectionResult.t) :
  in_unit (GazeConfig.smoothing_factor cfg) ->
  anchor_in_unit st ->
  point_in_unit (fst (calculate_gaze_direction cfg st e)) /\
  anchor_in_unit (snd (calculate_gaze_direction cfg st e)).
Proof.
  intros Alpha Anchor.
  assert (Zero : in_unit 0) by (unfold in_unit; split; lra).
  unfold point_in_unit.
  destruct (EyeDetectionResult.valid e) eqn:V.
  - destruct (calculate_gaze_direction_valid cfg st e V)
      as (x1 & y1 & c & X1 & Y1 & _ & E).
    rewrite E. clear E. cbv zeta.
    cbn [fst snd GazePoint.x GazePoint.y].
    assert (S : forall p q, in_unit q ->
                (prev_gaze_valid st = true -> in_unit p) ->
                in_unit (if prev_gaze_valid st
                            && Qgeb c (GazeConfig.min_confidence_threshold cfg)
                         then GazeConfig.smoothing_factor cfg * p
                              + (1 - GazeConfig.smoothing_factor cfg) * q
                         else q)).
    { intros p q Q P. destruct (prev_gaze_valid st); cbn [andb]; [|exact Q].
      destruct (Qgeb c _); [|exact Q].
      apply smoothing_in_unit; auto. }
    pose proof (S _ _ X1 (fun V' => proj1 (Anchor V'))) as Xu.
    pose proof (S _ _ Y1 (fun V' => proj2 (Anchor V'))) as Yu.
    split; [split; [exact Xu | exact Yu]|].
    destruct (Qgeb c (GazeConfig.min_confidence_threshold cfg)) eqn:Acc;
      [|exact Anchor].
    intros _. cbn [prev_gaze GazePoint.x GazePoint.y].
    split; assumption.
  - rewrite (calculate_gaze_direction_invalid cfg st e V). cbn [fst snd].
    cbn [GazePoint.x GazePoint.y]. split; [split; exact Zero | exact Anchor].
Qed.

Lemma process_realtime_frame_invariant (frame : option EyeDetectionResult.t)
    (p : Process) :
  in_unit (GazeConfig.smoothing_factor cfg) ->
  pipeline_invariant p ->
  pipeline_invariant (snd (process_realtime_frame cfg frame p)).
Proof.
  intros Alpha Inv. pose proof Inv as (L & U & F & A & M).
  unfold process_realtime_frame.
  destruct (RealtimeState.is_initialized (realtime p)) eqn:I; cbn [negb];
    [|exact Inv].
  destruct frame as [e|]; [|exact Inv].
  destruct (EyeDetectionResult.valid e); [|exact Inv].
  destruct (coordinates_in_unit (gaze p) e Alpha A) as [G A'].
  destruct (calculate_gaze_direction cfg (gaze p) e) as [g st'].
  cbn [fst snd] in *. rewrite M.
  set (pushed := RealtimeState.recent_gaze_points (realtime p) ++ [g]).
  assert (LP : length pushed = S (length (RealtimeState.recent_gaze_points (realtime p))))
    by (unfold pushed; rewrite length_app; cbn; lia).
  assert (FP : Forall point_in_unit pushed).
  { unfold pushed. apply Forall_app. split; [exact F | constructor; [exact G | constructor]]. }
  unfold pipeline_invariant.
  cbn [realtime gaze RealtimeState.recent_gaze_points
       RealtimeState.is_initialized RealtimeState.max_history_size].
  change (size_t_of_int 100) with 100%Z.
  destruct (Z.gtb_spec (Z.of_nat (length pushed)) 100) as [Gt | Le].
  - split; [|split; [discriminate|split; [|split; [exact A' | reflexivity]]]].
    + destruct pushed as [|a l]; cbn [tl length] in *; lia.
    + destruct pushed as [|a l]; cbn [tl]; [constructor|].
      inversion FP; assumption.
  - split; [lia|]. split; [discriminate|]. split; [exact FP|].
    split; [exact A' | reflexivity].
Qed.

Lemma reachable_invariant (p : Process) :
  in_unit (GazeConfig.smoothing_factor cfg) ->
  reachable cfg p -> pipeline_invariant p.
Proof.
  intros Alpha R.
  induction R as [| opened p R IH | frame p R IH | p R IH | e p R IH].
  - unfold pipeline_invariant. cbn.
    split; [lia|]. split; [reflexivity|]. split; [constructor|].
    split; [discriminate | reflexivity].
  - pose proof IH as (L & U & F & A & M). unfold init_realtime_processing.
    destruct (RealtimeState.is_initialized (realtime p)) eqn:I;
      [exact IH|].
    destruct opened; cbn [negb snd]; unfold pipeline_invariant;
      cbn [realtime gaze RealtimeState.recent_gaze_points
           RealtimeState.is_initialized RealtimeState.max_history_size].
    + split; [cbn; lia|]. split; [discriminate|]. split; [constructor|].
      split; assumption.
    + rewrite (U eq_refl). split; [cbn; lia|]. split; [reflexivity|].
      split; [constructor|]. split; assumption.
  - apply process_realtime_frame_invariant; assumption.
  - pose proof IH as (L & U & F & A & M). unfold cleanup_realtime_processing.
    destruct (RealtimeState.is_initialized (realtime p)) eqn:I;
      [|exact IH].
    unfold pipeline_invariant.
    cbn [realtime gaze RealtimeState.recent_gaze_points
         RealtimeState.is_initialized RealtimeState.max_history_size].
    split; [cbn; lia|]. split; [reflexivity|]. split; [constructor|].
    split; assumption.
  - destruct IH as (L & U & F & A & M). unfold pipeline_invariant.
    cbn [realtime gaze].
    split; [exact L|]. split; [exact U|]. split; [exact F|].
    split; [|exact M]. apply coordinates_in_unit; assumption.
Qed.

(** X8.  In every process state that calls of [init_realtime_processing],
    [process_realtime_frame], [cleanup_realtime_processing] and
    [calculate_gaze_direction] can reach from the start of the process, with a
    smoothing factor in [0,1]: the history holds 100 points at most, it is
    empty while the session is not running, every point of it lies in the unit
    square, and so does the smoothing anchor when it is set. *)
Theorem reachable_pipeline_invariant (p : Process) :
  in_unit (GazeConfig.smoothing_factor cfg) ->
  reachable cfg p ->
  (length (get_realtime_history p) <= 100)%nat /\
  (RealtimeState.is_initialized (realtime p) = false ->
   get_realtime_history p = []) /\
  Forall point_in_unit (get_realtime_history p) /\
  anchor_in_unit (gaze p).
Proof.
  intros Alpha R.
  destruct (reachable_invariant p Alpha R) as (L & U & F & A & _).
  unfold get_realtime_history.
  split; [exact L|]. split; [exact U|]. split; [exact F | exact A].
Qed.

Lemma process_frames_inert (frames : list (option EyeDetectionResult.t))
    (p : Process) :
  RealtimeState.is_initialized (realtime p) = false ->
  process_frames cfg frames p = (map (fun _ => GazePoint.mk 0 0 0 0) frames, p).
Proof.
  intro I. induction frames as [|frame frames IH]; [reflexivity|].
  cbn [process_frames map].
  rewrite (process_realtime_frame_skips cfg frame p (or_introl I)).
  rewrite IH. reflexivity.
Qed.

(** X9.  After [cleanup_realtime_processing] the session is not running, a
    second cleanup changes nothing, the smoothing anchor is as before, and
    every [process_realtime_frame] returns the zero point and changes nothing;
    an [init_realtime_processing] whose camera does not open returns -1 and
    leaves the session as inert. *)
Theorem stopped_pipeline_is_inert (p : Process)
    (frames : list (option EyeDetectionResult.t)) :
  let stopped := cleanup_realtime_processing p in
  let failed := init_realtime_processing false stopped in
  RealtimeState.is_initialized (realtime stopped) = false /\
  cleanup_realtime_processing stopped = stopped /\
  gaze stopped = gaze p /\
  process_frames cfg frames stopped
  = (map (fun _ => GazePoint.mk 0 0 0 0) frames, stopped) /\
  fst failed = (-1)%Z /\
  get_realtime_history (snd failed) = get_realtime_history stopped /\
  process_frames cfg frames (snd failed)
  = (map (fun _ => GazePoint.mk 0 0 0 0) frames, snd failed).
Proof.
  cbv zeta.
  assert (I : RealtimeState.is_initialized
                (realtime (cleanup_realtime_processing p)) = false).
  { unfold cleanup_realtime_processing.
    destruct (RealtimeState.is_initialized (realtime p)) eqn:E; [reflexivity | exact E]. }
  split; [exact I|].
  split; [unfold cleanup_realtime_processing at 1; rewrite I; reflexivity|].
  split; [unfold cleanup_realtime_processing;
          destruct (RealtimeState.is_initialized (realtime p)); reflexivity|].
  split; [apply process_frames_inert; exact I|].
  unfold init_realtime_processing. rewrite I. cbn [negb fst snd].
  split; [reflexivity|]. split; [reflexivity|].
  apply process_frames_inert. reflexivity.
Qed.

End PipelineProperties.

Section SmoothingProperties.
Context `{Libm}.
Variable cfg : GazeConfig.t.

(** The estimator in terms of the unsmoothed estimate: the anchor enters
    the coordinates only, and only for an accepted estimate. *)
Lemma calculate_gaze_direction_smooths (st : GazeStatics)
    (e : EyeDetectionResult.t) :
  EyeDetectionResult.valid e = true ->
  calculate_gaze_direction cfg st e =
    let u := unsmoothed cfg e in
    let accepted :=
      Qgeb (GazePoint.confidence u) (GazeConfig.min_confidence_threshold cfg) in
    let alpha := GazeConfig.smoothing_factor cfg in
    let smooth := prev_gaze_valid st && accepted in
    let g :=
      GazePoint.mk
        (if smooth
         then alpha * GazePoint.x (prev_gaze st) + (1 - alpha) * GazePoint.x u
         else GazePoint.x u)
        (if smooth
         then alpha * GazePoint.y (prev_gaze st) + (1 - alpha) * GazePoint.y u
         else GazePoint.y u)
        (GazePoint.confidence u) (GazePoint.timestamp u) in
    (g, if accepted then mkGazeStatics g true else st).
Proof.
  intro V. unfold unsmoothed, calculate_gaze_direction. rewrite V.
  cbn [negb prev_gaze_valid gaze_statics_init andb fst
       GazePoint.x GazePoint.y GazePoint.confidence GazePoint.timestamp].
  reflexivity.
Qed.

(** X10.  The confidence and the timestamp of an estimate do not depend on the
    smoothing anchor: the anchor enters the coordinates only, and with no
    anchor set the estimate is the unsmoothed one. *)
Theorem anchor_moves_coordinates_only (st st' : GazeStatics)
    (e : EyeDetectionResult.t) :
  GazePoint.confidence (fst (calculate_gaze_direction cfg st e))
  = GazePoint.confidence (fst (calculate_gaze_direction cfg st' e)) /\
  GazePoint.timestamp (fst (calculate_gaze_direction cfg st e))
  = EyeDetectionResult.timestamp e /\
  (prev_gaze_valid st = false ->
   fst (calculate_gaze_direction cfg st e) = unsmoothed cfg e).
Proof.
  destruct (EyeDetectionResult.valid e) eqn:V.
  - rewrite !(calculate_gaze_direction_smooths _ e V). cbv zeta.
    cbn [fst GazePoint.confidence GazePoint.timestamp].
    split; [reflexivity|]. split.
    + unfold unsmoothed, calculate_gaze_direction. rewrite V. reflexivity.
    + intros ->. cbn [andb]. destruct (unsmoothed cfg e). reflexivity.
  - unfold unsmoothed.
    rewrite !(calculate_gaze_direction_invalid cfg _ e V). cbn.
    repeat split; reflexivity.
Qed.


(** X12.  The coordinates are clamped whatever the detection's confidences:
    with a smoothing factor in [0,1] and an anchor in the unit square when
    set, [x] and [y] of the estimate lie in [0,1] and the anchor left is again
    in the unit square. *)
Theorem estimate_coordinates_in_unit (st : GazeStatics) (e : EyeDetectionResult.t) :
  in_unit (GazeConfig.smoothing_factor cfg) ->
  anchor_in_unit st ->
  in_unit (GazePoint.x (fst (calculate_gaze_direction cfg st e))) /\
  in_unit (GazePoint.y (fst (calculate_gaze_direction cfg st e))) /\
  anchor_in_unit (snd (calculate_gaze_direction cfg st e)).
Proof.
  intros Alpha Anchor.
  destruct (coordinates_in_unit cfg st e Alpha Anchor) as [[X Y] A].
  split; [exact X|]. split; [exact Y | exact A].
Qed.

End SmoothingProperties.

(** X13.  [calculate_binocular_gaze] returns coordinates in [0,1] and the
    detection's timestamp; when both pupil confidences lie in [0,1] so does
    the confidence returned, which for a valid detection is at most their mean
    (the consistency factor only lowers it). *)
Theorem binocular_estimate_in_unit (cfg : GazeConfig.t) (e : EyeDetectionResult.t) :
  in_unit (GazePoint.x (calculate_binocular_gaze cfg e)) /\
  in_unit (GazePoint.y (calculate_binocular_gaze cfg e)) /\
  GazePoint.timestamp (calculate_binocular_gaze cfg e)
  = EyeDetectionResult.timestamp e /\
  (in_unit (PupilData.confidence (EyeDetectionResult.left_pupil e)) ->
   in_unit (PupilData.confidence (EyeDetectionResult.right_pupil e)) ->
   in_unit (GazePoint.confidence (calculate_binocular_gaze cfg e)) /\
   (EyeDetectionResult.valid e = true ->
    GazePoint.confidence (calculate_binocular_gaze cfg e)
    <= (PupilData.confidence (EyeDetectionResult.left_pupil e)
        + PupilData.confidence (EyeDetectionResult.right_pupil e)) / 2)).
Proof.
  assert (Zero : in_unit 0) by (unfold in_unit; split; lra).
  unfold calculate_binocular_gaze.
  destruct (EyeDetectionResult.valid e); cbn [negb]; cbv zeta;
    cbn [GazePoint.x GazePoint.y GazePoint.confidence GazePoint.timestamp].
  - split; [apply clamp_in_unit|]. split; [apply clamp_in_unit|].
    split; [reflexivity|]. intros L R.
    pose proof (mean_in_unit _ _ L R) as [M0 M1].
    match goal with
    | |- context [std_max 0 (std_min 1 ?g)] =>
        pose proof (clamp_in_unit g) as [C0 C1];
        set (k := std_max 0 (std_min 1 g)) in *
    end.
    set (m := (PupilData.confidence (EyeDetectionResult.left_pupil e)
               + PupilData.confidence (EyeDetectionResult.right_pupil e)) / 2) in *.
    split; [split; nra | intros _; nra].
  - repeat (split; [exact Zero|]). split; [reflexivity|].
    intros _ _. split; [exact Zero | discriminate].
Qed.

(** ** Density fields *)

Lemma list_update_length {A : Type} (l : list A) (i : nat) (f : A -> A) :
  length (list_update l i f) = length l.
Proof.
  revert i. induction l as [|a l IH]; intros [|i]; cbn; auto.
Qed.

Lemma list_update_rows (data : list (list Q)) (i j : nat) (f : Q -> Q) :
  map (@length Q) (list_update data i (fun r => list_update r j f))
  = map (@length Q) data.
Proof.
  revert i. induction data as [|r data IH]; intros [|i]; cbn; auto.
  - rewrite list_update_length. reflexivity.
  - rewrite IH. reflexivity.
Qed.

Lemma list_update_Forall {A : Type} (P : A -> Prop) (l : list A) (i : nat)
    (f : A -> A) :
  (forall a, P a -> P (f a)) -> Forall P l -> Forall P (list_update l i f).
Proof.
  intros F. revert i. induction l as [|a l IH]; intros i U; [destruct i; exact U|].
  inversion U; subst. destruct i; cbn; constructor; auto.
Qed.

Lemma Mat_add_at_shape (m : Mat.t) (row col : Z) (v : Q) :
  Mat_shape (Mat_add_at m row col v) = Mat_shape m.
Proof.
  unfold Mat_shape, Mat_add_at. cbn. rewrite list_update_rows. reflexivity.
Qed.

Lemma Mat_add_at_nonneg (m : Mat.t) (row col : Z) (v : Q) :
  0 <= v -> Mat_nonneg m -> Mat_nonneg (Mat_add_at m row col v).
Proof.
  intros V N. unfold Mat_nonneg, Mat_add_at. cbn [Mat.data].
  apply list_update_Forall; [|exact N].
  intros r R. apply list_update_Forall; [|exact R].
  intros a A. lra.
Qed.

Lemma Mat_at_nonneg (m : Mat.t) (row col : Z) : Mat_nonneg m -> 0 <= Mat_at m row col.
Proof.
  intro N. unfold Mat_at, Mat_nonneg in *.
  assert (R : Forall (fun v => 0 <= v) (nth (Z.to_nat row) (Mat.data m) [])).
  { destruct (nth_in_or_default (Z.to_nat row) (Mat.data m) []) as [I | ->].
    - rewrite Forall_forall in N. apply N. exact I.
    - constructor. }
  destruct (nth_in_or_default (Z.to_nat col)
              (nth (Z.to_nat row) (Mat.data m) []) 0) as [I | ->].
  - rewrite Forall_forall in R. apply R. exact I.
  - apply Qle_refl.
Qed.
(** An invariant of the deposit loops. *)
Lemma fold_left_invariant {A B : Type} (P : A -> Prop) (f : A -> B -> A)
    (l : list B) :
  (forall a b, P a -> P (f a b)) -> forall a, P a -> P (fold_left f l a).
Proof.
  intro F. induction l as [|b l IH]; intros a Pa; cbn; auto.
Qed.

Section DensityProperties.

Lemma accumulate_point_shape (config : HeatmapConfig.t) (kernel : Mat.t)
    (heatmap_width heatmap_height : Z) (heatmap : Mat.t) (gaze_point : GazePoint.t) :
  Mat_shape (accumulate_point config kernel heatmap_width heatmap_height
                              heatmap gaze_point)
  = Mat_shape heatmap.
Proof.
  unfold accumulate_point.
  destruct (Qltb _ _); [reflexivity|]. cbv zeta.
  destruct (_ || _ || _ || _)%bool; [reflexivity|].
  apply (fold_left_invariant (fun m => Mat_shape m = Mat_shape heatmap));
    [|reflexivity].
  intros m ky M.
  apply (fold_left_invariant (fun m => Mat_shape m = Mat_shape heatmap));
    [|exact M].
  intros m' kx M'. destruct (_ && _ && _ && _)%bool; [|exact M'].
  rewrite Mat_add_at_shape. exact M'.
Qed.

Lemma accumulate_point_nonneg (config : HeatmapConfig.t) (kernel : Mat.t)
    (heatmap_width heatmap_height : Z) (heatmap : Mat.t) (gaze_point : GazePoint.t) :
  0 <= HeatmapConfig.intensity_multiplier config ->
  Mat_nonneg kernel -> Mat_nonneg heatmap ->
  Mat_nonneg (accumulate_point config kernel heatmap_width heatmap_height
                               heatmap gaze_point).
Proof.
  intros I K N. unfold accumulate_point.
  destruct (Qltb _ _) eqn:G; [exact N|]. apply Qltb_false in G. cbv zeta.
  destruct (_ || _ || _ || _)%bool; [exact N|].
  apply (fold_left_invariant Mat_nonneg); [|exact N].
  intros m ky M. apply (fold_left_invariant Mat_nonneg); [|exact M].
  intros m' kx M'. destruct (_ && _ && _ && _)%bool; [|exact M'].
  apply Mat_add_at_nonneg; [|exact M'].
  pose proof (Mat_at_nonneg kernel (ky + HeatmapConfig.blur_radius config)
                (kx + HeatmapConfig.blur_radius config) K) as V.
  apply Qmult_le_0_compat; [apply Qmult_le_0_compat; [exact V | lra] | exact I].
Qed.

(** X14.  The accumulation loop of [generate_heatmap] keeps the shape of the
    grid: sizes, depth and the length of every row. *)
Theorem density_field_keeps_shape (config : HeatmapConfig.t) (kernel : Mat.t)
    (heatmap_width heatmap_height : Z) (heatmap : Mat.t)
    (gaze_points : list GazePoint.t) :
  Mat_shape (density_field config kernel heatmap_width heatmap_height
                           heatmap gaze_points)
  = Mat_shape heatmap.
Proof.
  unfold density_field.
  apply (fold_left_invariant (fun m => Mat_shape m = Mat_shape heatmap));
    [|reflexivity].
  intros m p M. rewrite accumulate_point_shape. exact M.
Qed.

(** X15.  With a non-negative intensity multiplier and a kernel without
    negative entry, the accumulation loop of [generate_heatmap] never makes an
    entry of the density field negative. *)
Theorem density_field_nonneg (config : HeatmapConfig.t) (kernel : Mat.t)
    (heatmap_width heatmap_height : Z) (heatmap : Mat.t)
    (gaze_points : list GazePoint.t) :
  0 <= HeatmapConfig.intensity_multiplier config ->
  Mat_nonneg kernel -> Mat_nonneg heatmap ->
  Mat_nonneg (density_field config kernel heatmap_width heatmap_height
                            heatmap gaze_points).
Proof.
  intros I K N. unfold density_field.
  apply (fold_left_invariant Mat_nonneg); [|exact N].
  intros m p M. apply accumulate_point_nonneg; assumption.
Qed.

(** Points below the confidence gate contribute nothing. *)
Lemma density_field_gate (config : HeatmapConfig.t) (kernel : Mat.t)
    (heatmap_width heatmap_height : Z) (gaze_points : list GazePoint.t) :
  forall heatmap : Mat.t,
    density_field config kernel heatmap_width heatmap_height heatmap gaze_points
    = density_field config kernel heatmap_width heatmap_height heatmap
                    (filter passes_heatmap_gate gaze_points).
Proof.
  unfold density_field.
  induction gaze_points as [|p l IH]; intro heatmap; cbn [fold_left filter];
    [reflexivity|].
  unfold passes_heatmap_gate at 1.
  destruct (Qltb (GazePoint.confidence p) (1 # 2)) eqn:G; cbn [negb].
  - unfold accumulate_point at 2. rewrite G. apply IH.
  - cbn [fold_left]. apply IH.
Qed.

End DensityProperties.







Section KernelProperties.
Context `{Libm}.

End KernelProperties.

(** ** Batch paths *)

Section BatchProperties.
Context `{Libm}.
Variable cfg : GazeConfig.t.
Variable sp : SaccadeParams.t.
Variable fp : FixationParams.t.

Lemma collect_for_export_spec (frames : list EyeDetectionResult.t) :
  forall (st : GazeStatics) (gaze_points : list GazePoint.t),
    collect_for_export cfg frames st gaze_points
    = (gaze_points
       ++ filter (fun g => Qgtb (GazePoint.confidence g) (1 # 2))
                 (estimates cfg st (map Some frames)),
       anchor_after cfg st frames).
Proof.
  induction frames as [|e frames IH]; intros st acc;
    cbn [collect_for_export map estimates anchor_after filter].
  - rewrite app_nil_r. reflexivity.
  - destruct (EyeDetectionResult.valid e); [|apply IH].
    destruct (calculate_gaze_direction cfg st e) as [g st'] eqn:E.
    cbn [fst snd filter].
    destruct (Qgtb (GazePoint.confidence g) (1 # 2)); rewrite IH.
    + rewrite <- app_assoc. reflexivity.
    + reflexivity.
Qed.

Lemma process_frames_anchor (frames : list EyeDetectionResult.t) :
  forall p : Process,
    RealtimeState.is_initialized (realtime p) = true ->
    gaze (snd (process_frames cfg (map Some frames) p))
    = anchor_after cfg (gaze p) frames.
Proof.
  induction frames as [|e frames IH]; intros p I; [reflexivity|].
  cbn [map process_frames anchor_after].
  destruct (process_realtime_frame cfg (Some e) p) as [g p1] eqn:E.
  assert (P1 : RealtimeState.is_initialized (realtime p1) = true /\
               gaze p1 = if EyeDetectionResult.valid e
                         then snd (calculate_gaze_direction cfg (gaze p) e)
                         else gaze p).
  { unfold process_realtime_frame in E. rewrite I in E. cbn [negb] in E.
    destruct (EyeDetectionResult.valid e).
    - destruct (calculate_gaze_direction cfg (gaze p) e) as [g' st'].
      inversion E; subst. cbn. rewrite ?I. split; reflexivity.
    - inversion E; subst. split; [exact I | reflexivity]. }
  destruct P1 as [I1 G1]. specialize (IH p1 I1).
  destruct (process_frames cfg (map Some frames) p1) as [pts p2].
  cbn [snd] in *. rewrite IH, G1.
  destruct (EyeDetectionResult.valid e); reflexivity.
Qed.

(** X17.  The frame loop of [export_analysis_to_json_wrapper] collects what a
    running session returns for the same detections, filtered at confidence
    above 0.5, and leaves the smoothing anchor where the session leaves it;
    when nothing is collected the wrapper returns -1. *)
Theorem export_collects_session_points (frames : list EyeDetectionResult.t)
    (p : Process) :
  RealtimeState.is_initialized (realtime p) = true ->
  fst (collect_for_export cfg frames (gaze p) [])
  = filter (fun g => Qgtb (GazePoint.confidence g) (1 # 2))
           (estimates cfg (gaze p) (map Some frames)) /\
  snd (collect_for_export cfg frames (gaze p) [])
  = gaze (snd (process_frames cfg (map Some frames) p)) /\
  (fst (collect_for_export cfg frames (gaze p) []) = [] ->
   forall supported opened created : bool,
     fst (export_analysis_to_json_wrapper cfg sp fp supported opened created frames (gaze p))
     = (-1)%Z).
Proof.
  intro I. rewrite collect_for_export_spec. cbn [fst snd app].
  split; [reflexivity|]. split; [symmetry; apply process_frames_anchor; exact I|].
  intros E supported opened created. unfold export_analysis_to_json_wrapper.
  destruct supported; [|reflexivity]. destruct opened; [|reflexivity].
  cbn [negb]. rewrite collect_for_export_spec. cbn [app]. rewrite E. reflexivity.
Qed.

Lemma video_frame_loop_all (frames : list EyeDetectionResult.t) :
  forall (st : GazeStatics) (gaze_points : list GazePoint.t)
         (processed_frames frame_number : Z),
    video_frame_loop cfg 1 frames st gaze_points processed_frames frame_number
    = (gaze_points
       ++ filter (fun g => Qgtb (GazePoint.confidence g) (3 # 10))
                 (estimates cfg st (map Some frames)),
       (processed_frames + Z.of_nat (length frames))%Z,
       anchor_after cfg st frames).
Proof.
  induction frames as [|e frames IH]; intros st acc n k;
    cbn [video_frame_loop map estimates anchor_after filter length].
  - rewrite app_nil_r, Z.add_0_r. reflexivity.
  - cbv zeta. rewrite Z.rem_1_r. cbn [Z.eqb negb].
    assert (C : (n + 1 + Z.of_nat (length frames)
                 = n + Z.of_nat (S (length frames)))%Z) by lia.
    destruct (EyeDetectionResult.valid e) eqn:V.
    + destruct (calculate_gaze_direction cfg st e) as [g st'] eqn:E.
      cbn [fst snd filter]. rewrite IH, C.
      destruct (Qgtb (GazePoint.confidence g) (3 # 10)).
      * rewrite <- app_assoc. reflexivity.
      * reflexivity.
    + rewrite (calculate_gaze_direction_invalid cfg st e V).
      change (Qgtb (GazePoint.confidence
                      (GazePoint.mk 0 0 0 (EyeDetectionResult.timestamp e)))
                   (3 # 10)) with false.
      rewrite IH, C. reflexivity.
Qed.

(** X18.  With a frame skip factor of 1 the frame loop of [process_video_file]
    processes every frame and collects the session's estimates filtered at
    confidence above 0.3; every point the export loop collects is among them. *)
Theorem video_loop_collects_session_points (frames : list EyeDetectionResult.t)
    (st : GazeStatics) :
  video_frame_loop cfg 1 frames st [] 0 0
  = (filter (fun g => Qgtb (GazePoint.confidence g) (3 # 10))
            (estimates cfg st (map Some frames)),
     Z.of_nat (length frames),
     snd (collect_for_export cfg frames st [])) /\
  incl (fst (collect_for_export cfg frames st []))
       (fst (fst (video_frame_loop cfg 1 frames st [] 0 0))).
Proof.
  rewrite video_frame_loop_all, collect_for_export_spec. cbn [app fst snd].
  split; [reflexivity|].
  intros g I. apply filter_In in I. destruct I as [I C].
  apply filter_In. split; [exact I|].
  apply Qgtb_true in C. apply Qgtb_true. lra.
Qed.

End BatchProperties.

(** ** Utilities *)

Lemma strrchr_app (s1 s2 : string) (c : ascii) :
  strrchr (s1 ++ s2) c
  = match strrchr s2 c with
    | Some i => Some (String.length s1 + i)%nat
    | None => strrchr s1 c
    end.
Proof.
  induction s1 as [|a s1 IH]; cbn [append strrchr String.length].
  - destruct (strrchr s2 c); reflexivity.
  - rewrite IH. destruct (strrchr s2 c); [reflexivity|].
    reflexivity.
Qed.

Lemma strrchr_lt (s : string) (c : ascii) (i : nat) :
  strrchr s c = Some i -> (i < String.length s)%nat.
Proof.
  revert i. induction s as [|a s IH]; intros i E; cbn in *; [discriminate|].
  destruct (strrchr s c) as [j|].
  - inversion E; subst. specialize (IH j eq_refl). lia.
  - destruct (Ascii.eqb a c); inversion E; subst. lia.
Qed.


Lemma substring_prefix (s1 s2 : string) :
  substring 0 (String.length s1) (s1 ++ s2) = s1.
Proof.
  induction s1 as [|a s1 IH]; cbn.
  - destruct s2; reflexivity.
  - rewrite IH. reflexivity.
Qed.

Lemma substring_all (s : string) : substring 0 (String.length s) s = s.
Proof. induction s as [|a s IH]; cbn; [reflexivity | rewrite IH; reflexivity]. Qed.

Lemma substring_suffix (s1 s2 : string) :
  substring (String.length s1) (String.length s2) (s1 ++ s2) = s2.
Proof.
  induction s1 as [|a s1 IH]; cbn.
  - apply substring_all.
  - exact IH.
Qed.

Lemma length_append (s1 s2 : string) :
  String.length (s1 ++ s2) = (String.length s1 + String.length s2)%nat.
Proof. induction s1 as [|a s1 IH]; cbn; [reflexivity | rewrite IH; reflexivity]. Qed.

Lemma strrchr_sep_here (base rest : string) (c : ascii) :
  free_of c rest ->
  strrchr (base ++ String c rest) c = Some (String.length base).
Proof.
  unfold free_of. intro F. rewrite strrchr_app. cbn [strrchr]. rewrite F.
  rewrite Ascii.eqb_refl. f_equal. lia.
Qed.

Lemma strrchr_sep_other (base rest : string) (c d : ascii) :
  free_of c rest -> Ascii.eqb d c = false ->
  strrchr (base ++ String d rest) c = strrchr base c.
Proof.
  unfold free_of. intros F N. rewrite strrchr_app. cbn [strrchr].
  rewrite F, N. reflexivity.
Qed.

(** X19.  [get_output_filename] replaces the extension of the last path
    component by the suffix and the new extension; a dot in a directory name
    is not taken for an extension. *)
Theorem get_output_filename_replaces_extension
    (base ext suffix extension : string) :
  free_of "."%char ext -> free_of "/"%char ext -> free_of "\"%char ext ->
  get_output_filename (Some (base ++ String "." ext)%string) suffix extension
  = Some (base ++ suffix ++ extension)%string /\
  get_output_filename (Some (base ++ String "/" ext)%string) suffix extension
  = Some ((base ++ String "/" ext) ++ suffix ++ extension)%string.
Proof.
  intros D S B. split.
  - unfold get_output_filename. cbv zeta.
    rewrite (strrchr_sep_here base ext "." D).
    rewrite (strrchr_sep_other base ext "/" "." S eq_refl).
    rewrite (strrchr_sep_other base ext "\" "." B eq_refl).
    destruct (strrchr base "/") as [i|] eqn:Sl.
    + apply strrchr_lt in Sl.
      destruct (Nat.ltb_spec i (String.length base)); [|lia].
      rewrite substring_prefix. reflexivity.
    + destruct (strrchr base "\") as [i|] eqn:Bs;
        [|rewrite substring_prefix; reflexivity].
      apply strrchr_lt in Bs.
      destruct (Nat.ltb_spec i (String.length base)); [|lia].
      rewrite substring_prefix. reflexivity.
  - unfold get_output_filename. cbv zeta.
    rewrite (strrchr_sep_here base ext "/" S).
    rewrite (strrchr_sep_other base ext "." "/" D eq_refl).
    destruct (strrchr base ".") as [i|] eqn:Dt;
      [|rewrite substring_all; reflexivity].
    apply strrchr_lt in Dt.
    destruct (Nat.ltb_spec (String.length base) i); [lia|].
    rewrite substring_all. reflexivity.
Qed.

(** X20.  [is_supported_video_format] accepts exactly the readable files whose
    name ends in a dot followed by one of the fourteen listed extensions. *)
Theorem supported_video_format_iff (readable : string -> bool) (filename : string) :
  is_supported_video_format readable (Some filename) = true <->
  readable filename = true /\
  exists base ext : string,
    filename = (base ++ String "." ext)%string /\ In ext supported.
Proof.
  unfold is_supported_video_format. split.
  - destruct (readable filename); cbn [negb]; [|discriminate].
    destruct (strrchr filename ".") as [dot|] eqn:D; [|discriminate].
    intro E. split; [reflexivity|].
    apply existsb_exists in E. destruct E as (ext & I & E).
    apply String.eqb_eq in E.
    exists (substring 0 dot filename), ext. split; [|exact I].
    rewrite <- E. clear E I ext.
    revert dot D. induction filename as [|a s IH]; intros dot D; [discriminate D|].
    cbn [strrchr] in D. destruct (strrchr s ".") as [j|] eqn:J.
    + inversion D; subst dot. cbn. rewrite (IH j eq_refl) at 1. reflexivity.
    + destruct (Ascii.eqb a ".") eqn:A; [|discriminate D].
      inversion D; subst dot. apply Ascii.eqb_eq in A. subst a.
      cbn. rewrite Nat.sub_0_r, substring_all. reflexivity.
  - intros (R & base & ext & -> & I). rewrite R. cbn [negb].
    assert (F : free_of "." ext).
    { unfold supported in I. cbn in I.
      repeat (destruct I as [<- | I]; [reflexivity|]). destruct I. }
    rewrite (strrchr_sep_here base ext "." F).
    apply existsb_exists. exists ext. split; [exact I|].
    apply String.eqb_eq.
    replace (String.length (base ++ String "." ext) - (String.length base + 1))%nat
      with (String.length ext)
      by (rewrite length_append; cbn [String.length]; lia).
    replace (base ++ String "." ext)%string
      with ((base ++ ".") ++ ext)%string
      by (clear; induction base as [|a b IH]; cbn; [|rewrite IH]; reflexivity).
    replace (String.length base + 1)%nat with (String.length (base ++ "."))
      by (rewrite length_append; reflexivity).
    apply substring_suffix.
Qed.


Lemma count_confidence_spec (gaze_points : list GazePoint.t) :
  forall (t : Q) (h m l : Z),
    Forall (fun g => in_unit (GazePoint.confidence g)) gaze_points ->
    exists (t' : Q) (h' m' l' : Z),
      fold_left count_confidence gaze_points (t, h, m, l) = (t', h', m', l') /\
      (h <= h' /\ m <= m' /\ l <= l')%Z /\
      ((h' - h) + (m' - m) + (l' - l) = Z.of_nat (length gaze_points))%Z /\
      t <= t' /\ t' <= t + inject_Z (Z.of_nat (length gaze_points)).
Proof.
  induction gaze_points as [|g gs IH]; intros t h m l F.
  - exists t, h, m, l. cbn. repeat split; try lia; try apply Qle_refl.
    change (inject_Z 0) with 0. lra.
  - inversion F as [|g' gs' [G0 G1] F']; subst.
    cbn [fold_left]. unfold count_confidence at 2.
    assert (Step : forall h1 m1 l1,
               (h <= h1 /\ m <= m1 /\ l <= l1)%Z ->
               ((h1 - h) + (m1 - m) + (l1 - l) = 1)%Z ->
               exists (t' : Q) (h' m' l' : Z),
                 fold_left count_confidence gs
                   (t + GazePoint.confidence g, h1, m1, l1) = (t', h', m', l') /\
                 (h <= h' /\ m <= m' /\ l <= l')%Z /\
                 ((h' - h) + (m' - m) + (l' - l)
                  = Z.of_nat (length (g :: gs)))%Z /\
                 t <= t' /\ t' <= t + inject_Z (Z.of_nat (length (g :: gs)))).
    { intros h1 m1 l1 B S.
      destruct (IH (t + GazePoint.confidence g) h1 m1 l1 F')
        as (t' & h' & m' & l' & E & B' & S' & T0 & T1).
      exists t', h', m', l'. split; [exact E|]. split; [lia|].
      cbn [length]. rewrite Nat2Z.inj_succ, <- Z.add_1_r, inject_Z_plus.
      change (inject_Z 1) with 1. split; [lia|]. split; lra. }
    destruct (Qgeb (GazePoint.confidence g) (8 # 10)); [apply Step; lia|].
    destruct (Qgeb (GazePoint.confidence g) (6 # 10)); apply Step; lia.
Qed.

(** X22.  For a non-empty list of points with confidences in [0,1] and at
    least as many frames as points, the three confidence classes of
    [display_confidence_assessment] partition the points, and the average
    confidence, the detection rate and the high-confidence ratio lie in [0,1],
    the accuracy figure in [0,100]. *)
Theorem confidence_assessment_bounds (gaze_points : list GazePoint.t)
    (total_frames : Z) :
  gaze_points <> [] ->
  (Z.of_nat (length gaze_points) <= total_frames)%Z ->
  Forall (fun g => in_unit (GazePoint.confidence g)) gaze_points ->
  exists a : ConfidenceAssessment.t,
    display_confidence_assessment gaze_points total_frames = Some a /\
    (0 <= ConfidenceAssessment.high_confidence_points a /\
     0 <= ConfidenceAssessment.medium_confidence_points a /\
     0 <= ConfidenceAssessment.low_confidence_points a)%Z /\
    (ConfidenceAssessment.high_confidence_points a
     + ConfidenceAssessment.medium_confidence_points a
     + ConfidenceAssessment.low_confidence_points a
     = Z.of_nat (length gaze_points))%Z /\
    in_unit (ConfidenceAssessment.average_confidence a) /\
    in_unit (ConfidenceAssessment.detection_rate a) /\
    in_unit (ConfidenceAssessment.high_confidence_ratio a) /\
    0 <= ConfidenceAssessment.accuracy_confidence a /\
    ConfidenceAssessment.accuracy_confidence a <= 100.
Proof.
  intros NE T F.
  destruct (count_confidence_spec gaze_points 0 0 0 0 F)
    as (t & h & m & l & E & B & S & T0 & T1).
  unfold display_confidence_assessment.
  destruct gaze_points as [|g gs] eqn:G; [contradiction|]. rewrite <- G in *.
  assert (N : (0 < Z.of_nat (length gaze_points))%Z) by (rewrite G; cbn [length]; lia).
  destruct (Z.leb_spec total_frames 0); [lia|].
  rewrite E. eexists. split; [reflexivity|].
  cbn [ConfidenceAssessment.high_confidence_points
       ConfidenceAssessment.medium_confidence_points
       ConfidenceAssessment.low_confidence_points
       ConfidenceAssessment.average_confidence
       ConfidenceAssessment.detection_rate
       ConfidenceAssessment.high_confidence_ratio
       ConfidenceAssessment.accuracy_confidence].
  set (n := inject_Z (Z.of_nat (length gaze_points))) in *.
  assert (Pn : 0 < n).
  { unfold n. change 0 with (inject_Z 0). rewrite <- Zlt_Qlt. exact N. }
  assert (Pf : 0 < inject_Z total_frames).
  { change 0 with (inject_Z 0). rewrite <- Zlt_Qlt. lia. }
  assert (A : in_unit (t / n)).
  { split; [apply Qle_shift_div_l | apply Qle_shift_div_r]; try exact Pn; lra. }
  assert (D : in_unit (n / inject_Z total_frames)).
  { split; [apply Qle_shift_div_l | apply Qle_shift_div_r]; try exact Pf; try lra.
    rewrite Qmult_1_l. unfold n. rewrite <- Zle_Qle. exact T. }
  assert (Hh : in_unit (inject_Z h / n)).
  { assert (0 <= inject_Z h) by (change 0 with (inject_Z 0); rewrite <- Zle_Qle; lia).
    assert (inject_Z h <= n) by (unfold n; rewrite <- Zle_Qle; lia).
    split; [apply Qle_shift_div_l | apply Qle_shift_div_r]; try exact Pn; lra. }
  split; [lia|]. split; [lia|].
  split; [exact A|]. split; [exact D|]. split; [exact Hh|].
  destruct A, D, Hh. split; lra.
Qed.



(** ** The detector *)

Lemma locate_pupil_confidence (eye_rect : Rect.t) (circles : list (Q * Q * Q))
    (pupil_center : Q * Q) :
  pupil_confidence_level
    (PupilData.confidence (locate_pupil eye_rect circles pupil_center)).
Proof.
  unfold locate_pupil, pupil_confidence_level.
  destruct circles as [|[[cx cy] r] rest]; cbn.
  - destruct (Qgeb (fst pupil_center) 0); cbn; auto.
  - auto.
Qed.

Lemma locate_pupil_fallback (eye_rect : Rect.t) (pupil_center : Q * Q) :
  fst pupil_center < 0 ->
  PupilData.confidence (locate_pupil eye_rect [] pupil_center) = 3 # 10.
Proof.
  intro N. unfold locate_pupil. apply Qgeb_false in N. rewrite N. reflexivity.
Qed.

Lemma pupil_level_bounds (q : Q) :
  pupil_confidence_level q -> 3 # 10 <= q /\ q <= 7 # 10.
Proof. intros [-> | [-> | ->]]; split; lra. Qed.

Lemma detection_confidence_quarter (e : EyeDetectionResult.t) :
  detection_confidence e
  == (EyeRegion.confidence (EyeDetectionResult.left_eye e)
      + EyeRegion.confidence (EyeDetectionResult.right_eye e)
      + PupilData.confidence (EyeDetectionResult.left_pupil e)
      + PupilData.confidence (EyeDetectionResult.right_pupil e)) * (1 # 4).
Proof.
  unfold detection_confidence, Qdiv. change (/ 2) with (1 # 2). ring.
Qed.

Section DetectorProperties.
Context `{Libm}.
Variable rect_and : Rect.t -> Rect.t -> Rect.t.
Variable ecfg : EyeConfig.t.
Variable cfg : GazeConfig.t.

Lemma detect_eyes_valid (result : EyeDetectionResult.t) (d : Detection.t) :
  EyeDetectionResult.valid (detect_eyes_in_frame rect_and ecfg result d) = true ->
  Detection.cascade_ready d = true /\
  (2 <= length (Detection.eyes d))%nat /\
  EyeRegion.confidence
    (EyeDetectionResult.left_eye (detect_eyes_in_frame rect_and ecfg result d))
  = 8 # 10 /\
  EyeRegion.confidence
    (EyeDetectionResult.right_eye (detect_eyes_in_frame rect_and ecfg result d))
  = 8 # 10 /\
  pupil_confidence_level
    (PupilData.confidence
       (EyeDetectionResult.left_pupil (detect_eyes_in_frame rect_and ecfg result d))) /\
  pupil_confidence_level
    (PupilData.confidence
       (EyeDetectionResult.right_pupil (detect_eyes_in_frame rect_and ecfg result d))).
Proof.
  unfold detect_eyes_in_frame. cbv zeta.
  destruct (Detection.cascade_ready d); cbn [negb]; [|discriminate].
  destruct (Detection.eyes d) as [|l [|r rest]]; try discriminate.
  intros _. cbn [EyeDetectionResult.left_eye EyeDetectionResult.right_eye
                 EyeDetectionResult.left_pupil EyeDetectionResult.right_pupil
                 EyeRegion.confidence length].
  split; [reflexivity|]. split; [lia|]. split; [reflexivity|].
  split; [reflexivity|]. split; apply locate_pupil_confidence.
Qed.

Lemma detect_eyes_pupils (result : EyeDetectionResult.t) (d : Detection.t) :
  EyeDetectionResult.valid (detect_eyes_in_frame rect_and ecfg result d) = true ->
  exists left_eye_rect right_eye_rect : Rect.t,
    EyeDetectionResult.left_pupil (detect_eyes_in_frame rect_and ecfg result d)
    = locate_pupil left_eye_rect (Detection.left_circles d)
                   (Detection.left_contour d) /\
    EyeDetectionResult.right_pupil (detect_eyes_in_frame rect_and ecfg result d)
    = locate_pupil right_eye_rect (Detection.right_circles d)
                   (Detection.right_contour d).
Proof.
  unfold detect_eyes_in_frame. cbv zeta.
  destruct (Detection.cascade_ready d); cbn [negb]; [|discriminate].
  destruct (Detection.eyes d) as [|l [|r rest]]; try discriminate.
  intros _. eexists. eexists. split; reflexivity.
Qed.

Lemma detected_confidence_bounds (result : EyeDetectionResult.t) (d : Detection.t) :
  EyeDetectionResult.valid (detect_eyes_in_frame rect_and ecfg result d) = true ->
  11 # 20 <= detection_confidence (detect_eyes_in_frame rect_and ecfg result d) /\
  detection_confidence (detect_eyes_in_frame rect_and ecfg result d) <= 3 # 4.
Proof.
  intro V.
  destruct (detect_eyes_valid result d V)
    as (_ & _ & L & R & Pl & Pr).
  rewrite detection_confidence_quarter, L, R.
  apply pupil_level_bounds in Pl, Pr. destruct Pl, Pr. split; lra.
Qed.

(** X24.  Whatever the detector saw, the estimate of its result lies in the
    unit square; its confidence is 0 when the detection is invalid (cascade
    not loaded, or fewer than two eyes) and between 0.275 and 0.75 otherwise. *)
Theorem detected_estimate_bounds (result : EyeDetectionResult.t)
    (d : Detection.t) (st : GazeStatics) :
  in_unit (GazeConfig.smoothing_factor cfg) ->
  anchor_in_unit st ->
  let eye_result := detect_eyes_in_frame rect_and ecfg result d in
  let gaze_point := fst (calculate_gaze_direction cfg st eye_result) in
  in_unit (GazePoint.x gaze_point) /\ in_unit (GazePoint.y gaze_point) /\
  (EyeDetectionResult.valid eye_result = false ->
   GazePoint.confidence gaze_point = 0) /\
  (EyeDetectionResult.valid eye_result = true ->
   11 # 40 <= GazePoint.confidence gaze_point /\
   GazePoint.confidence gaze_point <= 3 # 4).
Proof.
  intros Alpha Anchor. cbv zeta.
  set (eye_result := detect_eyes_in_frame rect_and ecfg result d).
  destruct (coordinates_in_unit cfg st eye_result Alpha Anchor) as [[X Y] _].
  split; [exact X|]. split; [exact Y|]. split.
  - intro V. rewrite (calculate_gaze_direction_invalid cfg st eye_result V).
    reflexivity.
  - intro V.
    destruct (detected_confidence_bounds result d V) as [Lo Hi].
    fold eye_result in Lo, Hi.
    destruct (calculate_gaze_direction_valid cfg st eye_result V)
      as (x1 & y1 & c & _ & _ & C & E).
    rewrite E. cbn [fst GazePoint.confidence].
    destruct C as [-> | ->]; split; lra.
Qed.

(** X25.  A detection in which a pupil fell back to the centre of its eye box
    (no Hough circle, no contour) never moves the smoothing anchor, for any
    confidence threshold above 0.65 (the default is 0.7). *)
Theorem fallback_pupil_keeps_anchor (result : EyeDetectionResult.t)
    (d : Detection.t) (st : GazeStatics) :
  13 # 20 < GazeConfig.min_confidence_threshold cfg ->
  (Detection.left_circles d = [] /\ fst (Detection.left_contour d) < 0) \/
  (Detection.right_circles d = [] /\ fst (Detection.right_contour d) < 0) ->
  snd (calculate_gaze_direction cfg st
         (detect_eyes_in_frame rect_and ecfg result d))
  = st.
Proof.
  intros T F.
  set (eye_result := detect_eyes_in_frame rect_and ecfg result d).
  destruct (EyeDetectionResult.valid eye_result) eqn:V.
  - destruct (detect_eyes_valid result d V)
      as (_ & _ & L & R & Pl & Pr).
    destruct (detect_eyes_pupils result d V) as (lr & rr & El & Er).
    fold eye_result in L, R, Pl, Pr, El, Er.
    apply pupil_level_bounds in Pl, Pr. destruct Pl as [Pl0 Pl1], Pr as [Pr0 Pr1].
    assert (Dc : 0 <= detection_confidence eye_result /\
                 detection_confidence eye_result <= 13 # 20).
    { rewrite detection_confidence_quarter, L, R.
      destruct F as [[C N] | [C N]].
      - assert (P : PupilData.confidence (EyeDetectionResult.left_pupil eye_result)
                    = 3 # 10).
        { rewrite El, C. apply locate_pupil_fallback. exact N. }
        rewrite P in *. split; lra.
      - assert (P : PupilData.confidence (EyeDetectionResult.right_pupil eye_result)
                    = 3 # 10).
        { rewrite Er, C. apply locate_pupil_fallback. exact N. }
        rewrite P in *. split; lra. }
    destruct (calculate_gaze_direction_valid cfg st eye_result V)
      as (x1 & y1 & c & _ & _ & C & E).
    rewrite E. cbn [snd].
    assert (Low : c < GazeConfig.min_confidence_threshold cfg)
      by (destruct Dc; destruct C as [-> | ->]; lra).
    apply Qgeb_false in Low. rewrite Low. reflexivity.
  - rewrite (calculate_gaze_direction_invalid cfg st eye_result V). reflexivity.
Qed.

End DetectorProperties.

(** ** What the heatmap functions return *)

Section HeatmapResult.
Context `{Libm} `{OpenCV}.

Lemma generate_heatmap_nonempty (p : GazePoint.t) (l : list GazePoint.t)
    (width height : Z) (config : HeatmapConfig.t) :
  generate_heatmap (p :: l) width height config
  = match Mat_zeros
            (int_of_float (inject_Z height * HeatmapConfig.resolution_factor config))
            (int_of_float (inject_Z width * HeatmapConfig.resolution_factor config))
    with
    | None => None
    | Some _ =>
        if negb (Qeq_bool (HeatmapConfig.resolution_factor config) 1)
        then resize Mat.empty width height
        else Some Mat.empty
    end.
Proof.
  unfold generate_heatmap. cbv zeta.
  destruct (Mat_zeros _ _) as [heatmap|]; [|reflexivity].
  destruct (minMaxLoc _) as [min_val max_val]. reflexivity.
Qed.

(** X26.  The image [generate_heatmap] returns for a non-empty input does not
    depend on the gaze points: the local [colored_heatmap] is returned as
    declared.  With resolution factor 1 it is the empty image, which
    [save_heatmap_image] refuses with -1. *)
Theorem generate_heatmap_ignores_points (p : GazePoint.t) (l : list GazePoint.t)
    (width height : Z) (config : HeatmapConfig.t) :
  (forall (p' : GazePoint.t) (l' : list GazePoint.t),
      generate_heatmap (p :: l) width height config
      = generate_heatmap (p' :: l') width height config) /\
  (forall (m : Mat.t) (imwrite : string -> Mat.t -> bool) (filename : string),
      Qeq_bool (HeatmapConfig.resolution_factor config) 1 = true ->
      generate_heatmap (p :: l) width height config = Some m ->
      m = Mat.empty /\ save_heatmap_image imwrite m filename = (-1)%Z).
Proof.
  split.
  - intros p' l'. rewrite !generate_heatmap_nonempty. reflexivity.
  - intros m imwrite filename F. rewrite generate_heatmap_nonempty, F.
    cbn [negb]. destruct (Mat_zeros _ _); [|discriminate].
    intro E. inversion E; subst m. split; reflexivity.
Qed.

Section VideoFileResult.
Variable imwrite : string -> Mat.t -> bool.
Variable addWeighted : Mat.t -> Q -> Mat.t -> Q -> option Mat.t.
Variable cfg : GazeConfig.t.

(** X27.  [process_video_file] never returns 0, given that [resize] raises on
    the empty image (as OpenCV's does): it returns -1 or a [cv::Exception]
    escapes, since the heatmap it generates from a non-empty list of points is
    the empty image. *)
Theorem process_video_file_never_succeeds (opened writer_opened : bool)
    (frame_skip_factor : Z) (frames : list EyeDetectionResult.t)
    (frame_width frame_height : Z) (heatmap_config : HeatmapConfig.t)
    (overlay_frame : option Mat.t) (video_path : string) (visualize : bool)
    (st : GazeStatics) :
  resize Mat.empty frame_width frame_height = None ->
  fst (process_video_file imwrite addWeighted cfg opened writer_opened
         frame_skip_factor frames frame_width frame_height heatmap_config
         overlay_frame video_path visualize st)
  <> Some 0%Z.
Proof.
  intro R. unfold process_video_file.
  destruct opened; cbn [negb]; [|discriminate].
  destruct (visualize && negb writer_opened)%bool; [discriminate|].
  destruct (video_frame_loop _ _ _ _ _ _ _) as [[gaze_points processed] st'].
  destruct gaze_points as [|p l]; [discriminate|].
  rewrite generate_heatmap_nonempty.
  destruct (Mat_zeros _ _); [|discriminate].
  destruct (negb (Qeq_bool _ 1)).
  - rewrite R. discriminate.
  - destruct (get_output_filename _ _ _); [|discriminate].
    cbn. discriminate.
Qed.

End VideoFileResult.
End HeatmapResult.

(** ** Attention and fixation fields *)

Lemma cone_weight_nonneg (distance radius scale : Q) :
  0 < radius -> distance <= radius -> 0 <= scale ->
  0 <= (1 - distance / radius) * scale.
Proof.
  intros R D S. apply Qmult_le_0_compat; [|exact S].
  assert (distance / radius <= 1).
  { apply Qle_shift_div_r; [exact R | lra]. }
  lra.
Qed.

Section FieldProperties.
Context `{Libm} `{OpenCV}.

Lemma attention_point_shape (width height : Z) (attention_map : Mat.t)
    (gaze_point : GazePoint.t) :
  Mat_shape (attention_point width height attention_map gaze_point)
  = Mat_shape attention_map.
Proof.
  unfold attention_point.
  destruct (Qltb _ _); [reflexivity|]. cbv zeta.
  destruct (_ && _ && _ && _)%bool; [|reflexivity].
  apply (fold_left_invariant (fun m => Mat_shape m = Mat_shape attention_map));
    [|reflexivity].
  intros m dy M.
  apply (fold_left_invariant (fun m => Mat_shape m = Mat_shape attention_map));
    [|exact M].
  intros m' dx M'. destruct (_ && _ && _ && _)%bool; [|exact M'].
  destruct (Qleb _ _); [|exact M'].
  rewrite Mat_add_at_shape. exact M'.
Qed.

Lemma attention_point_nonneg (width height : Z) (attention_map : Mat.t)
    (gaze_point : GazePoint.t) :
  Mat_nonneg attention_map ->
  Mat_nonneg (attention_point width height attention_map gaze_point).
Proof.
  intro N. unfold attention_point.
  destruct (Qltb _ _) eqn:G; [exact N|]. apply Qltb_false in G. cbv zeta.
  destruct (_ && _ && _ && _)%bool; [|exact N].
  apply (fold_left_invariant Mat_nonneg); [|exact N].
  intros m dy M. apply (fold_left_invariant Mat_nonneg); [|exact M].
  intros m' dx M'. destruct (_ && _ && _ && _)%bool; [|exact M'].
  destruct (Qleb _ _) eqn:D; [|exact M']. apply Qleb_true in D.
  apply Mat_add_at_nonneg; [|exact M'].
  apply cone_weight_nonneg; [reflexivity | exact D | lra].
Qed.

(** X28.  The attention field of [generate_attention_map] has the shape of the
    map it started from and no negative entry, whatever the confidences of the
    gaze points: only confidences of 0.6 and more deposit, with a weight of 0
    or more. *)
Theorem attention_field_nonneg (width height : Z) (attention_map : Mat.t)
    (gaze_points : list GazePoint.t) :
  Mat_nonneg attention_map ->
  Mat_shape (attention_field width height attention_map gaze_points)
  = Mat_shape attention_map /\
  Mat_nonneg (attention_field width height attention_map gaze_points).
Proof.
  intro N. unfold attention_field. split.
  - apply (fold_left_invariant (fun m => Mat_shape m = Mat_shape attention_map));
      [|reflexivity].
    intros m p M. rewrite attention_point_shape. exact M.
  - apply (fold_left_invariant Mat_nonneg); [|exact N].
    intros m p M. apply attention_point_nonneg. exact M.
Qed.

Lemma std_max_int_ge (a b : Z) : (a <= std_max_int a b)%Z.
Proof. unfold std_max_int. destruct (Z.ltb_spec a b); lia. Qed.

Lemma paint_fixation_shape (width height : Z) (heatmap : Mat.t)
    (fixation : AttentionRegion.t) :
  Mat_shape (paint_fixation width height heatmap fixation) = Mat_shape heatmap.
Proof.
  unfold paint_fixation. cbv zeta.
  destruct (_ && _ && _ && _)%bool; [|reflexivity].
  apply (fold_left_invariant (fun m => Mat_shape m = Mat_shape heatmap));
    [|reflexivity].
  intros m dy M.
  apply (fold_left_invariant (fun m => Mat_shape m = Mat_shape heatmap));
    [|exact M].
  intros m' dx M'. destruct (_ && _ && _ && _)%bool; [|exact M'].
  destruct (Qleb _ _); [|exact M'].
  rewrite Mat_add_at_shape. exact M'.
Qed.

Lemma paint_fixation_nonneg (width height : Z) (heatmap : Mat.t)
    (fixation : AttentionRegion.t) :
  0 <= AttentionRegion.intensity fixation ->
  Mat_nonneg heatmap ->
  Mat_nonneg (paint_fixation width height heatmap fixation).
Proof.
  intros I N. unfold paint_fixation. cbv zeta.
  destruct (_ && _ && _ && _)%bool; [|exact N].
  apply (fold_left_invariant Mat_nonneg); [|exact N].
  intros m dy M. apply (fold_left_invariant Mat_nonneg); [|exact M].
  intros m' dx M'. destruct (_ && _ && _ && _)%bool; [|exact M'].
  destruct (Qleb _ _) eqn:D; [|exact M']. apply Qleb_true in D.
  apply Mat_add_at_nonneg; [|exact M'].
  set (radius := std_max_int 5 _) in *.
  assert (R : 0 < inject_Z radius).
  { change 0 with (inject_Z 0). rewrite <- Zlt_Qlt.
    pose proof (std_max_int_ge 5 (std_min_int 50
      (int_of_float (AttentionRegion.duration fixation / 10)))).
    fold radius in H1. lia. }
  unfold Qdiv at 1. rewrite <- Qmult_assoc.
  apply cone_weight_nonneg; [exact R | exact D |].
  apply Qmult_le_0_compat; [exact I | apply Qinv_le_0_compat; lra].
Qed.

Section FixationField.
Variable fp : FixationParams.t.

Lemma fold_left_dist_nonneg {A : Type} (f : A -> Q) (l : list A) :
  (forall a, 0 <= f a) ->
  forall s : Q, 0 <= s -> 0 <= fold_left (fun stability i => stability + f i) l s.
Proof.
  intro F. induction l as [|a l IH]; intros s S; cbn [fold_left]; [exact S|].
  apply IH. specialize (F a). lra.
Qed.

Lemma run_fixation_intensity (gaze_points : list GazePoint.t) (start_idx : nat)
    (r : RunScan) :
  (forall q : Q, 0 <= sqrt q) ->
  0 <= AttentionRegion.duration (run_fixation gaze_points start_idx r) ->
  0 <= AttentionRegion.intensity (run_fixation gaze_points start_idx r) /\
  AttentionRegion.intensity (run_fixation gaze_points start_idx r)
  <= AttentionRegion.duration (run_fixation gaze_points start_idx r).
Proof.
  intros Sq. unfold run_fixation. cbv zeta.
  cbn [AttentionRegion.duration AttentionRegion.intensity].
  set (duration := (_ - _) * 1000).
  set (total := fold_left _ _ 0).
  set (n := inject_Z (Z.of_nat (end_idx r - start_idx + 1))).
  intro D.
  assert (T : 0 <= total).
  { unfold total.
    apply (fold_left_dist_nonneg
             (fun i => sqrt ((GazePoint.x (gp_at gaze_points i) - _) ^ 2
                             + (GazePoint.y (gp_at gaze_points i) - _) ^ 2))).
    - intro a. apply Sq.
    - lra. }
  assert (N : 0 < n).
  { unfold n. change 0 with (inject_Z 0). rewrite <- Zlt_Qlt. lia. }
  assert (St : 0 <= total / n) by (apply Qle_shift_div_l; [exact N | lra]).
  assert (P : 0 < 1 + total / n * 1000) by nra.
  split.
  - apply Qle_shift_div_l; [exact P | lra].
  - apply Qle_shift_div_r; [exact P | nra].
Qed.

Lemma detect_fixations_intensity (gaze_points : list GazePoint.t) :
  (forall q : Q, 0 <= sqrt q) ->
  (0 <= FixationParams.min_duration_ms fp)%Z ->
  Forall (fun fixation =>
            0 <= AttentionRegion.intensity fixation /\
            AttentionRegion.intensity fixation <= AttentionRegion.duration fixation)
         (detect_fixations fp gaze_points).
Proof.
  intros Sq M. rewrite detect_fixations_emitted, Forall_forall.
  intros fixation I. apply in_flat_map in I. destruct I as (run & R & E).
  destruct (emitted_cases fp gaze_points run R) as [N | (L & S & D)].
  - rewrite N in E. destruct E.
  - rewrite S in E. destruct E as [<- | []].
    apply run_fixation_intensity; [exact Sq|].
    eapply Qle_trans; [|exact D].
    change 0 with (inject_Z 0). rewrite <- Zle_Qle. exact M.
Qed.

(** X29.  With a non-negative [sqrt] and minimum duration, the intensity of
    every fixation lies between 0 and its duration, and the field the fixation
    mode of [generate_advanced_heatmap] paints has the shape of the grid and
    no negative entry. *)
Theorem fixation_field_nonneg (gaze_points : list GazePoint.t)
    (width height : Z) (heatmap : Mat.t) :
  (forall q : Q, 0 <= sqrt q) ->
  (0 <= FixationParams.min_duration_ms fp)%Z ->
  Mat_nonneg heatmap ->
  Forall (fun fixation =>
            0 <= AttentionRegion.intensity fixation /\
            AttentionRegion.intensity fixation <= AttentionRegion.duration fixation)
         (detect_fixations fp gaze_points) /\
  Mat_shape (fold_left (paint_fixation width height)
                       (detect_fixations fp gaze_points) heatmap)
  = Mat_shape heatmap /\
  Mat_nonneg (fold_left (paint_fixation width height)
                        (detect_fixations fp gaze_points) heatmap).
Proof.
  intros Sq M N.
  pose proof (detect_fixations_intensity gaze_points Sq M) as F.
  split; [exact F|]. split.
  - apply (fold_left_invariant (fun m => Mat_shape m = Mat_shape heatmap));
      [|reflexivity].
    intros m p E. rewrite paint_fixation_shape. exact E.
  - revert heatmap N. induction F as [|fixation l [I _] _ IH]; intros heatmap N;
      cbn [fold_left]; [exact N|].
    apply IH. apply paint_fixation_nonneg; assumption.
Qed.

End FixationField.

Section SaccadePaths.
Variable sp : SaccadeParams.t.
Variable line : Mat.t -> Q * Q -> Q * Q -> Mat.t.

Lemma detect_saccades_interior (gaze_points : list GazePoint.t) (idx : Z) :
  In idx (detect_saccades sp gaze_points) ->
  (0 < idx < Z.of_nat (length gaze_points) - 1)%Z.
Proof.
  destruct (Nat.ltb_spec (length gaze_points) 3) as [S | L].
  - unfold detect_saccades. destruct (Nat.ltb_spec (length gaze_points) 3); [|lia].
    intros [].
  - rewrite (detect_saccades_filter sp gaze_points L).
    intro I. apply in_map_iff in I. destruct I as (i & <- & I).
    apply filter_In in I. destruct I as [I _]. apply in_seq in I. lia.
Qed.

(** X30.  Every saccade [generate_advanced_heatmap] finds is drawn: the index
    guard of the saccade mode never rejects an index [detect_saccades]
    returned. *)
Theorem saccade_guard_never_rejects (gaze_points : list GazePoint.t)
    (width height : Z) (heatmap : Mat.t) :
  fold_left (draw_saccade line gaze_points width height)
            (detect_saccades sp gaze_points) heatmap
  = fold_left
      (fun heatmap idx =>
         let before := gp_at gaze_points (Z.to_nat (idx - 1)) in
         let after := gp_at gaze_points (Z.to_nat (idx + 1)) in
         line heatmap
           (GazePoint.x before * inject_Z width,
            GazePoint.y before * inject_Z height)
           (GazePoint.x after * inject_Z width,
            GazePoint.y after * inject_Z height))
      (detect_saccades sp gaze_points) heatmap.
Proof.
  pose proof (detect_saccades_interior gaze_points) as I.
  revert heatmap I. generalize (detect_saccades sp gaze_points) as indices.
  induction indices as [|idx indices IH]; intros heatmap I; [reflexivity|].
  cbn [fold_left]. rewrite IH by (intros j J; apply I; right; exact J).
  f_equal. unfold draw_saccade.
  specialize (I idx (or_introl eq_refl)).
  destruct (Z.gtb_spec idx 0); [|lia].
  destruct (Z.ltb_spec idx (Z.of_nat (length gaze_points) - 1)); [|lia].
  reflexivity.
Qed.

End SaccadePaths.

End FieldProperties.

(** ** Closed instances *)



Lemma sqrt_ref_nonneg (q : Q) : 0 <= sqrt_ref q.
Proof.
  unfold sqrt_ref, Qle. cbn [Qnum Qden]. rewrite Z.mul_1_r. cbn [Z.mul].
  apply Z.sqrt_nonneg.
Qed.

Lemma runs_are_maximal_witness :
  In (0, 1)%nat (fixation_runs (H := libm_ref) fixation_params samples_with_jump) /\
  (forall i : nat,
      (0 < i <= 1)%nat ->
      within_threshold (H := libm_ref) fixation_params
        (gp_at samples_with_jump 0) (gp_at samples_with_jump i) = true) /\
  ((1 + 1 < length samples_with_jump)%nat ->
   within_threshold (H := libm_ref) fixation_params
     (gp_at samples_with_jump 0) (gp_at samples_with_jump (1 + 1)) = false).
Proof.
  split; [left; reflexivity|].
  apply (runs_are_maximal (H := libm_ref) fixation_params samples_with_jump
           (0, 1)%nat).
  left; reflexivity.
Defined.

Lemma fixation_centroid_is_mean_witness :
  let fixation :=
    run_fixation (H := libm_ref) samples_with_jump 0
      (run_from (H := libm_ref) fixation_params samples_with_jump 0) in
  In (0, 1)%nat (fixation_runs (H := libm_ref) fixation_params samples_with_jump) /\
  emitted (H := libm_ref) fixation_params samples_with_jump (0, 1)%nat
  = [fixation] /\
  AttentionRegion.visit_count fixation
  = Z.of_nat (length (run_points samples_with_jump (0, 1)%nat)) /\
  AttentionRegion.x fixation
  == Qsum (map GazePoint.x (run_points samples_with_jump (0, 1)%nat))
     / inject_Z (Z.of_nat (length (run_points samples_with_jump (0, 1)%nat))) /\
  AttentionRegion.y fixation
  == Qsum (map GazePoint.y (run_points samples_with_jump (0, 1)%nat))
     / inject_Z (Z.of_nat (length (run_points samples_with_jump (0, 1)%nat))).
Proof.
  cbv zeta. split; [left; reflexivity|]. split; [reflexivity|].
  apply (fixation_centroid_is_mean (H := libm_ref) fixation_params
           samples_with_jump (0, 1)%nat);
    [left; reflexivity | reflexivity].
Defined.

Lemma fixation_centroids_in_unit_witness :
  Forall (fun p => in_unit (GazePoint.x p) /\ in_unit (GazePoint.y p))
         samples_with_jump /\
  Forall (fun fixation =>
            in_unit (AttentionRegion.x fixation) /\
            in_unit (AttentionRegion.y fixation))
         (detect_fixations (H := libm_ref) fixation_params samples_with_jump).
Proof.
  split; [by_computation|].
  apply (fixation_centroids_in_unit (H := libm_ref) fixation_params
           samples_with_jump).
  by_computation.
Defined.


Lemma estimate_coordinates_in_unit_witness :
  let e := detection 625 2 true 0 in
  in_unit (GazeConfig.smoothing_factor gaze_config) /\
  anchor_in_unit gaze_statics_init /\
  in_unit (GazePoint.x (fst (calculate_gaze_direction (H := libm_ref)
                               gaze_config gaze_statics_init e))) /\
  in_unit (GazePoint.y (fst (calculate_gaze_direction (H := libm_ref)
                               gaze_config gaze_statics_init e))) /\
  anchor_in_unit (snd (calculate_gaze_direction (H := libm_ref)
                         gaze_config gaze_statics_init e)).
Proof.
  cbv zeta.
  assert (A : in_unit (GazeConfig.smoothing_factor gaze_config))
    by by_computation.
  assert (B : anchor_in_unit gaze_statics_init) by (intro C; discriminate C).
  split; [exact A|]. split; [exact B|].
  apply (estimate_coordinates_in_unit (H := libm_ref) gaze_config
           gaze_statics_init (detection 625 2 true 0) A B).
Defined.

Lemma density_field_nonneg_witness :
  let kernel := Mat.mk 1 1 CV_32F [[1]] in
  let gaze_points := [GazePoint.mk (1 # 2) (1 # 2) 1 0] in
  0 <= HeatmapConfig.intensity_multiplier sharp_config /\
  Mat_nonneg kernel /\ Mat_nonneg blank_grid /\
  Mat_nonneg (density_field sharp_config kernel 2 2 blank_grid gaze_points).
Proof.
  cbv zeta.
  assert (I : 0 <= HeatmapConfig.intensity_multiplier sharp_config)
    by by_computation.
  assert (K : Mat_nonneg (Mat.mk 1 1 CV_32F [[1]])) by by_computation.
  assert (N : Mat_nonneg blank_grid) by by_computation.
  split; [exact I|]. split; [exact K|]. split; [exact N|].
  apply (density_field_nonneg sharp_config (Mat.mk 1 1 CV_32F [[1]]) 2 2
           blank_grid [GazePoint.mk (1 # 2) (1 # 2) 1 0] I K N).
Defined.


Lemma process_video_file_never_succeeds_witness :
  resize (OpenCV := opencv_ref) Mat.empty 640 480 = None /\
  fst (process_video_file (H := libm_ref) (H0 := opencv_ref)
         (fun _ _ => true) (fun background _ _ _ => Some background)
         gaze_config true true 1 [detection 0 1 true 0] 640 480 heatmap_config
         None "clip.mp4" false gaze_statics_init)
  <> Some 0%Z.
Proof.
  split; [reflexivity|].
  apply (process_video_file_never_succeeds (H := libm_ref) (H0 := opencv_ref)).
  reflexivity.
Defined.

Lemma attention_field_nonneg_witness :
  let gaze_points := [GazePoint.mk (1 # 2) (1 # 2) 1 0] in
  Mat_nonneg blank_grid /\
  Mat_shape (attention_field (H := libm_ref) 2 2 blank_grid gaze_points)
  = Mat_shape blank_grid /\
  Mat_nonneg (attention_field (H := libm_ref) 2 2 blank_grid gaze_points).
Proof.
  cbv zeta.
  assert (N : Mat_nonneg blank_grid) by by_computation.
  split; [exact N|].
  apply (attention_field_nonneg (H := libm_ref) 2 2 blank_grid
           [GazePoint.mk (1 # 2) (1 # 2) 1 0] N).
Defined.

Lemma fixation_field_nonneg_witness :
  (forall q : Q, 0 <= sqrt (Libm := libm_ref) q) /\
  (0 <= FixationParams.min_duration_ms fixation_params)%Z /\
  Mat_nonneg blank_grid /\
  Forall (fun fixation =>
            0 <= AttentionRegion.intensity fixation /\
            AttentionRegion.intensity fixation <= AttentionRegion.duration fixation)
         (detect_fixations (H := libm_ref) fixation_params samples_with_jump) /\
  Mat_shape (fold_left (paint_fixation (H := libm_ref) 2 2)
               (detect_fixations (H := libm_ref) fixation_params samples_with_jump)
               blank_grid)
  = Mat_shape blank_grid /\
  Mat_nonneg (fold_left (paint_fixation (H := libm_ref) 2 2)
                (detect_fixations (H := libm_ref) fixation_params samples_with_jump)
                blank_grid).
Proof.
  assert (M : (0 <= FixationParams.min_duration_ms fixation_params)%Z)
    by (vm_compute; discriminate).
  assert (N : Mat_nonneg blank_grid) by by_computation.
  split; [exact sqrt_ref_nonneg|]. split; [exact M|]. split; [exact N|].
  apply (fixation_field_nonneg (H := libm_ref) fixation_params
           samples_with_jump 2 2 blank_grid sqrt_ref_nonneg M N).
Defined.

Lemma reachable_pipeline_invariant_witness :
  in_unit (GazeConfig.smoothing_factor gaze_config) /\
  reachable (H := libm_ref) gaze_config session_one /\
  (length (get_realtime_history session_one) <= 100)%nat /\
  (RealtimeState.is_initialized (realtime session_one) = false ->
   get_realtime_history session_one = []) /\
  Forall point_in_unit (get_realtime_history session_one) /\
  anchor_in_unit (gaze session_one).
Proof.
  assert (A : in_unit (GazeConfig.smoothing_factor gaze_config))
    by by_computation.
  assert (R : reachable (H := libm_ref) gaze_config session_one).
  { unfold session_one, fresh_pipeline.
    apply reach_frame, reach_init, reach_start. }
  split; [exact A|]. split; [exact R|].
  apply (reachable_pipeline_invariant (H := libm_ref) gaze_config session_one A R).
Defined.

Lemma get_output_filename_replaces_extension_witness :
  free_of "."%char "mp4" /\ free_of "/"%char "mp4" /\ free_of "\"%char "mp4" /\
  get_output_filename (Some ("videos/clip" ++ String "." "mp4")%string)
                      "_heatmap" ".jpg"
  = Some ("videos/clip" ++ "_heatmap" ++ ".jpg")%string /\
  get_output_filename (Some ("videos/clip" ++ String "/" "mp4")%string)
                      "_heatmap" ".jpg"
  = Some (("videos/clip" ++ String "/" "mp4") ++ "_heatmap" ++ ".jpg")%string.
Proof.
  split; [reflexivity|]. split; [reflexivity|]. split; [reflexivity|].
  apply (get_output_filename_replaces_extension "videos/clip" "mp4"
           "_heatmap" ".jpg"); reflexivity.
Defined.


Lemma confidence_assessment_bounds_witness :
  samples_with_jump <> [] /\
  (Z.of_nat (length samples_with_jump) <= 4)%Z /\
  Forall (fun g => in_unit (GazePoint.confidence g)) samples_with_jump /\
  exists a : ConfidenceAssessment.t,
    display_confidence_assessment samples_with_jump 4 = Some a /\
    (0 <= ConfidenceAssessment.high_confidence_points a /\
     0 <= ConfidenceAssessment.medium_confidence_points a /\
     0 <= ConfidenceAssessment.low_confidence_points a)%Z /\
    (ConfidenceAssessment.high_confidence_points a
     + ConfidenceAssessment.medium_confidence_points a
     + ConfidenceAssessment.low_confidence_points a
     = Z.of_nat (length samples_with_jump))%Z /\
    in_unit (ConfidenceAssessment.average_confidence a) /\
    in_unit (ConfidenceAssessment.detection_rate a) /\
    in_unit (ConfidenceAssessment.high_confidence_ratio a) /\
    0 <= ConfidenceAssessment.accuracy_confidence a /\
    ConfidenceAssessment.accuracy_confidence a <= 100.
Proof.
  assert (F : Forall (fun g => in_unit (GazePoint.confidence g)) samples_with_jump)
    by by_computation.
  split; [discriminate|]. split; [vm_compute; discriminate|]. split; [exact F|].
  apply (confidence_assessment_bounds samples_with_jump 4);
    [discriminate | vm_compute; discriminate | exact F].
Defined.


Lemma detected_estimate_bounds_witness :
  let eye_result :=
    detect_eyes_in_frame rect_and_ref eye_config (detection 0 0 false 0)
                         one_pupil_found in
  let gaze_point :=
    fst (calculate_gaze_direction (H := libm_ref) gaze_config
           gaze_statics_init eye_result) in
  in_unit (GazeConfig.smoothing_factor gaze_config) /\
  anchor_in_unit gaze_statics_init /\
  in_unit (GazePoint.x gaze_point) /\ in_unit (GazePoint.y gaze_point) /\
  (EyeDetectionResult.valid eye_result = false ->
   GazePoint.confidence gaze_point = 0) /\
  (EyeDetectionResult.valid eye_result = true ->
   11 # 40 <= GazePoint.confidence gaze_point /\
   GazePoint.confidence gaze_point <= 3 # 4).
Proof.
  cbv zeta.
  assert (A : in_unit (GazeConfig.smoothing_factor gaze_config))
    by by_computation.
  assert (B : anchor_in_unit gaze_statics_init) by (intro C; discriminate C).
  split; [exact A|]. split; [exact B|].
  apply (detected_estimate_bounds (H := libm_ref) rect_and_ref eye_config
           gaze_config (detection 0 0 false 0) one_pupil_found
           gaze_statics_init A B).
Defined.

Lemma fallback_pupil_keeps_anchor_witness :
  13 # 20 < GazeConfig.min_confidence_threshold gaze_config /\
  ((Detection.left_circles one_pupil_found = [] /\
    fst (Detection.left_contour one_pupil_found) < 0) \/
   (Detection.right_circles one_pupil_found = [] /\
    fst (Detection.right_contour one_pupil_found) < 0)) /\
  snd (calculate_gaze_direction (H := libm_ref) gaze_config gaze_statics_init
         (detect_eyes_in_frame rect_and_ref eye_config (detection 0 0 false 0)
                               one_pupil_found))
  = gaze_statics_init.
Proof.
  assert (T : 13 # 20 < GazeConfig.min_confidence_threshold gaze_config)
    by reflexivity.
  assert (F : (Detection.left_circles one_pupil_found = [] /\
               fst (Detection.left_contour one_pupil_found) < 0) \/
              (Detection.right_circles one_pupil_found = [] /\
               fst (Detection.right_contour one_pupil_found) < 0))
    by (right; split; reflexivity).
  split; [exact T|]. split; [exact F|].
  apply (fallback_pupil_keeps_anchor (H := libm_ref) rect_and_ref eye_config
           gaze_config (detection 0 0 false 0) one_pupil_found
           gaze_statics_init T F).
Defined.

Lemma export_collects_session_points_witness :
  let frames := [detection 0 1 true 0; detection 125 1 true 1] in
  RealtimeState.is_initialized (realtime fresh_pipeline) = true /\
  fst (collect_for_export (H := libm_ref) gaze_config frames
         (gaze fresh_pipeline) [])
  = filter (fun g => Qgtb (GazePoint.confidence g) (1 # 2))
           (estimates (H := libm_ref) gaze_config (gaze fresh_pipeline)
                      (map Some frames)) /\
  snd (collect_for_export (H := libm_ref) gaze_config frames
         (gaze fresh_pipeline) [])
  = gaze (snd (process_frames (H := libm_ref) gaze_config (map Some frames)
                 fresh_pipeline)) /\
  (fst (collect_for_export (H := libm_ref) gaze_config frames
          (gaze fresh_pipeline) []) = [] ->
   forall supported opened created : bool,
     fst (export_analysis_to_json_wrapper (H := libm_ref) gaze_config
            saccade_params fixation_params supported opened created frames
            (gaze fresh_pipeline))
     = (-1)%Z).
Proof.
  cbv zeta. split; [reflexivity|].
  apply (export_collects_session_points (H := libm_ref) gaze_config
           saccade_params fixation_params
           [detection 0 1 true 0; detection 125 1 true 1] fresh_pipeline).
  reflexivity.
Defined.
